(** * MaxScale filter core: a shallow embedding of [server/core/filter.c]

    The development follows the C sources:

    - [include/maxscale/filter.h]: [FILTER_PARAMETER], [FILTER_OBJECT]
      and [FILTER_DEF];
    - [server/core/filter.c]: the registry ([filter_alloc], [filter_free],
      [filter_find], [filter_count_filters]), the option list
      ([filterAddOption]), module loading ([filter_load]) and the per-session
      chain builders ([filterApply], [filterUpstream]);
    - [server/modules/filter/cache/cachefilter.h]: the [CACHE_DEFAULT_*]
      constants.

    C objects live in typed heaps ([gmap addr _]); a pointer is an
    [option addr] with [None] for [NULL].  A [char *] is the [string] of the
    bytes before its terminator.  The C functions are written in a state and
    error monad whose outcomes distinguish a normal return, a process abort
    ([MXS_ABORT_IF_NULL]), undefined behaviour (a wild or null dereference,
    an out of bounds access, a signed overflow) and a loop that never
    leaves.  Everything outside [filter.c] that the functions call (the
    allocator, the module loader, the entry points of a module) is a
    parameter of the model that transforms an abstract world [W]. *)

From Stdlib Require Import ZArith String Ascii List Lia.
From stdpp Require Import base option list gmap strings.

Local Open Scope Z_scope.

(** ** Pointers, arrays and machine integers *)

Definition addr := positive.

(** A C pointer: [None] is [NULL]. *)
Definition pointer := option addr.

(** One element of a pointer array ([char **], [FILTER_PARAMETER **]): a null
    pointer, a pointer to an object, or memory that was never written (what
    [realloc] hands out beyond the old block). *)
Inductive slot (A : Type) : Type :=
  | Null
  | Ref (a : A)
  | Indet.

Arguments Null {A}.
Arguments Ref {A} a.
Arguments Indet {A}.

(** [limits.h] and [stdint.h]. *)
Definition INT_MAX : Z := 2147483647.
Definition UINT32_MAX : Z := 4294967295.
Definition UINT64_MAX : Z := 18446744073709551615.

(** The values of a [uint32_t]. *)
Definition uint32_t (n : Z) : Prop := 0 <= n <= UINT32_MAX.

(** [strcmp]: the sign of the first differing byte, compared as unsigned
    char. *)
Definition strcmp (a b : string) : Z :=
  match String.compare a b with
  | Eq => 0
  | Lt => -1
  | Gt => 1
  end.

(** ** [filter.h] *)

(** <<
    typedef struct { char *name; char *value; } FILTER_PARAMETER;
    >> *)
Module FILTER_PARAMETER.
Record t : Type := { name : string; value : string }.
End FILTER_PARAMETER.
Abbreviation FILTER_PARAMETER := FILTER_PARAMETER.t.

(** The entry points of a filter module.  The core calls [createInstance],
    [newSession], [setDownstream] and [setUpstream]; it only stores
    [routeQuery] and [clientReply] (as code pointers) and compares
    [setUpstream] and [clientReply] with [NULL].  [closeSession],
    [freeSession], [diagnostics] and [getCapabilities] are not used by the
    functions embedded here. *)
Module FILTER_OBJECT.
Section Over.
Context {W : Type}.
Record t : Type := {
  createInstance :
    string -> option (list (slot string)) ->
    option (list (slot FILTER_PARAMETER)) -> W -> pointer * W;
  newSession : pointer -> pointer -> W -> pointer * W;
  setDownstream : pointer -> pointer -> pointer -> W -> W;
  setUpstream : option (pointer -> pointer -> pointer -> W -> W);
  routeQuery : pointer;
  clientReply : pointer
}.
End Over.
Arguments t : clear implicits.
End FILTER_OBJECT.
Abbreviation FILTER_OBJECT := FILTER_OBJECT.t.

(** <<
    typedef struct filter_def {
        char *name; char *module; char **options;
        FILTER_PARAMETER **parameters;
        FILTER filter; FILTER_OBJECT *obj;
        SPINLOCK spin; struct filter_def *next;
    } FILTER_DEF;
    >>
    The embedding is sequential, so the spinlock has no field. *)
Module FILTER_DEF.
Section Over.
Context {W : Type}.
Record t : Type := {
  name : string;
  module : string;
  options : option (list (slot string));
  parameters : option (list (slot FILTER_PARAMETER));
  filter : pointer;
  obj : option (FILTER_OBJECT W);
  next : pointer
}.

Definition with_options (v : option (list (slot string))) (d : t) : t :=
  {| name := name d; module := module d; options := v;
     parameters := parameters d; filter := filter d; obj := obj d;
     next := next d |}.

Definition with_filter (v : pointer) (d : t) : t :=
  {| name := name d; module := module d; options := options d;
     parameters := parameters d; filter := v; obj := obj d;
     next := next d |}.

Definition with_obj (v : option (FILTER_OBJECT W)) (d : t) : t :=
  {| name := name d; module := module d; options := options d;
     parameters := parameters d; filter := filter d; obj := v;
     next := next d |}.

Definition with_next (v : pointer) (d : t) : t :=
  {| name := name d; module := module d; options := options d;
     parameters := parameters d; filter := filter d; obj := obj d;
     next := v |}.
End Over.
Arguments t : clear implicits.
End FILTER_DEF.
Abbreviation FILTER_DEF := FILTER_DEF.t.

(** Modelled from the spec: the chain nodes [DOWNSTREAM] and [UPSTREAM] are
    declared outside the sources at hand; a node holds "the shared instance
    pointer, the per-session handle returned by newSession, and the bound
    entry-point function reference", which are the three members
    [filter.c] assigns. *)
Module DOWNSTREAM.
Record t : Type := {
  instance : pointer;
  session : pointer;
  routeQuery : pointer
}.
End DOWNSTREAM.
Abbreviation DOWNSTREAM := DOWNSTREAM.t.

Module UPSTREAM.
Record t : Type := {
  instance : pointer;
  session : pointer;
  clientReply : pointer
}.
End UPSTREAM.
Abbreviation UPSTREAM := UPSTREAM.t.

(** ** [cachefilter.h] *)

Module Cache.

(** <<
    #define CACHE_DEFAULT_MAX_RESULTSET_ROWS UINT32_MAX
    #define CACHE_DEFAULT_MAX_RESULTSET_SIZE 64 * 1024
    #define CACHE_DEFAULT_TTL                10
    #define CACHE_DEFAULT_DEBUG              0
    #define CACHE_DEFAULT_MAX_COUNT          UINT32_MAX
    #define CACHE_DEFAULT_MAX_SIZE           UINT64_MAX
    >>
    [max_resultset_rows], [max_resultset_size] and [ttl] are [uint32_t]
    members of [CACHE_CONFIG]. *)
Definition CACHE_DEFAULT_MAX_RESULTSET_ROWS : Z := UINT32_MAX.
Definition CACHE_DEFAULT_MAX_RESULTSET_SIZE : Z := 64 * 1024.
Definition CACHE_DEFAULT_TTL : Z := 10.
Definition CACHE_DEFAULT_DEBUG : Z := 0.
Definition CACHE_DEFAULT_MAX_COUNT : Z := UINT32_MAX.
Definition CACHE_DEFAULT_MAX_SIZE : Z := UINT64_MAX.

End Cache.


(** ** The monad of the C functions *)

(** How a call ends: it returns [a] in state [s]; the process aborts; the
    behaviour is undefined; or a loop never leaves. *)
Inductive outcome (S A : Type) : Type :=
  | Ret (a : A) (s : S)
  | Abort
  | Undef
  | Diverge.

Arguments Ret {S A} a s.
Arguments Abort {S A}.
Arguments Undef {S A}.
Arguments Diverge {S A}.

Definition M (S A : Type) : Type := S -> outcome S A.

Definition ret {S A} (a : A) : M S A := fun s => Ret a s.

Definition bind {S A B} (m : M S A) (k : A -> M S B) : M S B :=
  fun s =>
    match m s with
    | Ret a s' => k a s'
    | Abort => Abort
    | Undef => Undef
    | Diverge => Diverge
    end.

Definition abort {S A} : M S A := fun _ => Abort.
Definition undef {S A} : M S A := fun _ => Undef.
Definition diverge {S A} : M S A := fun _ => Diverge.

Declare Scope c_scope.
Delimit Scope c_scope with C.
Notation "x <- c ;; k" := (bind c (fun x => k))
  (at level 100, c at next level, right associativity) : c_scope.
Notation "c ;; k" := (bind c (fun _ => k))
  (at level 100, right associativity) : c_scope.
Local Open Scope c_scope.

(** [a + b] on non-negative [int]s; a signed overflow is undefined. *)
Definition int_add {S} (a b : Z) : M S Z :=
  if decide (a + b <= INT_MAX) then ret (a + b) else undef.

(** <<
    for (i = i0; arr[i]; i++) { body(arr[i]); }
    >>
    over the part [arr] of the array that starts at index [i0]; the value of
    [i] when the loop leaves is returned.  Reading past the end of the array,
    or a slot that was never written, is undefined. *)
Fixpoint for_until_null {S A} (body : A -> M S unit) (arr : list (slot A))
    (i : Z) : M S Z :=
  match arr with
  | [] => undef
  | Null :: _ => ret i
  | Indet :: _ => undef
  | Ref a :: rest =>
      body a ;;
      i' <- int_add i 1 ;;
      for_until_null body rest i'
  end.

(** What the core asks of its collaborators, in call order (newest first in
    a trace), and what it logs. *)
Inductive event : Type :=
  | call_load_module (module type : string) (found : bool)
  | call_createInstance (name : string) (options : option (list (slot string)))
      (parameters : option (list (slot FILTER_PARAMETER))) (result : pointer)
  | call_newSession (instance session result : pointer)
  | call_setDownstream (instance fsession downstream : pointer)
  | call_setUpstream (instance fsession upstream : pointer)
  | log_error (message : string).

(** The two kinds of spinlock of [filter.c]: the registry lock and the lock
    of one definition. *)
Inductive lock : Type :=
  | filter_spin
  | spin (filter : pointer).

Section Core.

Context {W : Type}.

(** Modelled from the spec: the allocator behind [MXS_MALLOC], [MXS_CALLOC],
    [MXS_REALLOC] and [MXS_STRDUP] ([maxscale/alloc.h]) is a collaborator that
    may refuse any request; [mxs_alloc w] tells whether the next request is
    served. *)
Variable mxs_alloc : W -> bool * W.

(** Modelled from the spec: the module loader ([maxscale/modules.h]) is "a
    black box returning a module descriptor", or [NULL]; [MODULE_FILTER] is
    the module type the core asks for. *)
Variable MODULE_FILTER : string.
Variable load_module : string -> string -> W -> option (FILTER_OBJECT W) * W.

(** The memory of the process: the global [allFilters], the live objects of
    each type, the calls made so far, and the world of the collaborators. *)
Record state : Type := {
  allFilters : pointer;
  defs : gmap addr (FILTER_DEF W);
  downs : gmap addr DOWNSTREAM;
  ups : gmap addr UPSTREAM;
  trace : list event;
  world : W
}.

Definition set_allFilters (v : pointer) (s : state) : state :=
  {| allFilters := v; defs := defs s; downs := downs s; ups := ups s;
     trace := trace s; world := world s |}.

Definition set_defs (v : gmap addr (FILTER_DEF W)) (s : state) : state :=
  {| allFilters := allFilters s; defs := v; downs := downs s; ups := ups s;
     trace := trace s; world := world s |}.

Definition set_downs (v : gmap addr DOWNSTREAM) (s : state) : state :=
  {| allFilters := allFilters s; defs := defs s; downs := v; ups := ups s;
     trace := trace s; world := world s |}.

Definition set_ups (v : gmap addr UPSTREAM) (s : state) : state :=
  {| allFilters := allFilters s; defs := defs s; downs := downs s; ups := v;
     trace := trace s; world := world s |}.

Definition set_world (v : W) (s : state) : state :=
  {| allFilters := allFilters s; defs := defs s; downs := downs s;
     ups := ups s; trace := trace s; world := v |}.

Definition emit (e : event) (s : state) : state :=
  {| allFilters := allFilters s; defs := defs s; downs := downs s;
     ups := ups s; trace := e :: trace s; world := world s |}.

Abbreviation C := (M state).

(** *** Memory *)

(** [*filter] for a [FILTER_DEF *]. *)
Definition deref (filter : pointer) : C (FILTER_DEF W) :=
  fun s =>
    match filter with
    | None => Undef
    | Some a =>
        match defs s !! a with
        | Some d => Ret d s
        | None => Undef
        end
    end.

(** [filter->member = v], as the update [f] of the object. *)
Definition assign (filter : pointer) (f : FILTER_DEF W -> FILTER_DEF W)
    : C unit :=
  fun s =>
    match filter with
    | None => Undef
    | Some a =>
        match defs s !! a with
        | Some d => Ret tt (set_defs (<[a := f d]> (defs s)) s)
        | None => Undef
        end
    end.

(** The answer of the allocator to the next request. *)
Definition alloc : C bool :=
  fun s => let '(ok, w) := mxs_alloc (world s) in Ret ok (set_world w s).

(** [MXS_STRDUP(s)]: a copy of [s], or [NULL]. *)
Definition MXS_STRDUP (s : string) : C (option string) :=
  ok <- alloc ;;
  ret (if ok then Some s else None).

(** [MXS_MALLOC(sizeof(FILTER_DEF))]: the address of a block that is not
    live, or [NULL].  The block becomes a live object when its members are
    written. *)
Definition MXS_MALLOC_FILTER_DEF : C pointer :=
  ok <- alloc ;;
  if ok then fun s => Ret (Some (fresh (dom (defs s)))) s else ret None.

(** [MXS_CALLOC(1, sizeof(DOWNSTREAM))]: a new node with every member zero,
    or [NULL]. *)
Definition MXS_CALLOC_DOWNSTREAM : C pointer :=
  ok <- alloc ;;
  if ok then
    fun s =>
      let a := fresh (dom (downs s)) in
      let zero :=
        {| DOWNSTREAM.instance := None; DOWNSTREAM.session := None;
           DOWNSTREAM.routeQuery := None |} in
      Ret (Some a) (set_downs (<[a := zero]> (downs s)) s)
  else ret None.

(** [MXS_CALLOC(1, sizeof(UPSTREAM))]. *)
Definition MXS_CALLOC_UPSTREAM : C pointer :=
  ok <- alloc ;;
  if ok then
    fun s =>
      let a := fresh (dom (ups s)) in
      let zero :=
        {| UPSTREAM.instance := None; UPSTREAM.session := None;
           UPSTREAM.clientReply := None |} in
      Ret (Some a) (set_ups (<[a := zero]> (ups s)) s)
  else ret None.

(** [MXS_CALLOC] of an array of [n] pointers: [n] null pointers, or [NULL]. *)
Definition MXS_CALLOC {A} (n : Z) : C (option (list (slot A))) :=
  ok <- alloc ;;
  ret (if ok then Some (replicate (Z.to_nat n) Null) else None).

(** [MXS_REALLOC] of the pointer array [arr] to [n] pointers: the first [n]
    slots of [arr], followed by unwritten slots up to size [n]; or [NULL]. *)
Definition MXS_REALLOC {A} (arr : list (slot A)) (n : Z)
    : C (option (list (slot A))) :=
  ok <- alloc ;;
  ret (if ok then
         Some (take (Z.to_nat n) arr
                 ++ replicate (Z.to_nat n - length arr)%nat Indet)
       else None).

(** [MXS_FREE] of a string or of an array: these are values of the model, so
    the state does not change. *)
Definition MXS_FREE {A} (x : A) : C unit := ret tt.

(** [MXS_FREE(filter)] for a [FILTER_DEF *]. *)
Definition MXS_FREE_FILTER_DEF (filter : pointer) : C unit :=
  fun s =>
    match filter with
    | None => Ret tt s
    | Some a => Ret tt (set_defs (delete a (defs s)) s)
    end.

(** [MXS_FREE(me)] for a [DOWNSTREAM *]. *)
Definition MXS_FREE_DOWNSTREAM (me : pointer) : C unit :=
  fun s =>
    match me with
    | None => Ret tt s
    | Some a => Ret tt (set_downs (delete a (downs s)) s)
    end.

(** Modelled from the spec: "allocation failure -- treated as fatal at the
    point of occurrence (abort)"; [MXS_ABORT_IF_NULL(p)] aborts the process
    when [p] is [NULL] and [MXS_STRDUP_A] is the copy that aborts instead of
    returning [NULL]. *)
Definition MXS_ABORT_IF_NULL {A} (p : option A) : C A :=
  match p with
  | Some a => ret a
  | None => abort
  end.

Definition MXS_STRDUP_A (s : string) : C string :=
  p <- MXS_STRDUP s ;;
  MXS_ABORT_IF_NULL p.

(** [MXS_ERROR(...)]: one line in the log. *)
Definition MXS_ERROR (message : string) : C unit :=
  fun s => Ret tt (emit (log_error message) s).

(** The embedding is sequential: taking and releasing a spinlock does
    nothing. *)
Definition spinlock_acquire (l : lock) : C unit := ret tt.
Definition spinlock_release (l : lock) : C unit := ret tt.

(** A bound on the number of live definitions a walk along [next] can visit
    before it meets one of them again. *)
Definition live_defs : C nat := fun s => Ret (size (defs s)) s.

(** *** [filter.c]: the registry *)

(** <<
    name = MXS_STRDUP(name);
    module = MXS_STRDUP(module);
    filter = MXS_MALLOC(sizeof(FILTER_DEF));
    if (!name || !module || !filter) { free all three; return NULL; }
    filter->name = name; filter->module = module; filter->filter = NULL;
    filter->options = NULL; filter->obj = NULL; filter->parameters = NULL;
    filter->next = allFilters; allFilters = filter;
    return filter;
    >> *)
Definition filter_alloc (name module : string) : C pointer :=
  name <- MXS_STRDUP name ;;
  module <- MXS_STRDUP module ;;
  filter <- MXS_MALLOC_FILTER_DEF ;;
  match name, module, filter with
  | Some name, Some module, Some a =>
      spinlock_acquire filter_spin ;;
      (fun s =>
         let d :=
           {| FILTER_DEF.name := name; FILTER_DEF.module := module;
              FILTER_DEF.options := None; FILTER_DEF.parameters := None;
              FILTER_DEF.filter := None; FILTER_DEF.obj := None;
              FILTER_DEF.next := allFilters s |} in
         Ret tt (set_allFilters (Some a) (set_defs (<[a := d]> (defs s)) s))) ;;
      spinlock_release filter_spin ;;
      ret (Some a)
  | _, _, _ =>
      MXS_FREE name ;;
      MXS_FREE module ;;
      MXS_FREE_FILTER_DEF filter ;;
      ret None
  end.

(** <<
    ptr = allFilters;
    while (ptr && ptr->next != filter) ptr = ptr->next;
    >> *)
Fixpoint filter_free_loop (fuel : nat) (filter ptr : pointer) : C pointer :=
  match ptr with
  | None => ret None
  | Some _ =>
      match fuel with
      | O => diverge
      | S fuel =>
          d <- deref ptr ;;
          if decide (FILTER_DEF.next d <> filter)
          then filter_free_loop fuel filter (FILTER_DEF.next d)
          else ret ptr
      end
  end.

(** <<
    if (filter->parameters) {
        for (int i = 0; filter->parameters[i]; i++) {
            MXS_FREE(filter->parameters[i]->name);
            MXS_FREE(filter->parameters[i]->value);
        }
        MXS_FREE(filter->parameters);
    }
    >> *)
Definition filter_free_parameters (filter : pointer) : C unit :=
  d <- deref filter ;;
  match FILTER_DEF.parameters d with
  | Some arr =>
      for_until_null
        (fun p =>
           MXS_FREE (FILTER_PARAMETER.name p) ;;
           MXS_FREE (FILTER_PARAMETER.value p))
        arr 0 ;;
      MXS_FREE arr
  | None => ret tt
  end.

(** [filter_free]: unlink [filter] from the list that starts at
    [allFilters], then release its strings, its options, its parameters and
    the object itself. *)
Definition filter_free (filter : pointer) : C unit :=
  match filter with
  | None => ret tt
  | Some _ =>
      spinlock_acquire filter_spin ;;
      (fun s =>
         if decide (allFilters s = filter) then
           (d <- deref filter ;;
            fun s => Ret tt (set_allFilters (FILTER_DEF.next d) s)) s
         else
           (fuel <- live_defs ;;
            ptr <- filter_free_loop fuel filter (allFilters s) ;;
            match ptr with
            | Some _ =>
                d <- deref filter ;;
                assign ptr (FILTER_DEF.with_next (FILTER_DEF.next d))
            | None => ret tt
            end) s) ;;
      spinlock_release filter_spin ;;
      d <- deref filter ;;
      MXS_FREE (FILTER_DEF.name d) ;;
      MXS_FREE (FILTER_DEF.module d) ;;
      match FILTER_DEF.options d with
      | Some arr =>
          for_until_null (fun o => MXS_FREE o) arr 0 ;;
          MXS_FREE arr
      | None => ret tt
      end ;;
      filter_free_parameters filter ;;
      MXS_FREE_FILTER_DEF filter
  end.

(** <<
    while (filter) {
        if (strcmp(filter->name, name) == 0) break;
        filter = filter->next;
    }
    >> *)
Fixpoint filter_find_loop (fuel : nat) (name : string) (filter : pointer)
    : C pointer :=
  match filter with
  | None => ret None
  | Some _ =>
      match fuel with
      | O => diverge
      | S fuel =>
          d <- deref filter ;;
          if decide (strcmp (FILTER_DEF.name d) name = 0)
          then ret filter
          else filter_find_loop fuel name (FILTER_DEF.next d)
      end
  end.

Definition filter_find (name : string) : C pointer :=
  spinlock_acquire filter_spin ;;
  fuel <- live_defs ;;
  filter <- (fun s => filter_find_loop fuel name (allFilters s) s) ;;
  spinlock_release filter_spin ;;
  ret filter.

(** <<
    if (strcmp(name, "type") == 0 || strcmp(name, "module") == 0) return 1;
    return 0;
    >> *)
Definition filter_standard_parameter (name : string) : Z :=
  if (strcmp name "type" =? 0) || (strcmp name "module" =? 0) then 1 else 0.

(** <<
    while (filter) { i++; filter = filter->next; }
    >> *)
Fixpoint filter_count_filters_loop (fuel : nat) (i : Z) (filter : pointer)
    : C Z :=
  match filter with
  | None => ret i
  | Some _ =>
      match fuel with
      | O => diverge
      | S fuel =>
          i <- int_add i 1 ;;
          d <- deref filter ;;
          filter_count_filters_loop fuel i (FILTER_DEF.next d)
      end
  end.

Definition filter_count_filters : C Z :=
  spinlock_acquire filter_spin ;;
  fuel <- live_defs ;;
  i <- (fun s => filter_count_filters_loop fuel 0 (allFilters s) s) ;;
  spinlock_release filter_spin ;;
  ret i.

(** *** [filter.c]: options *)

(** [filter->options[i] = v]. *)
Definition options_store (filter : pointer) (i : Z) (v : slot string)
    : C unit :=
  d <- deref filter ;;
  match FILTER_DEF.options d with
  | Some arr =>
      if decide (0 <= i < Z.of_nat (length arr))
      then assign filter
             (FILTER_DEF.with_options (Some (<[Z.to_nat i := v]> arr)))
      else undef
  | None => undef
  end.

(** [filter->options[i]]. *)
Definition options_load (filter : pointer) (i : Z) : C (option string) :=
  d <- deref filter ;;
  match FILTER_DEF.options d with
  | Some arr =>
      match arr !! Z.to_nat i with
      | Some Null => ret None
      | Some (Ref o) => ret (Some o)
      | Some Indet => undef
      | None => undef
      end
  | None => undef
  end.

(** <<
    if (filter->options == NULL) {
        filter->options = MXS_CALLOC(2, sizeof(options[0]));
        MXS_ABORT_IF_NULL(filter->options);
        filter->options[0] = MXS_STRDUP_A(option);
        filter->options[1] = NULL;
    } else {
        for (i = 0; filter->options[i]; i++) { ; }
        filter->options = MXS_REALLOC(filter->options, (i + 2) * sizeof(options[0]));
        MXS_ABORT_IF_NULL(filter->options);
        filter->options[i] = MXS_STRDUP_A(option);
        MXS_ABORT_IF_NULL(filter->options[i]);
        filter->options[i + 1] = NULL;
    }
    >> *)
Definition filterAddOption (filter : pointer) (option : string) : C unit :=
  spinlock_acquire (spin filter) ;;
  d <- deref filter ;;
  match FILTER_DEF.options d with
  | None =>
      arr <- MXS_CALLOC 2 ;;
      assign filter (FILTER_DEF.with_options arr) ;;
      MXS_ABORT_IF_NULL arr ;;
      o <- MXS_STRDUP_A option ;;
      options_store filter 0 (Ref o) ;;
      options_store filter 1 Null
  | Some arr =>
      i <- for_until_null (fun _ => ret tt) arr 0 ;;
      n <- int_add i 2 ;;
      arr <- MXS_REALLOC arr n ;;
      assign filter (FILTER_DEF.with_options arr) ;;
      MXS_ABORT_IF_NULL arr ;;
      o <- MXS_STRDUP_A option ;;
      options_store filter i (Ref o) ;;
      o <- options_load filter i ;;
      MXS_ABORT_IF_NULL o ;;
      options_store filter (i + 1) Null
  end ;;
  spinlock_release (spin filter).

(** *** [filter.c]: loading *)

(** [load_module(module, MODULE_FILTER)]. *)
Definition invoke_load_module (module : string)
    : C (option (FILTER_OBJECT W)) :=
  fun s =>
    let '(o, w) := load_module module MODULE_FILTER (world s) in
    let found := match o with Some _ => true | None => false end in
    Ret o (emit (call_load_module module MODULE_FILTER found) (set_world w s)).

(** [(obj->createInstance)(name, options, parameters)]. *)
Definition invoke_createInstance (obj : FILTER_OBJECT W) (name : string)
    (options : option (list (slot string)))
    (parameters : option (list (slot FILTER_PARAMETER))) : C pointer :=
  fun s =>
    let '(r, w) :=
      FILTER_OBJECT.createInstance obj name options parameters (world s) in
    Ret r (emit (call_createInstance name options parameters r)
             (set_world w s)).

(** [obj->newSession(instance, session)]. *)
Definition invoke_newSession (obj : FILTER_OBJECT W)
    (instance session : pointer) : C pointer :=
  fun s =>
    let '(r, w) := FILTER_OBJECT.newSession obj instance session (world s) in
    Ret r (emit (call_newSession instance session r) (set_world w s)).

(** [obj->setDownstream(instance, fsession, downstream)]. *)
Definition invoke_setDownstream (obj : FILTER_OBJECT W)
    (instance fsession downstream : pointer) : C unit :=
  fun s =>
    let w :=
      FILTER_OBJECT.setDownstream obj instance fsession downstream (world s) in
    Ret tt (emit (call_setDownstream instance fsession downstream)
              (set_world w s)).

(** [setUpstream(instance, fsession, upstream)] through the entry point
    [setUpstream] of a module. *)
Definition invoke_setUpstream
    (setUpstream : pointer -> pointer -> pointer -> W -> W)
    (instance fsession upstream : pointer) : C unit :=
  fun s =>
    let w := setUpstream instance fsession upstream (world s) in
    Ret tt (emit (call_setUpstream instance fsession upstream)
              (set_world w s)).

(** [filter->obj->...]: the module object behind a non null [obj]. *)
Definition deref_obj (obj : option (FILTER_OBJECT W)) : C (FILTER_OBJECT W) :=
  match obj with
  | Some o => ret o
  | None => undef
  end.

(** [ss_dassert(b)]: a debug build aborts when [b] is false. *)
Definition ss_dassert (b : bool) : C unit :=
  if b then ret tt else abort.

(** <<
    bool rval = false;
    if (filter) {
        if (filter->filter) {
            rval = true;
        } else {
            if (filter->obj == NULL) {
                if ((filter->obj = load_module(filter->module, MODULE_FILTER)) == NULL)
                    MXS_ERROR("Failed to load filter module '%s'.", filter->module);
            }
            if (filter->obj) {
                ss_dassert(!filter->filter);
                if ((filter->filter = (filter->obj->createInstance)(filter->name,
                         filter->options, filter->parameters)))
                    rval = true;
                else
                    MXS_ERROR("Failed to create filter '%s' instance.", filter->name);
            }
        }
    }
    return rval;
    >> *)
Definition filter_load (filter : pointer) : C bool :=
  match filter with
  | None => ret false
  | Some _ =>
      d <- deref filter ;;
      match FILTER_DEF.filter d with
      | Some _ => ret true
      | None =>
          match FILTER_DEF.obj d with
          | None =>
              o <- invoke_load_module (FILTER_DEF.module d) ;;
              assign filter (FILTER_DEF.with_obj o) ;;
              match o with
              | None =>
                  MXS_ERROR ("Failed to load filter module '"
                               ++ FILTER_DEF.module d ++ "'.")
              | Some _ => ret tt
              end
          | Some _ => ret tt
          end ;;
          d <- deref filter ;;
          match FILTER_DEF.obj d with
          | Some o =>
              ss_dassert (negb (bool_decide (is_Some (FILTER_DEF.filter d)))) ;;
              i <- invoke_createInstance o (FILTER_DEF.name d)
                     (FILTER_DEF.options d) (FILTER_DEF.parameters d) ;;
              assign filter (FILTER_DEF.with_filter i) ;;
              match i with
              | Some _ => ret true
              | None =>
                  MXS_ERROR ("Failed to create filter '"
                               ++ FILTER_DEF.name d ++ "' instance.") ;;
                  ret false
              end
          | None => ret false
          end
      end
  end.

(** *** [filter.c]: the chains of a session *)

(** [*me] and [me->member = v] for a [DOWNSTREAM *] and an [UPSTREAM *]. *)
Definition deref_DOWNSTREAM (me : pointer) : C DOWNSTREAM :=
  fun s =>
    match me with
    | None => Undef
    | Some a =>
        match downs s !! a with
        | Some n => Ret n s
        | None => Undef
        end
    end.

Definition assign_DOWNSTREAM (me : pointer) (f : DOWNSTREAM -> DOWNSTREAM)
    : C unit :=
  n <- deref_DOWNSTREAM me ;;
  fun s =>
    match me with
    | None => Undef
    | Some a => Ret tt (set_downs (<[a := f n]> (downs s)) s)
    end.

Definition deref_UPSTREAM (me : pointer) : C UPSTREAM :=
  fun s =>
    match me with
    | None => Undef
    | Some a =>
        match ups s !! a with
        | Some n => Ret n s
        | None => Undef
        end
    end.

Definition assign_UPSTREAM (me : pointer) (f : UPSTREAM -> UPSTREAM)
    : C unit :=
  n <- deref_UPSTREAM me ;;
  fun s =>
    match me with
    | None => Undef
    | Some a => Ret tt (set_ups (<[a := f n]> (ups s)) s)
    end.

(** <<
    if ((me = MXS_CALLOC(1, sizeof(DOWNSTREAM))) == NULL) return NULL;
    me->instance = filter->filter;
    me->routeQuery = filter->obj->routeQuery;
    if ((me->session = filter->obj->newSession(me->instance, session)) == NULL) {
        MXS_FREE(me);
        return NULL;
    }
    filter->obj->setDownstream(me->instance, me->session, downstream);
    return me;
    >> *)
Definition filterApply (filter session downstream : pointer) : C pointer :=
  me <- MXS_CALLOC_DOWNSTREAM ;;
  match me with
  | None => ret None
  | Some _ =>
      d <- deref filter ;;
      assign_DOWNSTREAM me
        (fun n =>
           {| DOWNSTREAM.instance := FILTER_DEF.filter d;
              DOWNSTREAM.session := DOWNSTREAM.session n;
              DOWNSTREAM.routeQuery := DOWNSTREAM.routeQuery n |}) ;;
      obj <- deref_obj (FILTER_DEF.obj d) ;;
      assign_DOWNSTREAM me
        (fun n =>
           {| DOWNSTREAM.instance := DOWNSTREAM.instance n;
              DOWNSTREAM.session := DOWNSTREAM.session n;
              DOWNSTREAM.routeQuery := FILTER_OBJECT.routeQuery obj |}) ;;
      n <- deref_DOWNSTREAM me ;;
      fsession <- invoke_newSession obj (DOWNSTREAM.instance n) session ;;
      assign_DOWNSTREAM me
        (fun n =>
           {| DOWNSTREAM.instance := DOWNSTREAM.instance n;
              DOWNSTREAM.session := fsession;
              DOWNSTREAM.routeQuery := DOWNSTREAM.routeQuery n |}) ;;
      match fsession with
      | None =>
          MXS_FREE_DOWNSTREAM me ;;
          ret None
      | Some _ =>
          n <- deref_DOWNSTREAM me ;;
          invoke_setDownstream obj (DOWNSTREAM.instance n)
            (DOWNSTREAM.session n) downstream ;;
          ret me
      end
  end.

(** <<
    UPSTREAM *me = NULL;
    if (filter->obj->setUpstream == NULL) return upstream;
    if (filter->obj->clientReply != NULL) {
        if ((me = MXS_CALLOC(1, sizeof(UPSTREAM))) == NULL) return NULL;
        me->instance = filter->filter;
        me->session = fsession;
        me->clientReply = filter->obj->clientReply;
        filter->obj->setUpstream(me->instance, me->session, upstream);
    }
    return me;
    >> *)
Definition filterUpstream (filter fsession upstream : pointer) : C pointer :=
  let me : pointer := None in
  d <- deref filter ;;
  obj <- deref_obj (FILTER_DEF.obj d) ;;
  match FILTER_OBJECT.setUpstream obj with
  | None => ret upstream
  | Some setUpstream =>
      match FILTER_OBJECT.clientReply obj with
      | Some _ =>
          me <- MXS_CALLOC_UPSTREAM ;;
          match me with
          | None => ret None
          | Some _ =>
              assign_UPSTREAM me
                (fun n =>
                   {| UPSTREAM.instance := FILTER_DEF.filter d;
                      UPSTREAM.session := UPSTREAM.session n;
                      UPSTREAM.clientReply := UPSTREAM.clientReply n |}) ;;
              assign_UPSTREAM me
                (fun n =>
                   {| UPSTREAM.instance := UPSTREAM.instance n;
                      UPSTREAM.session := fsession;
                      UPSTREAM.clientReply := UPSTREAM.clientReply n |}) ;;
              assign_UPSTREAM me
                (fun n =>
                   {| UPSTREAM.instance := UPSTREAM.instance n;
                      UPSTREAM.session := UPSTREAM.session n;
                      UPSTREAM.clientReply := FILTER_OBJECT.clientReply obj |}) ;;
              n <- deref_UPSTREAM me ;;
              invoke_setUpstream setUpstream (UPSTREAM.instance n)
                (UPSTREAM.session n) upstream ;;
              ret me
          end
      | None => ret me
      end
  end.

End Core.

(** ** The vocabulary of the properties *)

(** The options of a sentinel-terminated array, the way [dprintFilter] walks
    it: the strings before the first null pointer.  An array without a null
    pointer has no reading. *)
Fixpoint options_list (arr : list (slot string)) : option (list string) :=
  match arr with
  | [] => None
  | Null :: _ => Some []
  | Indet :: _ => None
  | Ref o :: rest =>
      match options_list rest with
      | Some os => Some (o :: os)
      | None => None
      end
  end.

(** The options of a definition; [filter->options == NULL] is the empty
    sequence. *)
Definition filter_options {W} (d : FILTER_DEF W) : option (list string) :=
  match FILTER_DEF.options d with
  | None => Some []
  | Some arr => options_list arr
  end.

(** A definition as [filter_alloc] leaves it. *)
Definition fresh_def {W} (name module : string) (next : pointer)
    : FILTER_DEF W :=
  {| FILTER_DEF.name := name; FILTER_DEF.module := module;
     FILTER_DEF.options := None; FILTER_DEF.parameters := None;
     FILTER_DEF.filter := None; FILTER_DEF.obj := None;
     FILTER_DEF.next := next |}.

(** The list that starts at [p] follows [next] through the definitions at
    the addresses [l.*1], named [l.*2], and ends with [NULL]. *)
Fixpoint chain {W} (h : gmap addr (FILTER_DEF W)) (p : pointer)
    (l : list (addr * string)) : Prop :=
  match l with
  | [] => p = None
  | (a, n) :: l =>
      p = Some a /\
      exists d, h !! a = Some d /\ FILTER_DEF.name d = n /\
                chain h (FILTER_DEF.next d) l
  end.

(** The second half of [filter_load], once the module object [o] of the
    definition [d] at [a] is at hand: [createInstance] is called, its result
    is stored in [filter->filter], and a null result is logged. *)
Definition create_step {W} (a : addr) (d : FILTER_DEF W)
    (o : FILTER_OBJECT W) (s : @state W) : outcome (@state W) bool :=
  let '(i, w) :=
    FILTER_OBJECT.createInstance o (FILTER_DEF.name d) (FILTER_DEF.options d)
      (FILTER_DEF.parameters d) (world s) in
  let s1 :=
    set_defs (<[a := FILTER_DEF.with_filter i d]> (defs s))
      (emit (call_createInstance (FILTER_DEF.name d) (FILTER_DEF.options d)
               (FILTER_DEF.parameters d) i) (set_world w s)) in
  match i with
  | Some _ => Ret true s1
  | None =>
      Ret false
        (emit (log_error ("Failed to create filter '" ++ FILTER_DEF.name d
                            ++ "' instance.")) s1)
  end.

(** The state right after a successful [filter_alloc]. *)
Definition registered {W} (name module : string) (a : addr) (w : W)
    (s : @state W) : @state W :=
  set_allFilters (Some a)
    (set_defs (<[a := fresh_def name module (allFilters s)]> (defs s))
       (set_world w s)).

(** The state after [filterAddOption] has stored the array [arr] in the
    definition [d] at [a], the allocator having moved on to [w]. *)
Definition option_added {W} (a : addr) (d : FILTER_DEF W)
    (arr : list (slot string)) (w : W) (s : @state W) : @state W :=
  set_defs (<[a := FILTER_DEF.with_options (Some arr) d]> (defs s))
    (set_world w s).

(** The calls of [createInstance] in a trace. *)
Definition createInstance_calls (t : list event) : list event :=
  List.filter
    (fun e => match e with call_createInstance _ _ _ _ => true | _ => false end)
    t.

(** The calls of [load_module] in a trace. *)
Definition load_module_calls (t : list event) : list event :=
  List.filter
    (fun e => match e with call_load_module _ _ _ => true | _ => false end)
    t.

(** The calls of [setDownstream] in a trace. *)
Definition setDownstream_calls (t : list event) : list event :=
  List.filter
    (fun e => match e with call_setDownstream _ _ _ => true | _ => false end)
    t.

(** ** Sequences of calls *)

Section Sequences.

Context {W : Type}.
Variable mxs_alloc : W -> bool * W.

(** [filter_alloc] for each (name, module) of [specs], in order. *)
Fixpoint register_all (specs : list (string * string))
    : M (@state W) (list pointer) :=
  match specs with
  | [] => ret []
  | (name, module) :: specs =>
      filter <- filter_alloc mxs_alloc name module ;;
      rest <- register_all specs ;;
      ret (filter :: rest)
  end.

(** [filterAddOption] on [filter] for each option of [opts], in order. *)
Fixpoint add_options (filter : pointer) (opts : list string)
    : M (@state W) unit :=
  match opts with
  | [] => ret tt
  | o :: opts =>
      filterAddOption mxs_alloc filter o ;;
      add_options filter opts
  end.

End Sequences.

(** ** A concrete world

    The collaborators follow scripts: each request to the allocator, to the
    loader, to [createInstance] and to [newSession] takes the next answer of
    its script, and is served when the script is over. *)
Module Scenario.

Record scripts : Type := {
  alloc_script : list bool;
  load_script : list bool;
  create_script : list pointer;
  session_script : list pointer
}.

Definition next_answer {A} (served : A) (script : list A) : A * list A :=
  match script with
  | [] => (served, [])
  | x :: script => (x, script)
  end.

Definition mxs_alloc (w : scripts) : bool * scripts :=
  let '(ok, rest) := next_answer true (alloc_script w) in
  (ok, {| alloc_script := rest; load_script := load_script w;
          create_script := create_script w;
          session_script := session_script w |}).

Definition createInstance (name : string)
    (options : option (list (slot string)))
    (parameters : option (list (slot FILTER_PARAMETER))) (w : scripts)
    : pointer * scripts :=
  let '(r, rest) := next_answer (Some 40%positive) (create_script w) in
  (r, {| alloc_script := alloc_script w; load_script := load_script w;
         create_script := rest; session_script := session_script w |}).

Definition newSession (instance session : pointer) (w : scripts)
    : pointer * scripts :=
  let '(r, rest) := next_answer (Some 50%positive) (session_script w) in
  (r, {| alloc_script := alloc_script w; load_script := load_script w;
         create_script := create_script w; session_script := rest |}).

(** A module with both reply entry points, one with neither, and one with
    [setUpstream] but without [clientReply]. *)
Definition module_object (setUpstream : bool) (clientReply : pointer)
    : FILTER_OBJECT scripts :=
  {| FILTER_OBJECT.createInstance := createInstance;
     FILTER_OBJECT.newSession := newSession;
     FILTER_OBJECT.setDownstream := fun _ _ _ w => w;
     FILTER_OBJECT.setUpstream :=
       if setUpstream then Some (fun _ _ _ w => w) else None;
     FILTER_OBJECT.routeQuery := Some 60%positive;
     FILTER_OBJECT.clientReply := clientReply |}.

Definition full_object : FILTER_OBJECT scripts :=
  module_object true (Some 61%positive).
Definition downstream_only_object : FILTER_OBJECT scripts :=
  module_object false None.
Definition no_reply_object : FILTER_OBJECT scripts :=
  module_object true None.

Definition MODULE_FILTER : string := "Filter".

Definition load_module (module type : string) (w : scripts)
    : option (FILTER_OBJECT scripts) * scripts :=
  let '(ok, rest) := next_answer true (load_script w) in
  (if ok then Some full_object else None,
   {| alloc_script := alloc_script w; load_script := rest;
      create_script := create_script w;
      session_script := session_script w |}).

Definition quiet : scripts :=
  {| alloc_script := []; load_script := []; create_script := [];
     session_script := [] |}.

(** The process before any filter is configured. *)
Definition boot (w : scripts) : state :=
  {| allFilters := None; defs := ∅; downs := ∅; ups := ∅; trace := [];
     world := w |}.

(** The state a computation returns in, or [s] itself. *)
Definition after {A} (m : M (@state scripts) A) (s : state) : state :=
  match m s with
  | Ret _ s' => s'
  | _ => s
  end.

(** The definition ["cache"], whose module is [o] and whose instance is
    [i]. *)
Definition cache_def (o : option (FILTER_OBJECT scripts)) (i : pointer)
    : FILTER_DEF scripts :=
  FILTER_DEF.with_filter i
    (FILTER_DEF.with_obj o (fresh_def "cache" "cache" None)).

(** A process whose registry holds [cache_def o i] at address 1. *)
Definition one_filter (w : scripts) (o : option (FILTER_OBJECT scripts))
    (i : pointer) : state :=
  {| allFilters := Some 1%positive;
     defs := {[ 1%positive := cache_def o i ]};
     downs := ∅; ups := ∅; trace := []; world := w |}.

(** Processes with one filter: its module loaded and its instance created,
    for each kind of module; and not yet loaded. *)
Definition instantiated (o : FILTER_OBJECT scripts) : state :=
  one_filter quiet (Some o) (Some 40%positive).

Definition unloaded (w : scripts) : state := one_filter w None None.

(** Worlds where the next answer of one collaborator is a refusal. *)
Definition loader_refuses : scripts :=
  {| alloc_script := []; load_script := [false]; create_script := [];
     session_script := [] |}.

Definition createInstance_refuses : scripts :=
  {| alloc_script := []; load_script := []; create_script := [None];
     session_script := [] |}.

Definition newSession_refuses : scripts :=
  {| alloc_script := []; load_script := []; create_script := [];
     session_script := [None] |}.

(** Three definitions to register. *)
Definition three_filters : list (string * string) :=
  [("hint", "hintfilter"); ("cache", "cache"); ("tee", "tee")].

End Scenario.

(** ** The rest of [filter.c] *)

(** [filter->parameters = v]. *)
Definition with_parameters {W} (v : option (list (slot FILTER_PARAMETER)))
    (d : FILTER_DEF W) : FILTER_DEF W :=
  {| FILTER_DEF.name := FILTER_DEF.name d;
     FILTER_DEF.module := FILTER_DEF.module d;
     FILTER_DEF.options := FILTER_DEF.options d;
     FILTER_DEF.parameters := v;
     FILTER_DEF.filter := FILTER_DEF.filter d;
     FILTER_DEF.obj := FILTER_DEF.obj d;
     FILTER_DEF.next := FILTER_DEF.next d |}.

(** The character of the escape [\n]. *)
Definition newline : string := String (ascii_of_nat 10) EmptyString.

(** [n] spaces. *)
Fixpoint spaces (n : nat) : string :=
  match n with
  | O => EmptyString
  | S n => String " " (spaces n)
  end.

(** The conversion [%-<width>s] of [printf]: the string, then spaces up to
    [width] characters; a longer string is written whole. *)
Definition left_justified (width : nat) (s : string) : string :=
  s +:+ spaces (width - String.length s).

(** The rule of dashes of [dListFilters]: 20, 17 and 40 dashes between
    two [+]. *)
Definition rule : string :=
  "--------------------+-----------------+----------------------------------------".

Section Rest.

Context {W : Type}.

Variable mxs_alloc : W -> bool * W.

(** Modelled from the spec: [dcb_printf(dcb, format, ...)] ([maxscale/dcb.h])
    hands the formatted text to the descriptor [dcb], the "text dump" of the
    admin surface; [dcb_printf dcb text] is what that does to the world. *)
Variable dcb_printf : pointer -> string -> W -> W.

Abbreviation C := (M (@state W)).

(** Modelled from the spec: [MXS_ABORT_IF_TRUE(b)] ([maxscale/alloc.h]) aborts
    the process when [b] holds, as [MXS_ABORT_IF_NULL] does for a null
    pointer. *)
Definition MXS_ABORT_IF_TRUE (b : bool) : C unit :=
  if b then abort else ret tt.

(** [MXS_CALLOC(1, sizeof(FILTER_PARAMETER))]: a block for one parameter, or
    [NULL].  The block is a value of the model once its two members are
    written. *)
Definition MXS_CALLOC_FILTER_PARAMETER : C (option unit) :=
  ok <- alloc mxs_alloc ;;
  ret (if ok then Some tt else None).

(** [parameters[i] = v] on a local array. *)
Definition array_store {A} (arr : list (slot A)) (i : Z) (v : slot A)
    : C (list (slot A)) :=
  if decide (0 <= i < Z.of_nat (length arr))
  then ret (<[Z.to_nat i := v]> arr)
  else undef.

(** <<
    FILTER_PARAMETER **parameters;
    if (filter->parameters == NULL) {
        parameters = MXS_CALLOC(2, sizeof(parameters[0]));
        i = 0;
    } else {
        for (i = 0; filter->parameters[i]; i++) { ; }
        parameters = MXS_REALLOC(filter->parameters,
                                 (i + 2) * sizeof(parameters[0]));
    }
    FILTER_PARAMETER *parameter = MXS_CALLOC(1, sizeof(FILTER_PARAMETER));
    name = MXS_STRDUP(name);
    value = MXS_STRDUP(value);
    MXS_ABORT_IF_TRUE(!parameters || !parameter || !name || !value);
    parameter->name = name;
    parameter->value = value;
    parameters[i] = parameter;
    parameters[i + 1] = NULL;
    filter->parameters = parameters;
    >> *)
Definition filterAddParameter (filter : pointer) (name value : string)
    : C unit :=
  spinlock_acquire (spin filter) ;;
  d <- deref filter ;;
  r <- match FILTER_DEF.parameters d with
       | None =>
           parameters <- MXS_CALLOC mxs_alloc 2 ;;
           ret (parameters, 0)
       | Some arr =>
           i <- for_until_null (fun _ => ret tt) arr 0 ;;
           n <- int_add i 2 ;;
           parameters <- MXS_REALLOC mxs_alloc arr n ;;
           ret (parameters, i)
       end ;;
  let parameters : option (list (slot FILTER_PARAMETER)) := r.1 in
  let i : Z := r.2 in
  parameter <- MXS_CALLOC_FILTER_PARAMETER ;;
  name <- MXS_STRDUP mxs_alloc name ;;
  value <- MXS_STRDUP mxs_alloc value ;;
  MXS_ABORT_IF_TRUE
    (negb (bool_decide (is_Some parameters))
     || negb (bool_decide (is_Some parameter))
     || negb (bool_decide (is_Some name))
     || negb (bool_decide (is_Some value))) ;;
  match parameters, name, value with
  | Some parameters, Some name, Some value =>
      let parameter :=
        {| FILTER_PARAMETER.name := name; FILTER_PARAMETER.value := value |} in
      parameters <- array_store parameters i (Ref parameter) ;;
      parameters <- array_store parameters (i + 1) Null ;;
      assign filter (with_parameters (Some parameters))
  | _, _, _ => undef
  end ;;
  spinlock_release (spin filter).

(** [dcb_printf(dcb, ...)] with the formatted [text]. *)
Definition invoke_dcb_printf (dcb : pointer) (text : string) : C unit :=
  fun s => Ret tt (set_world (dcb_printf dcb text (world s)) s).

(** <<
    for (i = 0; ptr->options && ptr->options[i]; i++)
        dcb_printf(dcb, "%s ", ptr->options[i]);
    >> *)
Definition print_options (dcb : pointer)
    (options : option (list (slot string))) : C unit :=
  match options with
  | None => ret tt
  | Some arr =>
      for_until_null (fun o => invoke_dcb_printf dcb (o +:+ " ")) arr 0 ;;
      ret tt
  end.

(** <<
    while (ptr) {
        dcb_printf(dcb, "%-19s | %-15s | ", ptr->name, ptr->module);
        for (...) dcb_printf(dcb, "%s ", ptr->options[i]);
        dcb_printf(dcb, "\n");
        ptr = ptr->next;
    }
    >> *)
Fixpoint dListFilters_loop (fuel : nat) (dcb : pointer) (ptr : pointer)
    : C unit :=
  match ptr with
  | None => ret tt
  | Some _ =>
      match fuel with
      | O => diverge
      | S fuel =>
          d <- deref ptr ;;
          invoke_dcb_printf dcb
            (left_justified 19 (FILTER_DEF.name d) +:+ " | "
             +:+ left_justified 15 (FILTER_DEF.module d) +:+ " | ") ;;
          print_options dcb (FILTER_DEF.options d) ;;
          invoke_dcb_printf dcb newline ;;
          dListFilters_loop fuel dcb (FILTER_DEF.next d)
      end
  end.

(** <<
    ptr = allFilters;
    if (ptr) {
        dcb_printf(dcb, "Filters\n");
        dcb_printf(dcb, "-----...-----\n");
        dcb_printf(dcb, "%-19s | %-15s | Options\n", "Filter", "Module");
        dcb_printf(dcb, "-----...-----\n");
    }
    while (ptr) { ... }
    if (allFilters) dcb_printf(dcb, "-----...-----\n\n");
    >> *)
Definition dListFilters (dcb : pointer) : C unit :=
  spinlock_acquire filter_spin ;;
  ptr <- (fun s => Ret (allFilters s) s) ;;
  match ptr with
  | Some _ =>
      invoke_dcb_printf dcb ("Filters" +:+ newline) ;;
      invoke_dcb_printf dcb (rule +:+ newline) ;;
      invoke_dcb_printf dcb
        (left_justified 19 "Filter" +:+ " | " +:+ left_justified 15 "Module"
         +:+ " | Options" +:+ newline) ;;
      invoke_dcb_printf dcb (rule +:+ newline)
  | None => ret tt
  end ;;
  fuel <- live_defs ;;
  dListFilters_loop fuel dcb ptr ;;
  head <- (fun s => Ret (allFilters s) s) ;;
  match head with
  | Some _ => invoke_dcb_printf dcb (rule +:+ newline +:+ newline)
  | None => ret tt
  end ;;
  spinlock_release filter_spin.

End Rest.

(** *** [filter.c]: the details of the definitions *)

(** The character of the escape [\t]. *)
Definition tab : string := String (ascii_of_nat 9) EmptyString.

Section Diagnostics.

Context {W : Type}.

Variable dcb_printf : pointer -> string -> W -> W.

(** The text of the conversion [%p], which the implementation defines. *)
Variable pointer_text : pointer -> string.

(** [obj->diagnostics]: the entry point of a module object that prints the
    diagnostics of an instance; the record of the entry points the loading
    and chain functions use does not hold it.  [None] is a null member. *)
Variable diagnostics :
  FILTER_OBJECT W -> option (pointer -> pointer -> pointer -> W -> W).

Abbreviation C := (M (@state W)).

(** [obj->diagnostics(instance, fsession, dcb)]. *)
Definition invoke_diagnostics (obj : FILTER_OBJECT W)
    (instance fsession dcb : pointer) : C unit :=
  match diagnostics obj with
  | Some f => fun s => Ret tt (set_world (f instance fsession dcb (world s)) s)
  | None => undef
  end.

(** <<
    dcb_printf(dcb, "Filter %p (%s)\n", filter, filter->name);
    dcb_printf(dcb, "\tModule:      %s\n", filter->module);
    if (filter->options) {
        dcb_printf(dcb, "\tOptions:     ");
        for (i = 0; filter->options && filter->options[i]; i++)
            dcb_printf(dcb, "%s ", filter->options[i]);
        dcb_printf(dcb, "\n");
    }
    if (filter->obj && filter->filter)
        filter->obj->diagnostics(filter->filter, NULL, dcb);
    >> *)
Definition dprintFilter (dcb filter : pointer) : C unit :=
  d <- deref filter ;;
  invoke_dcb_printf dcb_printf dcb
    ("Filter " +:+ pointer_text filter +:+ " (" +:+ FILTER_DEF.name d +:+ ")"
     +:+ newline) ;;
  invoke_dcb_printf dcb_printf dcb
    (tab +:+ "Module:      " +:+ FILTER_DEF.module d +:+ newline) ;;
  match FILTER_DEF.options d with
  | Some _ =>
      invoke_dcb_printf dcb_printf dcb (tab +:+ "Options:     ") ;;
      print_options dcb_printf dcb (FILTER_DEF.options d) ;;
      invoke_dcb_printf dcb_printf dcb newline
  | None => ret tt
  end ;;
  match FILTER_DEF.obj d, FILTER_DEF.filter d with
  | Some obj, Some _ => invoke_diagnostics obj (FILTER_DEF.filter d) None dcb
  | _, _ => ret tt
  end.

(** <<
    while (ptr) {
        dcb_printf(dcb, "Filter %p (%s)\n", ptr, ptr->name);
        dcb_printf(dcb, "\tModule:      %s\n", ptr->module);
        if (ptr->options) { ... as in dprintFilter ... }
        if (ptr->obj && ptr->filter)
            ptr->obj->diagnostics(ptr->filter, NULL, dcb);
        else
            dcb_printf(dcb, "\tModule not loaded.\n");
        ptr = ptr->next;
    }
    >> *)
Fixpoint dprintAllFilters_loop (fuel : nat) (dcb : pointer) (ptr : pointer)
    : C unit :=
  match ptr with
  | None => ret tt
  | Some _ =>
      match fuel with
      | O => diverge
      | S fuel =>
          d <- deref ptr ;;
          invoke_dcb_printf dcb_printf dcb
            ("Filter " +:+ pointer_text ptr +:+ " (" +:+ FILTER_DEF.name d
             +:+ ")" +:+ newline) ;;
          invoke_dcb_printf dcb_printf dcb
            (tab +:+ "Module:      " +:+ FILTER_DEF.module d +:+ newline) ;;
          match FILTER_DEF.options d with
          | Some _ =>
              invoke_dcb_printf dcb_printf dcb (tab +:+ "Options:     ") ;;
              print_options dcb_printf dcb (FILTER_DEF.options d) ;;
              invoke_dcb_printf dcb_printf dcb newline
          | None => ret tt
          end ;;
          match FILTER_DEF.obj d, FILTER_DEF.filter d with
          | Some obj, Some _ =>
              invoke_diagnostics obj (FILTER_DEF.filter d) None dcb
          | _, _ =>
              invoke_dcb_printf dcb_printf dcb
                (tab +:+ "Module not loaded." +:+ newline)
          end ;;
          dprintAllFilters_loop fuel dcb (FILTER_DEF.next d)
      end
  end.

(** <<
    spinlock_acquire(&filter_spin);
    ptr = allFilters;
    while (ptr) { ... }
    spinlock_release(&filter_spin);
    >> *)
Definition dprintAllFilters (dcb : pointer) : C unit :=
  spinlock_acquire filter_spin ;;
  ptr <- (fun s => Ret (allFilters s) s) ;;
  fuel <- live_defs ;;
  dprintAllFilters_loop fuel dcb ptr ;;
  spinlock_release filter_spin.

End Diagnostics.

(** ** More vocabulary *)

(** The elements of a sentinel-terminated pointer array: what precedes the
    first null pointer.  [options_list] is this reading for options. *)
Fixpoint before_null {A} (arr : list (slot A)) : option (list A) :=
  match arr with
  | [] => None
  | Null :: _ => Some []
  | Indet :: _ => None
  | Ref a :: rest =>
      match before_null rest with
      | Some xs => Some (a :: xs)
      | None => None
      end
  end.

(** The parameters of a definition; [filter->parameters == NULL] is the empty
    sequence. *)
Definition filter_parameters {W} (d : FILTER_DEF W)
    : option (list FILTER_PARAMETER) :=
  match FILTER_DEF.parameters d with
  | None => Some []
  | Some arr => before_null arr
  end.

(** The list that starts at [p], with the definition at each address. *)
Fixpoint linked {W} (h : gmap addr (FILTER_DEF W)) (p : pointer)
    (ds : list (addr * FILTER_DEF W)) : Prop :=
  match ds with
  | [] => p = None
  | (a, d) :: ds =>
      p = Some a /\ h !! a = Some d /\ linked h (FILTER_DEF.next d) ds
  end.

(** The options of each definition of a list, within the range of the loop
    index. *)
Definition options_of {W} (ds : list (addr * FILTER_DEF W))
    (oss : list (list string)) : Prop :=
  Forall2 (fun x os => filter_options x.2 = Some os /\
                       Z.of_nat (length os) <= INT_MAX) ds oss.

(** The texts [dcb_printf] receives, in order, applied to a world. *)
Definition printed {W} (dcb_printf : pointer -> string -> W -> W)
    (dcb : pointer) (texts : list string) (w : W) : W :=
  fold_left (fun w text => dcb_printf dcb text w) texts w.

(** The texts of one row of the table of [dListFilters], for a definition
    with the options [os]. *)
Definition table_row {W} (d : FILTER_DEF W) (os : list string) : list string :=
  (left_justified 19 (FILTER_DEF.name d) +:+ " | "
   +:+ left_justified 15 (FILTER_DEF.module d) +:+ " | ")
  :: map (fun o => o +:+ " ") os ++ [newline].

(** The texts of the whole table: nothing for no definition; else the four
    lines of the header, the rows and the closing rule. *)
Definition table_header : list string :=
  [ "Filters" +:+ newline;
    rule +:+ newline;
    left_justified 19 "Filter" +:+ " | " +:+ left_justified 15 "Module"
    +:+ " | Options" +:+ newline;
    rule +:+ newline ].

Definition table (rows : list (list string)) : list string :=
  match rows with
  | [] => []
  | _ => table_header ++ concat rows ++ [rule +:+ newline +:+ newline]
  end.

(** The row of [dListFilters] for a definition without options. *)
Definition plain_row (spec : string * string) : list string :=
  [left_justified 19 spec.1 +:+ " | " +:+ left_justified 15 spec.2 +:+ " | ";
   newline].

(** The lines that describe the definition [d] at [a], whose options are
    [os]: its address and name, its module and, unless [options] is null,
    its options. *)
Definition detail_lines {W} (pointer_text : pointer -> string) (a : addr)
    (d : FILTER_DEF W) (os : list string) : list string :=
  [ "Filter " +:+ pointer_text (Some a) +:+ " (" +:+ FILTER_DEF.name d +:+ ")"
    +:+ newline;
    tab +:+ "Module:      " +:+ FILTER_DEF.module d +:+ newline ]
  ++ match FILTER_DEF.options d with
     | Some _ =>
         (tab +:+ "Options:     ") :: map (fun o => o +:+ " ") os ++ [newline]
     | None => []
     end.

(** A definition is loaded once it has a module object and an instance. *)
Definition loaded {W} (d : FILTER_DEF W) : bool :=
  match FILTER_DEF.obj d, FILTER_DEF.filter d with
  | Some _, Some _ => true
  | _, _ => false
  end.

(** What the diagnostics of the module of [d] do to the world. *)
Definition diagnosed {W}
    (diagnostics :
       FILTER_OBJECT W -> option (pointer -> pointer -> pointer -> W -> W))
    (dcb : pointer) (d : FILTER_DEF W) (w : W) : W :=
  match FILTER_DEF.obj d with
  | Some o =>
      match diagnostics o with
      | Some f => f (FILTER_DEF.filter d) None dcb w
      | None => w
      end
  | None => w
  end.

(** What [dprintFilter] does to the world for the definition [d] at [a]. *)
Definition described {W} (dcb_printf : pointer -> string -> W -> W)
    (pointer_text : pointer -> string)
    (diagnostics :
       FILTER_OBJECT W -> option (pointer -> pointer -> pointer -> W -> W))
    (dcb : pointer) (a : addr) (d : FILTER_DEF W) (os : list string) (w : W)
    : W :=
  let w := printed dcb_printf dcb (detail_lines pointer_text a d os) w in
  if loaded d then diagnosed diagnostics dcb d w else w.

(** What [dprintAllFilters] does to the world for the definition [d] at
    [a]: what [dprintFilter] does and, unless [d] is loaded, one more line. *)
Definition listed {W} (dcb_printf : pointer -> string -> W -> W)
    (pointer_text : pointer -> string)
    (diagnostics :
       FILTER_OBJECT W -> option (pointer -> pointer -> pointer -> W -> W))
    (dcb : pointer) (a : addr) (d : FILTER_DEF W) (os : list string) (w : W)
    : W :=
  let w := described dcb_printf pointer_text diagnostics dcb a d os w in
  if loaded d then w
  else dcb_printf dcb (tab +:+ "Module not loaded." +:+ newline) w.

(** The module of every loaded definition has the entry point. *)
Definition diagnosable {W}
    (diagnostics :
       FILTER_OBJECT W -> option (pointer -> pointer -> pointer -> W -> W))
    (d : FILTER_DEF W) : Prop :=
  forall o, loaded d = true -> FILTER_DEF.obj d = Some o ->
            is_Some (diagnostics o).

(** ** More of [cachefilter.h]

    <<
    #define CACHE_DEBUG_NONE          0
    #define CACHE_DEBUG_MATCHING      1
    #define CACHE_DEBUG_NON_MATCHING  2
    #define CACHE_DEBUG_USE           4
    #define CACHE_DEBUG_NON_USE       8
    #define CACHE_DEBUG_DECISIONS    16
    #define CACHE_DEBUG_RULES  (CACHE_DEBUG_MATCHING | CACHE_DEBUG_NON_MATCHING)
    #define CACHE_DEBUG_USAGE  (CACHE_DEBUG_USE | CACHE_DEBUG_NON_USE)
    #define CACHE_DEBUG_MIN    CACHE_DEBUG_NONE
    #define CACHE_DEBUG_MAX
              (CACHE_DEBUG_RULES | CACHE_DEBUG_USAGE | CACHE_DEBUG_DECISIONS)
    >> *)
Module CacheDebug.

Definition CACHE_DEBUG_NONE : Z := 0.
Definition CACHE_DEBUG_MATCHING : Z := 1.
Definition CACHE_DEBUG_NON_MATCHING : Z := 2.
Definition CACHE_DEBUG_USE : Z := 4.
Definition CACHE_DEBUG_NON_USE : Z := 8.
Definition CACHE_DEBUG_DECISIONS : Z := 16.

Definition CACHE_DEBUG_RULES : Z :=
  Z.lor CACHE_DEBUG_MATCHING CACHE_DEBUG_NON_MATCHING.
Definition CACHE_DEBUG_USAGE : Z := Z.lor CACHE_DEBUG_USE CACHE_DEBUG_NON_USE.
Definition CACHE_DEBUG_MIN : Z := CACHE_DEBUG_NONE.
Definition CACHE_DEBUG_MAX : Z :=
  Z.lor (Z.lor CACHE_DEBUG_RULES CACHE_DEBUG_USAGE) CACHE_DEBUG_DECISIONS.

(** The five flags. *)
Definition flags : list Z :=
  [CACHE_DEBUG_MATCHING; CACHE_DEBUG_NON_MATCHING; CACHE_DEBUG_USE;
   CACHE_DEBUG_NON_USE; CACHE_DEBUG_DECISIONS].

End CacheDebug.

(** ** A world with a console

    The allocator serves every request, and a descriptor keeps the text
    written to it. *)
Module Console.

Definition mxs_alloc (w : string) : bool * string := (true, w).

Definition dcb_printf (dcb : pointer) (text : string) (w : string) : string :=
  w +:+ text.

Definition boot : @state string :=
  {| allFilters := None; defs := ∅; downs := ∅; ups := ∅; trace := [];
     world := EmptyString |}.

(** The text of an address: its binary digits. *)
Fixpoint digits (a : positive) : string :=
  match a with
  | xH => "1"
  | xO a => digits a +:+ "0"
  | xI a => digits a +:+ "1"
  end.

Definition pointer_text (p : pointer) : string :=
  match p with
  | None => "(nil)"
  | Some a => "0b" +:+ digits a
  end.

(** A module whose diagnostics are one line. *)
Definition module_object : FILTER_OBJECT string :=
  {| FILTER_OBJECT.createInstance := fun _ _ _ w => (Some 40%positive, w);
     FILTER_OBJECT.newSession := fun _ _ w => (Some 50%positive, w);
     FILTER_OBJECT.setDownstream := fun _ _ _ w => w;
     FILTER_OBJECT.setUpstream := None;
     FILTER_OBJECT.routeQuery := Some 60%positive;
     FILTER_OBJECT.clientReply := None |}.

Definition diagnostics (o : FILTER_OBJECT string)
    : option (pointer -> pointer -> pointer -> string -> string) :=
  Some (fun _ _ dcb w =>
          dcb_printf dcb (tab +:+ "No statistics." +:+ newline) w).

(** The definition ["cache"], loaded, with two options. *)
Definition cache_def : FILTER_DEF string :=
  {| FILTER_DEF.name := "cache"; FILTER_DEF.module := "cache";
     FILTER_DEF.options := Some [Ref "ttl=10"; Ref "debug=1"; Null];
     FILTER_DEF.parameters := None;
     FILTER_DEF.filter := Some 40%positive;
     FILTER_DEF.obj := Some module_object;
     FILTER_DEF.next := Some 1%positive |}.

(** A process with ["cache"] at address 2, registered after ["tee"] at
    address 1, which is not loaded. *)
Definition configured : @state string :=
  {| allFilters := Some 2%positive;
     defs := {[ 2%positive := cache_def;
                1%positive := fresh_def "tee" "tee" None ]};
     downs := ∅; ups := ∅; trace := []; world := EmptyString |}.

End Console.

(** ** More processes of the scripted world *)
Module Cases.

(** A world where the next request to the allocator is refused. *)
Definition allocator_refuses : Scenario.scripts :=
  {| Scenario.alloc_script := [false]; Scenario.load_script := [];
     Scenario.create_script := []; Scenario.session_script := [] |}.

(** A process whose registry holds ["cache"] at address 1, with a live
    definition at address 2 that the registry does not reach. *)
Definition detached : @state Scenario.scripts :=
  {| allFilters := Some 1%positive;
     defs := {[ 1%positive := Scenario.cache_def None None;
                2%positive := fresh_def "tee" "tee" None ]};
     downs := ∅; ups := ∅; trace := []; world := Scenario.quiet |}.

(** Two definitions of one name. *)
Definition same_name : list (string * string) :=
  [("dup", "m1"); ("dup", "m2")].

(** The process after the three definitions of [Scenario.three_filters] are
    registered. *)
Definition three_registered : @state Scenario.scripts :=
  Scenario.after (register_all Scenario.mxs_alloc Scenario.three_filters)
    (Scenario.boot Scenario.quiet).

Definition same_name_registered : @state Scenario.scripts :=
  Scenario.after (register_all Scenario.mxs_alloc same_name)
    (Scenario.boot Scenario.quiet).

End Cases.

(** * Properties *)

(** ** Strings and constants *)

Lemma strcmp_refl (a : string) : strcmp a a = 0.
Proof.
  unfold strcmp.
  pose proof (String.compare_antisym a a) as H.
  destruct (String.compare a a); simpl in H; congruence.
Qed.

Lemma strcmp_eq (a b : string) : strcmp a b = 0 <-> a = b.
Proof.
  split.
  - unfold strcmp. destruct (String.compare a b) eqn:E; try discriminate.
    intros _. now apply String.compare_eq_iff.
  - intros ->. apply strcmp_refl.
Qed.

(** C8.  [filter_standard_parameter name] is 1 (true) exactly when [name] is
    "type" or "module", and 0 (false) for every other name. *)
Theorem filter_standard_parameter_spec (name : string) :
  (filter_standard_parameter name = 1 <-> name = "type" \/ name = "module") /\
  (filter_standard_parameter name = 0 <->
     ~ (name = "type" \/ name = "module")).
Proof.
  unfold filter_standard_parameter.
  pose proof (strcmp_eq name "type") as Ht.
  pose proof (strcmp_eq name "module") as Hm.
  destruct (Z.eqb_spec (strcmp name "type") 0) as [E1|E1];
    destruct (Z.eqb_spec (strcmp name "module") 0) as [E2|E2];
    simpl; intuition congruence.
Qed.

(** C9.  The defaults of the cache configuration: [max_resultset_size] is
    64 KiB, that is 65536 bytes, [ttl] is 10 seconds, and
    [max_resultset_rows] is the largest [uint32_t], so that no row count a
    [uint32_t] can hold exceeds it.  Each default fits the [uint32_t] member
    it is for. *)
Theorem cache_defaults :
  Cache.CACHE_DEFAULT_MAX_RESULTSET_SIZE = 65536 /\
  Cache.CACHE_DEFAULT_TTL = 10 /\
  Cache.CACHE_DEFAULT_MAX_RESULTSET_ROWS = 2 ^ 32 - 1 /\
  uint32_t Cache.CACHE_DEFAULT_MAX_RESULTSET_SIZE /\
  uint32_t Cache.CACHE_DEFAULT_TTL /\
  uint32_t Cache.CACHE_DEFAULT_MAX_RESULTSET_ROWS /\
  forall rows : Z,
    uint32_t rows -> rows <= Cache.CACHE_DEFAULT_MAX_RESULTSET_ROWS.
Proof.
  unfold Cache.CACHE_DEFAULT_MAX_RESULTSET_SIZE, Cache.CACHE_DEFAULT_TTL,
    Cache.CACHE_DEFAULT_MAX_RESULTSET_ROWS, uint32_t, UINT32_MAX.
  repeat split; try lia.
Qed.

Lemma cache_defaults_witness :
  uint32_t 4294967295 /\
  4294967295 <= Cache.CACHE_DEFAULT_MAX_RESULTSET_ROWS.
Proof.
  assert (H : uint32_t 4294967295) by (unfold uint32_t, UINT32_MAX; lia).
  split; [exact H |].
  exact (proj2 (proj2 (proj2 (proj2 (proj2 (proj2 cache_defaults)))))
           4294967295 H).
Defined.

(** ** The functions of [filter.c] *)

Section Properties.
Context {W : Type}.
Variable mxs_alloc : W -> bool * W.
Variable MODULE_FILTER : string.
Variable load_module : string -> string -> W -> option (FILTER_OBJECT W) * W.
Implicit Types (s : @state W) (d : FILTER_DEF W) (o : FILTER_OBJECT W).

Lemma bind_Ret {A B} (m : M (@state W) A) (k : A -> M state B) s a s' :
  m s = Ret a s' -> (x <- m ;; k x) s = k a s'.
Proof. intros H. unfold bind. now rewrite H. Qed.

Lemma deref_live s a d : defs s !! a = Some d -> deref (Some a) s = Ret d s.
Proof. intros H. unfold deref. now rewrite H. Qed.

Lemma assign_live s a d f :
  defs s !! a = Some d ->
  assign (Some a) f s = Ret tt (set_defs (<[a := f d]> (defs s)) s).
Proof. intros H. unfold assign. now rewrite H. Qed.

Lemma with_obj_id d : FILTER_DEF.with_obj (FILTER_DEF.obj d) d = d.
Proof. now destruct d. Qed.

Lemma with_filter_id d : FILTER_DEF.with_filter (FILTER_DEF.filter d) d = d.
Proof. now destruct d. Qed.

Lemma with_obj_id_None d :
  FILTER_DEF.obj d = None -> FILTER_DEF.with_obj None d = d.
Proof. intros <-. apply with_obj_id. Qed.

Lemma filter_load_loaded s a d o :
  defs s !! a = Some d -> FILTER_DEF.filter d = None ->
  FILTER_DEF.obj d = Some o ->
  filter_load MODULE_FILTER load_module (Some a) s = create_step a d o s.
Proof.
  intros Hd Hn Ho. unfold filter_load, create_step.
  rewrite (bind_Ret _ _ _ _ _ (deref_live _ _ _ Hd)), Hn, Ho.
  rewrite (bind_Ret _ _ s tt s eq_refl).
  rewrite (bind_Ret _ _ _ _ _ (deref_live _ _ _ Hd)), Ho, Hn.
  rewrite (bind_Ret _ _ s tt s eq_refl).
  unfold bind at 1. unfold invoke_createInstance.
  destruct (FILTER_OBJECT.createInstance _ _ _ _ _) as [i w].
  erewrite bind_Ret; [| apply assign_live; exact Hd].
  now destruct i.
Qed.

Lemma filter_load_unloaded s a d :
  defs s !! a = Some d -> FILTER_DEF.filter d = None ->
  FILTER_DEF.obj d = None ->
  filter_load MODULE_FILTER load_module (Some a) s =
    let '(r, w) := load_module (FILTER_DEF.module d) MODULE_FILTER (world s) in
    match r with
    | Some o =>
        create_step a (FILTER_DEF.with_obj (Some o) d) o
          (set_defs (<[a := FILTER_DEF.with_obj (Some o) d]> (defs s))
             (emit (call_load_module (FILTER_DEF.module d) MODULE_FILTER true)
                (set_world w s)))
    | None =>
        Ret false
          (emit (log_error ("Failed to load filter module '"
                              ++ FILTER_DEF.module d ++ "'."))
             (set_defs (<[a := d]> (defs s))
                (emit (call_load_module (FILTER_DEF.module d) MODULE_FILTER
                         false) (set_world w s))))
    end.
Proof.
  intros Hd Hn Ho. unfold filter_load.
  rewrite (bind_Ret _ _ _ _ _ (deref_live _ _ _ Hd)), Hn, Ho.
  unfold bind at 1. unfold bind at 1. unfold invoke_load_module.
  destruct (load_module _ _ _) as [r w].
  erewrite bind_Ret; [| apply assign_live; exact Hd].
  destruct r as [o|].
  - simpl. set (s1 := set_defs _ _).
    assert (Hd1 : defs s1 !! a = Some (FILTER_DEF.with_obj (Some o) d))
      by (subst s1; simpl; apply lookup_insert_eq).
    unfold create_step.
    rewrite (bind_Ret _ _ _ _ _ (deref_live _ _ _ Hd1)). simpl.
    rewrite Hn. rewrite (bind_Ret _ _ s1 tt s1 eq_refl).
    unfold bind at 1. unfold invoke_createInstance.
    destruct (FILTER_OBJECT.createInstance _ _ _ _ _) as [i w'].
    erewrite bind_Ret; [| apply assign_live; exact Hd1].
    now destruct i.
  - rewrite with_obj_id_None by exact Ho.
    set (s1 := set_defs _ _).
    assert (Hd1 : defs s1 !! a = Some d)
      by (subst s1; simpl; apply lookup_insert_eq).
    unfold bind, MXS_ERROR, deref. simpl in *. rewrite Hd1, Ho. reflexivity.
Qed.

(** Storing back what is there changes nothing. *)
Lemma set_defs_insert_id s a d :
  defs s !! a = Some d -> set_defs (<[a := d]> (defs s)) s = s.
Proof. intros H. rewrite insert_id by exact H. now destruct s. Qed.

(** C2.  [filter_load] is idempotent.  On a definition whose shared instance
    exists, a call loads nothing, creates nothing and returns true: the
    state, with its trace of calls, is unchanged.  On a definition without
    instance, when [createInstance] answers with an instance (and, where the
    module object is missing, [load_module] answers with one), the first call
    returns true and a second call is such a no-op: over both calls
    [createInstance] was called exactly once, with the instance the
    definition now holds as its result, and [load_module] at most once, only
    where the module object was missing. *)
Theorem filter_load_idempotent s a d :
  defs s !! a = Some d ->
  (forall i, FILTER_DEF.filter d = Some i ->
     filter_load MODULE_FILTER load_module (Some a) s = Ret true s) /\
  (forall o i w1,
     FILTER_DEF.filter d = None -> FILTER_DEF.obj d = Some o ->
     FILTER_OBJECT.createInstance o (FILTER_DEF.name d) (FILTER_DEF.options d)
       (FILTER_DEF.parameters d) (world s) = (Some i, w1) ->
     exists s1 d1,
       filter_load MODULE_FILTER load_module (Some a) s = Ret true s1 /\
       filter_load MODULE_FILTER load_module (Some a) s1 = Ret true s1 /\
       defs s1 !! a = Some d1 /\ FILTER_DEF.filter d1 = Some i /\
       createInstance_calls (trace s1) =
         call_createInstance (FILTER_DEF.name d) (FILTER_DEF.options d)
           (FILTER_DEF.parameters d) (Some i)
         :: createInstance_calls (trace s) /\
       load_module_calls (trace s1) = load_module_calls (trace s)) /\
  (forall o i w1 w2,
     FILTER_DEF.filter d = None -> FILTER_DEF.obj d = None ->
     load_module (FILTER_DEF.module d) MODULE_FILTER (world s)
       = (Some o, w1) ->
     FILTER_OBJECT.createInstance o (FILTER_DEF.name d) (FILTER_DEF.options d)
       (FILTER_DEF.parameters d) w1 = (Some i, w2) ->
     exists s1 d1,
       filter_load MODULE_FILTER load_module (Some a) s = Ret true s1 /\
       filter_load MODULE_FILTER load_module (Some a) s1 = Ret true s1 /\
       defs s1 !! a = Some d1 /\ FILTER_DEF.filter d1 = Some i /\
       createInstance_calls (trace s1) =
         call_createInstance (FILTER_DEF.name d) (FILTER_DEF.options d)
           (FILTER_DEF.parameters d) (Some i)
         :: createInstance_calls (trace s) /\
       load_module_calls (trace s1) =
         call_load_module (FILTER_DEF.module d) MODULE_FILTER true
         :: load_module_calls (trace s)).
Proof.
  intros Hd.
  assert (Hdone : forall s' d' i, defs s' !! a = Some d' ->
            FILTER_DEF.filter d' = Some i ->
            filter_load MODULE_FILTER load_module (Some a) s' = Ret true s').
  { intros s' d' i Hd' Hi. unfold filter_load.
    now rewrite (bind_Ret _ _ _ _ _ (deref_live _ _ _ Hd')), Hi. }
  split; [intros i; apply Hdone, Hd |]. split.
  - intros o i w1 Hn Ho Hc.
    rewrite (filter_load_loaded _ _ _ _ Hd Hn Ho).
    unfold create_step. rewrite Hc.
    eexists. exists (FILTER_DEF.with_filter (Some i) d).
    split; [reflexivity |].
    assert (Hd1 : forall (h : gmap addr (FILTER_DEF W)),
              <[a := FILTER_DEF.with_filter (Some i) d]> h !! a
              = Some (FILTER_DEF.with_filter (Some i) d))
      by (intros h; apply lookup_insert_eq).
    split; [eapply Hdone; [apply Hd1 | reflexivity] |].
    split; [apply Hd1 |]. now repeat split.
  - intros o i w1 w2 Hn Ho Hl Hc.
    rewrite (filter_load_unloaded _ _ _ Hd Hn Ho), Hl.
    unfold create_step.
    change (FILTER_OBJECT.createInstance o _ _ _ _)
      with (FILTER_OBJECT.createInstance o (FILTER_DEF.name d)
              (FILTER_DEF.options d) (FILTER_DEF.parameters d) w1).
    rewrite Hc.
    eexists.
    exists (FILTER_DEF.with_filter (Some i) (FILTER_DEF.with_obj (Some o) d)).
    split; [reflexivity |].
    assert (Hd1 : forall (h : gmap addr (FILTER_DEF W)),
              <[a := FILTER_DEF.with_filter (Some i)
                       (FILTER_DEF.with_obj (Some o) d)]> h !! a
              = Some (FILTER_DEF.with_filter (Some i)
                        (FILTER_DEF.with_obj (Some o) d)))
      by (intros h; apply lookup_insert_eq).
    split; [eapply Hdone; [apply Hd1 | reflexivity] |].
    split; [apply Hd1 |]. now repeat split.
Qed.


Lemma create_step_result s a d o i w :
  FILTER_OBJECT.createInstance o (FILTER_DEF.name d) (FILTER_DEF.options d)
    (FILTER_DEF.parameters d) (world s) = (i, w) ->
  exists s1,
    create_step a d o s = Ret (bool_decide (is_Some i)) s1 /\
    defs s1 = <[a := FILTER_DEF.with_filter i d]> (defs s) /\
    world s1 = w /\
    load_module_calls (trace s1) = load_module_calls (trace s) /\
    exists evs,
      trace s1 =
        evs ++ call_createInstance (FILTER_DEF.name d) (FILTER_DEF.options d)
                 (FILTER_DEF.parameters d) i :: trace s.
Proof.
  intros Hc. unfold create_step. rewrite Hc. destruct i as [i|].
  - eexists. split; [reflexivity |]. simpl. repeat split. now exists [].
  - eexists. split; [reflexivity |]. simpl. repeat split.
    now exists [log_error ("Failed to create filter '" ++ FILTER_DEF.name d
                            ++ "' instance.")].
Qed.

(** C3.  On a definition without instance, a failure of [filter_load] is the
    returned value false, never an abort or an undefined behaviour, and
    nothing is remembered of it.  For the null definition the answer is
    false.  When the module cannot be loaded, the module handle stays absent
    and the next call asks the loader again (and returns true if the loader
    and [createInstance] then succeed).  When [createInstance] returns no
    instance, the instance stays absent, the module handle stays, and the
    next call calls [createInstance] again without loading the module
    again. *)
Theorem filter_load_failure_retries s a d :
  defs s !! a = Some d -> FILTER_DEF.filter d = None ->
  filter_load MODULE_FILTER load_module None s = Ret false s /\
  (forall w1,
     FILTER_DEF.obj d = None ->
     load_module (FILTER_DEF.module d) MODULE_FILTER (world s) = (None, w1) ->
     exists s1,
       filter_load MODULE_FILTER load_module (Some a) s = Ret false s1 /\
       defs s1 !! a = Some d /\ world s1 = w1 /\
       forall (r2 : option (FILTER_OBJECT W)) w2,
         load_module (FILTER_DEF.module d) MODULE_FILTER w1 = (r2, w2) ->
         exists r s2 evs,
           filter_load MODULE_FILTER load_module (Some a) s1 = Ret r s2 /\
           trace s2 =
             evs ++ call_load_module (FILTER_DEF.module d) MODULE_FILTER
                      (bool_decide (is_Some r2)) :: trace s1 /\
           forall o i w3,
             r2 = Some o ->
             FILTER_OBJECT.createInstance o (FILTER_DEF.name d)
               (FILTER_DEF.options d) (FILTER_DEF.parameters d) w2
               = (Some i, w3) ->
             r = true) /\
  (forall o w1,
     FILTER_DEF.obj d = Some o ->
     FILTER_OBJECT.createInstance o (FILTER_DEF.name d) (FILTER_DEF.options d)
       (FILTER_DEF.parameters d) (world s) = (None, w1) ->
     exists s1,
       filter_load MODULE_FILTER load_module (Some a) s = Ret false s1 /\
       defs s1 !! a = Some d /\ world s1 = w1 /\
       forall i2 w2,
         FILTER_OBJECT.createInstance o (FILTER_DEF.name d)
           (FILTER_DEF.options d) (FILTER_DEF.parameters d) w1 = (i2, w2) ->
         exists s2 evs,
           filter_load MODULE_FILTER load_module (Some a) s1
             = Ret (bool_decide (is_Some i2)) s2 /\
           trace s2 =
             evs ++ call_createInstance (FILTER_DEF.name d)
                      (FILTER_DEF.options d) (FILTER_DEF.parameters d) i2
                 :: trace s1 /\
           load_module_calls (trace s2) = load_module_calls (trace s1)) /\
  (forall o w1 w2,
     FILTER_DEF.obj d = None ->
     load_module (FILTER_DEF.module d) MODULE_FILTER (world s)
       = (Some o, w1) ->
     FILTER_OBJECT.createInstance o (FILTER_DEF.name d) (FILTER_DEF.options d)
       (FILTER_DEF.parameters d) w1 = (None, w2) ->
     exists s1,
       filter_load MODULE_FILTER load_module (Some a) s = Ret false s1 /\
       defs s1 !! a = Some (FILTER_DEF.with_obj (Some o) d) /\
       world s1 = w2).
Proof.
  intros Hd Hn. split; [reflexivity |].
  assert (Hsame : forall d0, FILTER_DEF.filter d0 = None ->
            FILTER_DEF.with_filter None d0 = d0)
    by (intros d0 <-; apply with_filter_id).
  split; [| split].
  - intros w1 Ho Hl.
    rewrite (filter_load_unloaded _ _ _ Hd Hn Ho), Hl.
    eexists. split; [reflexivity |].
    match goal with |- context [filter_load _ _ _ ?x] => set (s1 := x) end.
    assert (Hd1 : defs s1 !! a = Some d) by apply lookup_insert_eq.
    split; [exact Hd1 |]. split; [reflexivity |].
    intros r2 w2 Hl2.
    rewrite (filter_load_unloaded _ _ _ Hd1 Hn Ho).
    change (world s1) with w1. rewrite Hl2.
    destruct r2 as [o|].
    + match goal with |- context [create_step _ _ _ ?x] => set (s2 := x) end.
      destruct (FILTER_OBJECT.createInstance o (FILTER_DEF.name d)
                  (FILTER_DEF.options d) (FILTER_DEF.parameters d) w2)
        as [i w3] eqn:Hc.
      destruct (create_step_result s2 a (FILTER_DEF.with_obj (Some o) d) o
                  i w3 Hc)
        as (s3 & Hrun & _ & _ & _ & evs & Ht).
      exists (bool_decide (is_Some i)), s3,
        (evs ++ [call_createInstance (FILTER_DEF.name d) (FILTER_DEF.options d)
                   (FILTER_DEF.parameters d) i]).
      split; [exact Hrun |]. split.
      * rewrite Ht. now rewrite <- app_assoc.
      * intros o' i' w3' [= <-]. rewrite Hc. now intros [= -> _].
    + eexists _, _, [_]. split; [reflexivity |]. split; [reflexivity |].
      discriminate.
  - intros o w1 Ho Hc.
    rewrite (filter_load_loaded _ _ _ _ Hd Hn Ho).
    unfold create_step at 1. rewrite Hc, (Hsame d Hn).
    eexists. split; [reflexivity |].
    match goal with |- context [filter_load _ _ _ ?x] => set (s1 := x) end.
    assert (Hd1 : defs s1 !! a = Some d) by apply lookup_insert_eq.
    split; [exact Hd1 |]. split; [reflexivity |].
    intros i2 w2 Hc2.
    rewrite (filter_load_loaded _ _ _ _ Hd1 Hn Ho).
    destruct (create_step_result s1 a d o i2 w2 Hc2)
      as (s2 & Hrun & _ & _ & Hlm & evs & Ht).
    now exists s2, evs.
  - intros o w1 w2 Ho Hl Hc.
    rewrite (filter_load_unloaded _ _ _ Hd Hn Ho), Hl.
    unfold create_step.
    change (FILTER_OBJECT.createInstance o _ _ _ _)
      with (FILTER_OBJECT.createInstance o (FILTER_DEF.name d)
              (FILTER_DEF.options d) (FILTER_DEF.parameters d) w1).
    rewrite Hc.
    eexists. split; [reflexivity |].
    split; [| reflexivity].
    cbn [defs emit set_defs set_world]. rewrite lookup_insert_eq.
    f_equal. unfold FILTER_DEF.with_filter, FILTER_DEF.with_obj. simpl.
    now rewrite Hn.
Qed.

(** When either reply entry point is missing, [filterUpstream] builds no
    node, calls nothing and leaves the state as it is: it returns [upstream]
    when [setUpstream] is missing, and the initial value [NULL] of [me]
    otherwise. *)
Lemma filterUpstream_no_node s a d o fsession upstream :
  defs s !! a = Some d -> FILTER_DEF.obj d = Some o ->
  FILTER_OBJECT.setUpstream o = None \/ FILTER_OBJECT.clientReply o = None ->
  filterUpstream mxs_alloc (Some a) fsession upstream s =
    Ret (match FILTER_OBJECT.setUpstream o with
         | None => upstream
         | Some _ => None
         end) s.
Proof.
  intros Hd Ho Hmissing. unfold filterUpstream.
  rewrite (bind_Ret _ _ _ _ _ (deref_live _ _ _ Hd)), Ho.
  unfold bind, deref_obj, ret.
  destruct (FILTER_OBJECT.setUpstream o) as [f |]; [| reflexivity].
  destruct Hmissing as [Hs | Hc]; [discriminate | now rewrite Hc].
Qed.

(** A module without [setUpstream] is skipped, as the comment of
    [filterUpstream] says ("may skip a filter if it does not provide an
    upstream interface"): the call returns [upstream] and leaves the state as
    it is. *)
Lemma filterUpstream_transparent s a d o fsession upstream :
  defs s !! a = Some d -> FILTER_DEF.obj d = Some o ->
  FILTER_OBJECT.setUpstream o = None ->
  filterUpstream mxs_alloc (Some a) fsession upstream s = Ret upstream s.
Proof.
  intros Hd Ho Hs.
  rewrite (filterUpstream_no_node s a d o _ _ Hd Ho (or_introl Hs)).
  now rewrite Hs.
Qed.

(** C1.  The code departs from the claim, and from its own comment.  For a
    module with [setUpstream] and without [clientReply] the claim expects the
    skip of a module without [setUpstream], the result [upstream]; the
    comment of [filterUpstream] promises the same ("@return The upstream
    component for the next filter").  The code falls through to [return me]
    with [me] still [NULL], the value it returns for a failed allocation:
    for every definition with such a module and every non-null [upstream]
    the call returns [NULL], not [upstream], though it has built no node and
    called nothing. *)
Theorem filterUpstream_missing_clientReply s a d o setUpstream fsession
    upstream :
  defs s !! a = Some d -> FILTER_DEF.obj d = Some o ->
  FILTER_OBJECT.setUpstream o = Some setUpstream ->
  FILTER_OBJECT.clientReply o = None ->
  upstream <> None ->
  filterUpstream mxs_alloc (Some a) fsession upstream s = Ret None s /\
  filterUpstream mxs_alloc (Some a) fsession upstream s <> Ret upstream s.
Proof.
  intros Hd Ho Hs Hc Hup.
  rewrite (filterUpstream_no_node s a d o _ _ Hd Ho (or_intror Hc)), Hs.
  split; [reflexivity |]. intros [= E]. now apply Hup.
Qed.

Lemma alloc_result s ok w :
  mxs_alloc (world s) = (ok, w) -> alloc mxs_alloc s = Ret ok (set_world w s).
Proof. intros H. unfold alloc. now rewrite H. Qed.

(** C4.  When the node is allocated and [newSession] returns no per-session
    handle, [filterApply] returns [NULL]; the node it had built is freed (the
    live [DOWNSTREAM] nodes are those from before the call), and the only
    call made is the one of [newSession]: [setDownstream] is not called. *)
Theorem filterApply_newSession_failure s a d o session downstream w1 w2 :
  defs s !! a = Some d -> FILTER_DEF.obj d = Some o ->
  mxs_alloc (world s) = (true, w1) ->
  FILTER_OBJECT.newSession o (FILTER_DEF.filter d) session w1 = (None, w2) ->
  exists s1,
    filterApply mxs_alloc (Some a) session downstream s = Ret None s1 /\
    downs s1 = downs s /\
    trace s1 = call_newSession (FILTER_DEF.filter d) session None :: trace s /\
    setDownstream_calls (trace s1) = setDownstream_calls (trace s) /\
    world s1 = w2 /\
    allFilters s1 = allFilters s /\ defs s1 = defs s /\ ups s1 = ups s.
Proof.
  intros Hd Ho Ha Hn. unfold filterApply, MXS_CALLOC_DOWNSTREAM.
  unfold bind at 1. unfold bind at 1.
  rewrite (alloc_result _ _ _ Ha).
  set (m := fresh (dom (downs (set_world w1 s)))).
  assert (Hm : downs s !! m = None).
  { apply not_elem_of_dom. subst m. apply is_fresh. }
  unfold bind, deref, assign_DOWNSTREAM, deref_DOWNSTREAM, deref_obj,
    invoke_newSession, MXS_FREE_DOWNSTREAM, bind, ret.
  simpl. rewrite Hd, Ho. simpl.
  repeat (rewrite lookup_insert_eq; simpl).
  rewrite Hn. simpl. rewrite lookup_insert_eq.
  eexists. split; [reflexivity |]. simpl.
  repeat split.
  rewrite !insert_insert_eq. rewrite delete_insert_eq. now apply delete_id.
Qed.
Lemma filter_alloc_run s name module ok1 w1 ok2 w2 ok3 w3 :
  mxs_alloc (world s) = (ok1, w1) -> mxs_alloc w1 = (ok2, w2) ->
  mxs_alloc w2 = (ok3, w3) ->
  filter_alloc mxs_alloc name module s =
    if ok1 && ok2 && ok3
    then Ret (Some (fresh (dom (defs s))))
           (registered name module (fresh (dom (defs s))) w3 s)
    else Ret None (set_world w3 s).
Proof.
  intros H1 H2 H3.
  unfold filter_alloc, MXS_STRDUP, MXS_MALLOC_FILTER_DEF, alloc, bind, ret.
  rewrite H1. simpl. rewrite H2. simpl. rewrite H3.
  destruct ok1, ok2, ok3; simpl; try reflexivity;
    unfold MXS_FREE_FILTER_DEF, set_defs, set_world; simpl;
    do 2 f_equal; apply delete_id, not_elem_of_dom, is_fresh.
Qed.

Lemma filter_find_head s a d name :
  allFilters s = Some a -> defs s !! a = Some d -> FILTER_DEF.name d = name ->
  filter_find name s = Ret (Some a) s.
Proof.
  intros Hh Hd Hn.
  unfold filter_find, spinlock_acquire, spinlock_release, live_defs.
  unfold bind, ret. rewrite Hh.
  assert (Hsz : size (defs s) <> 0%nat).
  { intros E. apply map_size_empty_inv in E. rewrite E in Hd. discriminate. }
  destruct (size (defs s)); [congruence |].
  simpl. unfold bind, deref. rewrite Hd, Hn, strcmp_refl.
  reflexivity.
Qed.

Lemma filter_find_registered s name module a w :
  filter_find name (registered name module a w s)
  = Ret (Some a) (registered name module a w s).
Proof.
  apply (filter_find_head _ a (fresh_def name module (allFilters s)));
    [reflexivity | apply lookup_insert_eq | reflexivity].
Qed.

(** C5.  Given the answers of the allocator to the two string copies and to
    the allocation of the definition: when one of them is a refusal,
    [filter_alloc] returns [NULL] and the registry ([allFilters] and the live
    definitions) is unchanged; when all three are served, it returns a new
    definition that is the head of the registry, linked to the former head,
    and [filter_find] on the name returns that definition, whose name and
    module are the given strings and whose options and parameters are
    [NULL]. *)
Theorem filter_alloc_spec s name module ok1 w1 ok2 w2 ok3 w3 :
  mxs_alloc (world s) = (ok1, w1) -> mxs_alloc w1 = (ok2, w2) ->
  mxs_alloc w2 = (ok3, w3) ->
  if ok1 && ok2 && ok3 then
    exists a s1,
      filter_alloc mxs_alloc name module s = Ret (Some a) s1 /\
      defs s !! a = None /\
      allFilters s1 = Some a /\
      defs s1 = <[a := fresh_def name module (allFilters s)]> (defs s) /\
      (exists d1,
         filter_find name s1 = Ret (Some a) s1 /\
         defs s1 !! a = Some d1 /\
         FILTER_DEF.name d1 = name /\ FILTER_DEF.module d1 = module /\
         FILTER_DEF.options d1 = None /\ FILTER_DEF.parameters d1 = None)
  else
    filter_alloc mxs_alloc name module s = Ret None (set_world w3 s) /\
    allFilters (set_world w3 s) = allFilters s /\
    defs (set_world w3 s) = defs s.
Proof.
  intros H1 H2 H3.
  rewrite (filter_alloc_run s name module _ _ _ _ _ _ H1 H2 H3).
  destruct (ok1 && ok2 && ok3); [| auto].
  eexists _, _. split; [reflexivity |].
  split; [apply not_elem_of_dom, is_fresh |].
  split; [reflexivity |]. split; [reflexivity |].
  exists (fresh_def name module (allFilters s)).
  split; [apply filter_find_registered |].
  split; [apply lookup_insert_eq | now repeat split].
Qed.




End Properties.

(** *** Arrays *)

Lemma options_list_shape (arr : list (slot string)) (os : list string) :
  options_list arr = Some os <->
  exists rest, arr = map Ref os ++ Null :: rest.
Proof.
  revert os. induction arr as [| x arr IH]; intros os; simpl.
  - split; [discriminate |]. intros [rest E]. now destruct os.
  - destruct x as [| o |].
    + split.
      * intros [= <-]. now exists arr.
      * intros [rest E]. destruct os; [reflexivity | discriminate].
    + destruct (options_list arr) as [os' |] eqn:E.
      * split.
        -- intros [= <-]. destruct (proj1 (IH os') eq_refl) as [rest ->].
           now exists rest.
        -- intros [rest E']. destruct os as [| o' os]; [discriminate |].
           simpl in E'. injection E' as -> E'.
           f_equal. f_equal.
           assert (H : Some os' = Some os) by (apply IH; now exists rest).
           congruence.
      * split; [discriminate |].
        intros [rest E']. destruct os as [| o' os]; [discriminate |].
        simpl in E'. injection E' as -> E'.
        assert (H : None = Some os) by (apply IH; now exists rest).
        discriminate.
    + split; [discriminate |]. intros [rest E]. now destruct os.
Qed.

Lemma options_list_terminated (os : list string) :
  options_list (map Ref os ++ [Null]) = Some os.
Proof. apply options_list_shape. now exists []. Qed.

(** The empty loop of [filterAddOption] stops at the sentinel. *)
Lemma for_until_null_skip {S} (arr : list (slot string)) os (i : Z) (s : S) :
  options_list arr = Some os ->
  i + Z.of_nat (length os) <= INT_MAX ->
  for_until_null (fun _ => ret tt) arr i s = Ret (i + Z.of_nat (length os)) s.
Proof.
  revert os i. induction arr as [| x arr IH]; intros os i; simpl;
    [discriminate |].
  destruct x as [| o |]; try discriminate.
  - intros [= <-] _. simpl. unfold ret. f_equal. lia.
  - destruct (options_list arr) as [os' |] eqn:E; [| discriminate].
    intros [= <-] Hb. simpl length in *.
    unfold bind at 1. unfold ret at 1. unfold bind at 1. unfold int_add.
    destruct (decide (i + 1 <= INT_MAX)) as [_ | Hn]; [| lia].
    unfold ret at 1.
    rewrite (IH os' (i + 1) eq_refl) by lia. f_equal. lia.
Qed.

(** Growing a terminated array by one slot and writing the new option and
    the new sentinel. *)
Lemma append_in_place (os : list string) (rest : list (slot string))
    (o : string) :
  let i := length os in
  let arr := map Ref os ++ Null :: rest in
  <[S i := Null]>
    (<[i := Ref o]>
       (take (i + 2) arr ++ replicate (i + 2 - length arr) Indet))
  = map Ref (os ++ [o]) ++ [Null].
Proof.
  induction os as [| o' os IH]; simpl.
  - destruct rest; reflexivity.
  - simpl in IH. now rewrite IH.
Qed.

Section OptionProperties.
Context {W : Type}.
Variable mxs_alloc : W -> bool * W.
Implicit Types (s : @state W) (d : FILTER_DEF W) (o : FILTER_OBJECT W).

Lemma options_store_live s a d arr (i : Z) v :
  defs s !! a = Some d -> FILTER_DEF.options d = Some arr ->
  0 <= i < Z.of_nat (length arr) ->
  options_store (Some a) i v s =
    Ret tt (set_defs
              (<[a := FILTER_DEF.with_options
                        (Some (<[Z.to_nat i := v]> arr)) d]> (defs s)) s).
Proof.
  intros Hd Ho Hi. unfold options_store, bind, deref, assign.
  rewrite Hd, Ho. destruct (decide _) as [_|Hn]; [| lia]. now rewrite Hd.
Qed.

Lemma options_load_live s a d arr (i : Z) x :
  defs s !! a = Some d -> FILTER_DEF.options d = Some arr ->
  arr !! Z.to_nat i = Some (Ref x) ->
  options_load (Some a) i s = Ret (Some x) s.
Proof.
  intros Hd Ho Hi. unfold options_load, bind, deref.
  now rewrite Hd, Ho, Hi.
Qed.

Lemma with_options_twice d v v' :
  FILTER_DEF.with_options v' (FILTER_DEF.with_options v d)
  = FILTER_DEF.with_options v' d.
Proof. reflexivity. Qed.

Lemma filterAddOption_run s a d os option ok1 w1 ok2 w2 :
  defs s !! a = Some d -> filter_options d = Some os ->
  Z.of_nat (length os) + 2 <= INT_MAX ->
  mxs_alloc (world s) = (ok1, w1) -> mxs_alloc w1 = (ok2, w2) ->
  filterAddOption mxs_alloc (Some a) option s =
    if ok1 && ok2
    then Ret tt (option_added a d (map Ref (os ++ [option]) ++ [Null]) w2 s)
    else Abort.
Proof.
  intros Hd Hos Hb H1 H2.
  unfold filterAddOption, spinlock_acquire, spinlock_release, bind.
  unfold ret at 1. rewrite (deref_live _ _ _ Hd).
  unfold filter_options in Hos.
  destruct (FILTER_DEF.options d) as [arr|] eqn:Hopt.
  - rewrite (for_until_null_skip arr os 0 s Hos ltac:(lia)).
    rewrite Z.add_0_l.
    unfold int_add. destruct (decide _) as [_|Hn]; [| lia].
    unfold MXS_REALLOC, MXS_STRDUP_A, MXS_STRDUP, alloc, bind, ret.
    rewrite H1. destruct ok1; simpl; [| unfold assign; simpl; now rewrite Hd].
    rewrite Hd. simpl. rewrite H2. destruct ok2; simpl; [| reflexivity].
    replace (Z.to_nat (Z.of_nat (length os) + 2)) with (length os + 2)%nat
      by lia.
    set (arr1 := take _ arr ++ replicate _ Indet).
    set (d1 := FILTER_DEF.with_options (Some arr1) d).
    set (s1 := set_world w2 _).
    assert (Hlen : length arr1 = (length os + 2)%nat).
    { subst arr1. rewrite length_app, length_take, length_replicate. lia. }
    assert (Hd1 : defs s1 !! a = Some d1) by apply lookup_insert_eq.
    rewrite (options_store_live s1 a d1 arr1 _ _ Hd1 eq_refl) by lia.
    set (arr2 := <[_ := _]> arr1).
    set (d2 := FILTER_DEF.with_options (Some arr2) d1).
    set (s2 := set_defs _ s1).
    assert (Hd2 : defs s2 !! a = Some d2) by apply lookup_insert_eq.
    assert (Hlen2 : length arr2 = (length os + 2)%nat)
      by (subst arr2; now rewrite length_insert).
    rewrite (options_load_live s2 a d2 arr2 _ option Hd2 eq_refl)
      by (subst arr2; apply list_lookup_insert_eq; lia).
    simpl.
    rewrite (options_store_live s2 a d2 arr2 _ _ Hd2 eq_refl) by lia.
    f_equal. subst s2 d2 s1 d1. unfold option_added, set_defs, set_world.
    simpl. f_equal. rewrite !insert_insert_eq, !with_options_twice.
    do 3 f_equal.
    replace (Z.to_nat (Z.of_nat (length os) + 1)) with (S (length os)) by lia.
    subst arr2. rewrite Nat2Z.id. subst arr1.
    apply options_list_shape in Hos. destruct Hos as [rest ->].
    apply append_in_place.
  - injection Hos as <-.
    unfold MXS_CALLOC, MXS_STRDUP_A, MXS_STRDUP, alloc, bind, ret.
    rewrite H1. destruct ok1; simpl; [| unfold assign; simpl; now rewrite Hd].
    rewrite Hd. simpl. rewrite H2. destruct ok2; simpl; [| reflexivity].
    set (arr1 := [Null; Null]).
    set (d1 := FILTER_DEF.with_options (Some arr1) d).
    set (s1 := set_world w2 _).
    assert (Hd1 : defs s1 !! a = Some d1) by apply lookup_insert_eq.
    rewrite (options_store_live s1 a d1 arr1 0 _ Hd1 eq_refl)
      by (simpl; lia).
    set (d2 := FILTER_DEF.with_options _ d1).
    set (s2 := set_defs _ s1).
    assert (Hd2 : defs s2 !! a = Some d2) by apply lookup_insert_eq.
    rewrite (options_store_live s2 a d2 _ 1 _ Hd2 eq_refl) by (simpl; lia).
    f_equal. subst s2 d2 s1 d1. unfold option_added, set_defs, set_world.
    simpl. f_equal. now rewrite !insert_insert_eq.
Qed.

(** C7.  Every sequence of [filterAddOption] calls on a definition whose
    option array is [NULL] or sentinel-terminated, with options [os], either
    aborts the process (the allocator refused a request) or returns with the
    option array sentinel-terminated and holding [os] followed by the added
    options, one per call and in call order: none is lost, and the array is
    exactly these options and one null pointer.  The calls return when the
    allocator serves every request.  The bound keeps the [int] index of the
    function in range. *)
Theorem filterAddOption_appends s a d os opts :
  defs s !! a = Some d -> filter_options d = Some os ->
  Z.of_nat (length os + length opts) + 1 <= INT_MAX ->
  (add_options mxs_alloc (Some a) opts s = Abort \/
   exists s1 d1,
     add_options mxs_alloc (Some a) opts s = Ret tt s1 /\
     defs s1 !! a = Some d1 /\
     filter_options d1 = Some (os ++ opts) /\
     (opts <> [] ->
      FILTER_DEF.options d1 = Some (map Ref (os ++ opts) ++ [Null]))) /\
  ((forall w, (mxs_alloc w).1 = true) ->
   exists s1, add_options mxs_alloc (Some a) opts s = Ret tt s1).
Proof.
  revert s d os. induction opts as [| option opts IH]; intros s d os Hd Hos Hb.
  - split; [right | intros _]; [| now exists s].
    exists s, d. rewrite app_nil_r. now repeat split.
  - simpl length in Hb.
    destruct (mxs_alloc (world s)) as [ok1 w1] eqn:H1.
    destruct (mxs_alloc w1) as [ok2 w2] eqn:H2.
    pose proof (filterAddOption_run s a d os option ok1 w1 ok2 w2 Hd Hos
                  ltac:(lia) H1 H2) as Hrun.
    assert (Hseq : add_options mxs_alloc (Some a) (option :: opts) s =
              if ok1 && ok2
              then add_options mxs_alloc (Some a) opts
                     (option_added a d (map Ref (os ++ [option]) ++ [Null])
                        w2 s)
              else Abort).
    { change (add_options mxs_alloc (Some a) (option :: opts) s)
        with ((filterAddOption mxs_alloc (Some a) option ;;
               add_options mxs_alloc (Some a) opts) s).
      unfold bind at 1. rewrite Hrun. now destruct (ok1 && ok2). }
    rewrite Hseq. clear Hseq Hrun.
    destruct (ok1 && ok2) eqn:Hok.
    + set (d1 := FILTER_DEF.with_options
                   (Some (map Ref (os ++ [option]) ++ [Null])) d).
      set (s1 := option_added _ _ _ _ _).
      assert (Hd1 : defs s1 !! a = Some d1) by apply lookup_insert_eq.
      assert (Hos1 : filter_options d1 = Some (os ++ [option]))
        by apply options_list_terminated.
      destruct (IH s1 d1 (os ++ [option]) Hd1 Hos1) as [Hpart Htotal].
      { rewrite length_app. simpl. lia. }
      rewrite <- !app_assoc in Hpart. simpl in Hpart.
      split; [| exact Htotal].
      destruct Hpart as [Ha | (s2 & d2 & Hr & Hd2 & Hos2 & Harr)];
        [now left | right].
      exists s2, d2. repeat split; try assumption.
      intros _. destruct opts as [| o' opts'].
      * injection Hr as <-. rewrite Hd1 in Hd2. now injection Hd2 as <-.
      * now apply Harr.
    + split; [now left |]. intros Hserved.
      pose proof (Hserved (world s)) as E1. pose proof (Hserved w1) as E2.
      rewrite H1 in E1. rewrite H2 in E2. simpl in *. subst. discriminate.
Qed.

End OptionProperties.

(** ** The registry *)

Section RegistryProperties.
Context {W : Type}.
Variable mxs_alloc : W -> bool * W.
Implicit Types (s : @state W) (d : FILTER_DEF W) (h : gmap addr (FILTER_DEF W)).
Implicit Types (l : list (addr * string)).

(** *** The list behind [allFilters] *)

Lemma chain_in_heap h p l a :
  chain h p l -> a ∈ l.*1 -> is_Some (h !! a).
Proof.
  revert p. induction l as [| [b n] l IH]; intros p; simpl.
  - intros _ H. inversion H.
  - intros (_ & d & Hd & _ & Hc) H. apply elem_of_cons in H as [-> | H].
    + now exists d.
    + now apply (IH _ Hc).
Qed.

Lemma chain_insert_outside h p l a d :
  a ∉ l.*1 -> chain h p l -> chain (<[a := d]> h) p l.
Proof.
  revert p. induction l as [| [b n] l IH]; intros p; simpl; [auto |].
  intros Ha (-> & d' & Hd' & Hn & Hc). apply not_elem_of_cons in Ha as [Hab Ha].
  split; [reflexivity |]. exists d'. rewrite lookup_insert_ne by congruence.
  auto.
Qed.

Lemma chain_delete_outside h p l a :
  a ∉ l.*1 -> chain h p l -> chain (delete a h) p l.
Proof.
  revert p. induction l as [| [b n] l IH]; intros p; simpl; [auto |].
  intros Ha (-> & d' & Hd' & Hn & Hc). apply not_elem_of_cons in Ha as [Hab Ha].
  split; [reflexivity |]. exists d'. rewrite lookup_delete_ne by congruence.
  auto.
Qed.

Lemma chain_length h p l :
  NoDup l.*1 -> chain h p l -> (length l <= size h)%nat.
Proof.
  intros Hnd Hc.
  rewrite <- (length_fmap fst l), <- (size_list_to_set (C := gset addr))
    by exact Hnd.
  rewrite <- (size_dom (D := gset addr) h).
  apply subseteq_size. intros a Ha. apply elem_of_list_to_set in Ha.
  apply elem_of_dom. now apply (chain_in_heap h p l).
Qed.

(** *** [filter_count_filters] and [filter_find] along a list *)

Lemma filter_count_filters_loop_chain s p l fuel (i : Z) :
  chain (defs s) p l -> (length l <= fuel)%nat ->
  i + Z.of_nat (length l) <= INT_MAX ->
  filter_count_filters_loop fuel i p s = Ret (i + Z.of_nat (length l)) s.
Proof.
  revert p fuel i. induction l as [| [a n] l IH]; intros p fuel i; simpl chain.
  - intros -> _ _. destruct fuel; simpl; unfold ret; f_equal; lia.
  - intros (-> & d & Hd & _ & Hc) Hf Hb. simpl length in *.
    destruct fuel as [| fuel]; [lia |]. simpl.
    unfold bind, int_add. destruct (decide _) as [_|Hn]; [| lia].
    unfold ret at 1. unfold deref. rewrite Hd.
    rewrite (IH _ fuel (i + 1) Hc) by lia. f_equal. lia.
Qed.

Lemma filter_count_filters_chain s l :
  chain (defs s) (allFilters s) l -> NoDup l.*1 ->
  Z.of_nat (length l) <= INT_MAX ->
  filter_count_filters s = Ret (Z.of_nat (length l)) s.
Proof.
  intros Hc Hnd Hb. unfold filter_count_filters, spinlock_acquire,
    spinlock_release, live_defs, bind, ret.
  rewrite (filter_count_filters_loop_chain s _ l _ 0 Hc) by
    (try apply (chain_length _ _ _ Hnd Hc); lia).
  reflexivity.
Qed.

Lemma filter_find_loop_chain s p l fuel name :
  chain (defs s) p l -> (length l <= fuel)%nat ->
  filter_find_loop fuel name p s =
    Ret (fst <$> List.find (fun x => bool_decide (x.2 = name)) l) s.
Proof.
  revert p fuel. induction l as [| [a n] l IH]; intros p fuel; simpl chain.
  - intros -> _. now destruct fuel.
  - intros (-> & d & Hd & Hn & Hc) Hf. simpl length in *.
    destruct fuel as [| fuel]; [lia |]. simpl.
    unfold bind, deref. rewrite Hd, Hn.
    destruct (decide (strcmp n name = 0)) as [E | E].
    + apply strcmp_eq in E. now rewrite bool_decide_eq_true_2.
    + rewrite bool_decide_eq_false_2 by (intros ->; apply E, strcmp_refl).
      apply (IH _ _ Hc). lia.
Qed.

Lemma filter_find_chain s l name :
  chain (defs s) (allFilters s) l -> NoDup l.*1 ->
  filter_find name s =
    Ret (fst <$> List.find (fun x => bool_decide (x.2 = name)) l) s.
Proof.
  intros Hc Hnd. unfold filter_find, spinlock_acquire, spinlock_release,
    live_defs, bind, ret.
  rewrite (filter_find_loop_chain s _ l _ name Hc)
    by apply (chain_length _ _ _ Hnd Hc).
  reflexivity.
Qed.


(** *** [filter_free] *)

Lemma chain_head h p a n l : chain h p ((a, n) :: l) -> p = Some a.
Proof. now intros (-> & _). Qed.

Lemma chain_head_app h p l a n l' :
  chain h p (l ++ (a, n) :: l') ->
  exists b, p = Some b /\ b ∈ (l ++ [(a, n)]).*1.
Proof.
  destruct l as [| [b m] l]; simpl; intros (-> & _).
  - exists a. split; [reflexivity |]. apply list_elem_of_here.
  - exists b. split; [reflexivity |]. apply list_elem_of_here.
Qed.

Lemma filter_free_loop_chain s q l1 p np a n l2 fuel :
  chain (defs s) q (l1 ++ (p, np) :: (a, n) :: l2) ->
  a ∉ (l1 ++ [(p, np)]).*1 ->
  (length l1 < fuel)%nat ->
  filter_free_loop fuel (Some a) q s = Ret (Some p) s.
Proof.
  revert q fuel. induction l1 as [| [x nx] l1 IH]; intros q fuel; simpl app.
  - intros (-> & dp & Hdp & _ & Hc) _ Hf. apply chain_head in Hc.
    destruct fuel as [| fuel]; [simpl in Hf; lia |]. simpl.
    unfold bind, deref. rewrite Hdp, Hc.
    destruct (decide _) as [E | E]; [now exfalso | reflexivity].
  - intros (-> & dx & Hdx & _ & Hc) Ha Hf. simpl length in Hf.
    destruct fuel as [| fuel]; [lia |]. simpl.
    unfold bind, deref. rewrite Hdx.
    rewrite fmap_cons in Ha. apply not_elem_of_cons in Ha as [_ Ha].
    destruct (chain_head_app _ _ _ _ _ _ Hc) as (b & Hb & Hin).
    destruct (decide _) as [_ | E].
    + apply IH; [exact Hc | exact Ha | lia].
    + exfalso. apply E. rewrite Hb. intros [= ->]. contradiction.
Qed.

Lemma chain_unlink h q l1 p np a n l2 dp d :
  chain h q (l1 ++ (p, np) :: (a, n) :: l2) ->
  NoDup (l1 ++ (p, np) :: (a, n) :: l2).*1 ->
  h !! p = Some dp -> h !! a = Some d ->
  chain (<[p := FILTER_DEF.with_next (FILTER_DEF.next d) dp]> h) q
    (l1 ++ (p, np) :: l2).
Proof.
  revert q. induction l1 as [| [x nx] l1 IH]; intros q; simpl app.
  - intros (-> & dp' & Hdp' & Hnp & Hc) Hnd Hdp Hd.
    rewrite Hdp in Hdp'. injection Hdp' as <-.
    destruct Hc as (Hnext & d' & Hd' & _ & Hc).
    rewrite Hd in Hd'. injection Hd' as <-.
    split; [reflexivity |]. eexists. rewrite lookup_insert_eq.
    split; [reflexivity |]. split; [exact Hnp |]. simpl.
    apply chain_insert_outside; [| exact Hc].
    rewrite !fmap_cons in Hnd. apply NoDup_cons in Hnd as [Hp _].
    simpl in Hp. intros H. apply Hp. now apply list_elem_of_further.
  - intros (-> & dx & Hdx & Hnx & Hc) Hnd Hdp Hd.
    rewrite fmap_cons in Hnd. apply NoDup_cons in Hnd as [Hx Hnd].
    split; [reflexivity |]. exists dx.
    rewrite lookup_insert_ne.
    + split; [exact Hdx |]. split; [exact Hnx |]. now apply IH.
    + intros <-. apply Hx. simpl. rewrite fmap_app, fmap_cons.
      apply elem_of_app. right. apply list_elem_of_here.
Qed.

Lemma filter_free_chain s l1 a n l2 d :
  chain (defs s) (allFilters s) (l1 ++ (a, n) :: l2) ->
  NoDup (l1 ++ (a, n) :: l2).*1 ->
  defs s !! a = Some d ->
  FILTER_DEF.options d = None -> FILTER_DEF.parameters d = None ->
  exists s',
    filter_free (Some a) s = Ret tt s' /\
    chain (defs s') (allFilters s') (l1 ++ l2) /\
    defs s' !! a = None /\ trace s' = trace s /\ world s' = world s.
Proof.
  intros Hc Hnd Hd Ho Hp.
  assert (Hfuel := chain_length _ _ _ Hnd Hc).
  assert (Ha2 : a ∉ l2.*1).
  { rewrite fmap_app, fmap_cons in Hnd. apply NoDup_app in Hnd as (_ & _ & Hnd).
    now apply NoDup_cons in Hnd as [? _]. }
  assert (Ha1 : a ∉ l1.*1).
  { rewrite fmap_app, fmap_cons in Hnd. apply NoDup_app in Hnd as (_ & Hnd & _).
    intros H. apply (Hnd a H). apply list_elem_of_here. }
  assert (Htail : forall s1,
            defs s1 !! a = Some d ->
            (d0 <- deref (Some a) ;;
             MXS_FREE (FILTER_DEF.name d0) ;;
             MXS_FREE (FILTER_DEF.module d0) ;;
             match FILTER_DEF.options d0 with
             | Some arr =>
                 for_until_null (fun o => MXS_FREE o) arr 0 ;; MXS_FREE arr
             | None => ret tt
             end ;;
             filter_free_parameters (Some a) ;;
             MXS_FREE_FILTER_DEF (Some a)) s1
            = Ret tt (set_defs (delete a (defs s1)) s1)).
  { intros s1 Hd1. unfold filter_free_parameters, MXS_FREE, bind, ret, deref.
    now rewrite Hd1, Ho, Hd1, Hp. }
  unfold filter_free, spinlock_acquire, spinlock_release.
  unfold bind at 1. unfold ret at 1. unfold bind at 1.
  destruct l1 as [| [x nx] l1]; simpl app in *.
  - destruct Hc as (Hh & d' & Hd' & _ & Hc).
    rewrite Hd in Hd'. injection Hd' as <-.
    destruct (decide (allFilters s = Some a)) as [_ | E]; [| contradiction].
    unfold bind at 1. unfold deref at 1. rewrite Hd.
    unfold bind at 1. unfold ret at 1.
    rewrite Htail by exact Hd.
    eexists. split; [reflexivity |]. simpl.
    split; [now apply chain_delete_outside |].
    split; [apply lookup_delete_eq | now split].
  - pose proof Hc as (Hh & _).
    assert (Hxa : x <> a).
    { intros ->. apply Ha1. rewrite fmap_cons. apply list_elem_of_here. }
    destruct (decide (allFilters s = Some a)) as [E | _]; [congruence |].
    destruct (exists_last (l := (x, nx) :: l1) ltac:(discriminate))
      as (l1' & [p np] & El).
    assert (Hc' : chain (defs s) (allFilters s)
                    (l1' ++ (p, np) :: (a, n) :: l2)).
    { change ((x, nx) :: l1 ++ (a, n) :: l2)
        with (((x, nx) :: l1) ++ (a, n) :: l2) in Hc.
      rewrite El, <- app_assoc in Hc. exact Hc. }
    assert (Hnd' : NoDup (l1' ++ (p, np) :: (a, n) :: l2).*1).
    { change ((x, nx) :: l1 ++ (a, n) :: l2)
        with (((x, nx) :: l1) ++ (a, n) :: l2) in Hnd.
      rewrite El, <- app_assoc in Hnd. exact Hnd. }
    assert (Hap : a ∉ (l1' ++ [(p, np)]).*1).
    { rewrite <- El. exact Ha1. }
    assert (Hlen : (length l1' < size (defs s))%nat).
    { assert (H : length ((x, nx) :: l1) = length (l1' ++ [(p, np)]))
        by now rewrite El.
      rewrite length_app in H. simpl in H, Hfuel.
      rewrite length_app in Hfuel. simpl in Hfuel. lia. }
    destruct (chain_in_heap _ _ _ p Hc') as [dp Hdp].
    { rewrite fmap_app, fmap_cons. apply elem_of_app. right.
      apply list_elem_of_here. }
    assert (Hpa : p <> a).
    { intros ->. apply Hap. rewrite fmap_app. apply elem_of_app. right.
      apply list_elem_of_here. }
    unfold live_defs. unfold bind at 1. unfold bind at 1.
    rewrite (filter_free_loop_chain s _ l1' p np a n l2 _ Hc' Hap Hlen).
    unfold bind at 1. unfold deref at 1. rewrite Hd.
    unfold assign. rewrite Hdp.
    unfold bind at 1. unfold ret at 1.
    rewrite Htail by (simpl; now rewrite lookup_insert_ne).
    eexists. split; [reflexivity |].
    split; [| split; [apply lookup_delete_eq | now split]].
    change ((x, nx) :: l1 ++ l2) with (((x, nx) :: l1) ++ l2).
    rewrite El, <- app_assoc. simpl app.
    apply chain_delete_outside.
    + rewrite fmap_app, fmap_cons. intros H. apply elem_of_app in H as [H | H].
      * apply Hap. rewrite fmap_app. apply elem_of_app. now left.
      * apply elem_of_cons in H as [H | H];
          [simpl in H; congruence | contradiction].
    + now apply (chain_unlink _ _ _ _ _ a n).
Qed.


(** *** Registering definitions *)

Lemma find_by_name_unique l a n :
  NoDup l.*2 -> (a, n) ∈ l ->
  List.find (fun x => bool_decide (x.2 = n)) l = Some (a, n).
Proof.
  induction l as [| [b m] l IH]; simpl; intros Hnd Hin.
  - inversion Hin.
  - apply NoDup_cons in Hnd as [Hm Hnd].
    apply elem_of_cons in Hin as [[= <- <-] | Hin].
    + now rewrite bool_decide_eq_true_2.
    + rewrite bool_decide_eq_false_2; [now apply IH |].
      intros ->. apply Hm. apply list_elem_of_fmap. now exists (a, n).
Qed.

Lemma find_by_name_absent l n :
  n ∉ l.*2 -> List.find (fun x => bool_decide (x.2 = n)) l = None.
Proof.
  induction l as [| [b m] l IH]; simpl; intros Hn; [reflexivity |].
  apply not_elem_of_cons in Hn as [Hm Hn].
  rewrite bool_decide_eq_false_2 by congruence. now apply IH.
Qed.

Lemma register_all_chain specs : forall s0 l0,
  chain (defs s0) (allFilters s0) l0 -> NoDup l0.*1 ->
  exists ps s1,
    register_all mxs_alloc specs s0 = Ret ps s1 /\
    length ps = length specs /\
    (forall a d, defs s0 !! a = Some d -> defs s1 !! a = Some d) /\
    (Forall is_Some ps ->
     exists addrs,
       ps = Some <$> addrs /\
       chain (defs s1) (allFilters s1)
         (reverse (zip addrs specs.*1) ++ l0) /\
       NoDup (reverse (zip addrs specs.*1) ++ l0).*1 /\
       forall a, a ∈ addrs ->
         exists d, defs s1 !! a = Some d /\
                   FILTER_DEF.options d = None /\
                   FILTER_DEF.parameters d = None).
Proof.
  induction specs as [| [name module] specs IH]; intros s0 l0 Hc Hnd.
  - exists [], s0. split; [reflexivity |]. split; [reflexivity |].
    split; [auto |]. intros _. exists []. split; [reflexivity |].
    split; [exact Hc |]. split; [exact Hnd |]. intros a Ha. inversion Ha.
  - destruct (mxs_alloc (world s0)) as [ok1 w1] eqn:H1.
    destruct (mxs_alloc w1) as [ok2 w2] eqn:H2.
    destruct (mxs_alloc w2) as [ok3 w3] eqn:H3.
    pose proof (filter_alloc_run mxs_alloc s0 name module _ _ _ _ _ _ H1 H2 H3)
      as Hrun.
    change (register_all mxs_alloc ((name, module) :: specs) s0)
      with ((filter <- filter_alloc mxs_alloc name module ;;
             rest <- register_all mxs_alloc specs ;;
             ret (filter :: rest)) s0).
    unfold bind at 1. rewrite Hrun. clear Hrun.
    destruct (ok1 && ok2 && ok3).
    + set (a := fresh (dom (defs s0))).
      set (sA := registered name module a w3 s0).
      assert (Ha : defs s0 !! a = None) by apply not_elem_of_dom, is_fresh.
      assert (Hal0 : a ∉ l0.*1).
      { intros H. destruct (chain_in_heap _ _ _ a Hc H) as [d Hd]. congruence. }
      assert (HcA : chain (defs sA) (allFilters sA) ((a, name) :: l0)).
      { split; [reflexivity |]. exists (fresh_def name module (allFilters s0)).
        split; [apply lookup_insert_eq |]. split; [reflexivity |].
        now apply chain_insert_outside. }
      assert (HndA : NoDup ((a, name) :: l0).*1)
        by (rewrite fmap_cons; now apply NoDup_cons).
      destruct (IH sA _ HcA HndA)
        as (ps & s1 & Hrun & Hlen & Hframe & Hall).
      exists (Some a :: ps), s1. unfold bind. rewrite Hrun.
      split; [reflexivity |]. split; [simpl; now rewrite Hlen |].
      split.
      { intros b d Hb. apply Hframe. subst sA. simpl.
        rewrite lookup_insert_ne; [exact Hb | congruence]. }
      intros Hsome. apply Forall_cons in Hsome as [_ Hsome].
      destruct (Hall Hsome) as (addrs & -> & Hc1 & Hnd1 & Hplain).
      exists (a :: addrs). split; [reflexivity |].
      rewrite fmap_cons. simpl zip_with. simpl fst.
      rewrite reverse_cons, <- app_assoc.
      split; [exact Hc1 |]. split; [exact Hnd1 |].
      intros b Hb. apply elem_of_cons in Hb as [-> | Hb]; [| now apply Hplain].
      exists (fresh_def name module (allFilters s0)).
      split; [| now split]. apply Hframe. apply lookup_insert_eq.
    + destruct (IH (set_world w3 s0) l0 Hc Hnd)
        as (ps & s1 & Hrun & Hlen & Hframe & _).
      exists (None :: ps), s1. unfold bind. rewrite Hrun.
      split; [reflexivity |]. split; [simpl; now rewrite Hlen |].
      split; [exact Hframe |].
      intros Hsome. apply Forall_cons in Hsome as [[x Hx] _]. discriminate.
Qed.

(** C6.  Registering definitions with distinct names in an empty registry
    returns; when all [N] registrations succeed, [filter_count_filters] is
    [N], [filter_find] locates each of them by its name, and after
    [filter_free] of any one of them [filter_count_filters] is [N - 1] and
    [filter_find] on its name returns [NULL].  [N] is at most [INT_MAX], the
    range of the counter. *)
Theorem registry_count_after_free s0 specs :
  allFilters s0 = None ->
  NoDup specs.*1 ->
  Z.of_nat (length specs) <= INT_MAX ->
  exists ps s1,
    register_all mxs_alloc specs s0 = Ret ps s1 /\
    (Forall is_Some ps ->
     filter_count_filters s1 = Ret (Z.of_nat (length specs)) s1 /\
     forall i a name,
       ps !! i = Some (Some a) -> specs.*1 !! i = Some name ->
       filter_find name s1 = Ret (Some a) s1 /\
       exists s2,
         filter_free (Some a) s1 = Ret tt s2 /\
         filter_count_filters s2 = Ret (Z.of_nat (length specs) - 1) s2 /\
         filter_find name s2 = Ret None s2).
Proof.
  intros Hempty Hnames Hbound.
  destruct (register_all_chain specs s0 [])
    as (ps & s1 & Hrun & Hlen & _ & Hall).
  { simpl. exact Hempty. }
  { constructor. }
  exists ps, s1. split; [exact Hrun |]. intros Hsome.
  destruct (Hall Hsome) as (addrs & -> & Hc & Hnd & Hplain).
  rewrite app_nil_r in Hc, Hnd.
  rewrite length_fmap in Hlen.
  set (l := reverse (zip addrs specs.*1)) in *.
  assert (Hl2 : l.*2 = reverse specs.*1).
  { subst l. rewrite fmap_reverse, snd_zip; [reflexivity |].
    rewrite length_fmap. lia. }
  assert (Hll : length l = length specs).
  { subst l. rewrite length_reverse, length_zip, length_fmap. lia. }
  assert (Hnd2 : NoDup l.*2) by now rewrite Hl2, reverse_Permutation.
  split.
  { rewrite <- Hll. apply filter_count_filters_chain; try assumption. lia. }
  intros i a name Hi Hname.
  rewrite list_lookup_fmap in Hi.
  destruct (addrs !! i) as [a' |] eqn:Ha; [| discriminate].
  injection Hi as ->.
  assert (Hin : (a, name) ∈ l).
  { subst l. apply elem_of_reverse, list_elem_of_lookup. exists i.
    now apply lookup_zip_Some. }
  split.
  { rewrite (filter_find_chain s1 l name Hc Hnd).
    now rewrite (find_by_name_unique l a name Hnd2 Hin). }
  destruct (list_elem_of_split _ _ Hin) as (l1 & l2 & El).
  destruct (Hplain a) as (d & Hd & Ho & Hp).
  { apply list_elem_of_lookup. now exists i. }
  rewrite El in Hc, Hnd, Hnd2, Hll.
  destruct (filter_free_chain s1 l1 a name l2 d Hc Hnd Hd Ho Hp)
    as (s2 & Hfree & Hc2 & _).
  assert (Hnd' : NoDup (l1 ++ l2).*1).
  { rewrite fmap_app in *. rewrite fmap_cons in Hnd.
    apply NoDup_app in Hnd as (Hn1 & Hn12 & Hn2).
    apply NoDup_cons in Hn2 as [_ Hn2].
    apply NoDup_app. split; [exact Hn1 |]. split; [| exact Hn2].
    intros x Hx Hx2. apply (Hn12 x Hx). now apply list_elem_of_further. }
  assert (Hname' : name ∉ (l1 ++ l2).*2).
  { rewrite fmap_app in *. rewrite fmap_cons in Hnd2.
    apply NoDup_app in Hnd2 as (_ & Hn12 & Hn2).
    apply NoDup_cons in Hn2 as [Hn2 _].
    intros H. apply elem_of_app in H as [H | H]; [| contradiction].
    apply (Hn12 name H). apply list_elem_of_here. }
  exists s2. split; [exact Hfree |]. split.
  - rewrite length_app in Hll. simpl in Hll.
    replace (Z.of_nat (length specs) - 1) with (Z.of_nat (length (l1 ++ l2)))
      by (rewrite length_app; lia).
    apply filter_count_filters_chain; try assumption.
    rewrite length_app. lia.
  - rewrite (filter_find_chain s2 (l1 ++ l2) name Hc2 Hnd').
    now rewrite (find_by_name_absent _ _ Hname').
Qed.

End RegistryProperties.

(** ** The properties at work in a concrete world *)

(** The failing input of C1: the filter ["cache"] at address 1, whose module
    has [setUpstream] and no [clientReply], asked to stand before the
    upstream at address 70. *)
Lemma filterUpstream_missing_clientReply_witness :
  defs (Scenario.instantiated Scenario.no_reply_object) !! 1%positive
  = Some (Scenario.cache_def (Some Scenario.no_reply_object)
            (Some 40%positive)) /\
  FILTER_OBJECT.setUpstream Scenario.no_reply_object <> None /\
  FILTER_OBJECT.clientReply Scenario.no_reply_object = None /\
  filterUpstream Scenario.mxs_alloc (Some 1%positive) (Some 50%positive)
    (Some 70%positive) (Scenario.instantiated Scenario.no_reply_object)
  = Ret None (Scenario.instantiated Scenario.no_reply_object) /\
  filterUpstream Scenario.mxs_alloc (Some 1%positive) (Some 50%positive)
    (Some 70%positive) (Scenario.instantiated Scenario.no_reply_object)
  <> Ret (Some 70%positive) (Scenario.instantiated Scenario.no_reply_object).
Proof.
  split; [reflexivity |]. split; [discriminate |]. split; [reflexivity |].
  apply (filterUpstream_missing_clientReply Scenario.mxs_alloc
           (Scenario.instantiated Scenario.no_reply_object) 1%positive
           (Scenario.cache_def (Some Scenario.no_reply_object)
              (Some 40%positive))
           Scenario.no_reply_object (fun _ _ _ w => w) (Some 50%positive)
           (Some 70%positive) eq_refl eq_refl eq_refl eq_refl).
  discriminate.
Defined.

Lemma filter_load_idempotent_witness :
  defs (Scenario.unloaded Scenario.quiet) !! 1%positive
  = Some (Scenario.cache_def None None) /\
  Scenario.load_module "cache" Scenario.MODULE_FILTER Scenario.quiet
  = (Some Scenario.full_object, Scenario.quiet) /\
  FILTER_OBJECT.createInstance Scenario.full_object "cache" None None
    Scenario.quiet = (Some 40%positive, Scenario.quiet) /\
  exists s1 d1,
    filter_load Scenario.MODULE_FILTER Scenario.load_module (Some 1%positive)
      (Scenario.unloaded Scenario.quiet) = Ret true s1 /\
    filter_load Scenario.MODULE_FILTER Scenario.load_module (Some 1%positive)
      s1 = Ret true s1 /\
    defs s1 !! 1%positive = Some d1 /\
    FILTER_DEF.filter d1 = Some 40%positive /\
    createInstance_calls (trace s1) =
      [call_createInstance "cache" None None (Some 40%positive)] /\
    load_module_calls (trace s1) = [call_load_module "cache" "Filter" true].
Proof.
  split; [reflexivity |]. split; [reflexivity |]. split; [reflexivity |].
  destruct (filter_load_idempotent Scenario.MODULE_FILTER Scenario.load_module
              (Scenario.unloaded Scenario.quiet) 1%positive
              (Scenario.cache_def None None) eq_refl)
    as (_ & _ & Hfirst).
  exact (Hfirst Scenario.full_object 40%positive Scenario.quiet
           Scenario.quiet eq_refl eq_refl eq_refl eq_refl).
Defined.

Lemma filter_load_failure_retries_witness :
  defs (Scenario.unloaded Scenario.loader_refuses) !! 1%positive
  = Some (Scenario.cache_def None None) /\
  FILTER_DEF.filter (Scenario.cache_def None None) = None /\
  exists s1,
    filter_load Scenario.MODULE_FILTER Scenario.load_module (Some 1%positive)
      (Scenario.unloaded Scenario.loader_refuses) = Ret false s1 /\
    defs s1 !! 1%positive = Some (Scenario.cache_def None None).
Proof.
  split; [reflexivity |]. split; [reflexivity |].
  destruct (filter_load_failure_retries Scenario.MODULE_FILTER
              Scenario.load_module (Scenario.unloaded Scenario.loader_refuses)
              1%positive (Scenario.cache_def None None) eq_refl eq_refl)
    as (_ & Hload & _).
  destruct (Hload Scenario.quiet eq_refl eq_refl) as (s1 & Hrun & Hd & _).
  exists s1. split; [exact Hrun | exact Hd].
Defined.

Lemma filterApply_newSession_failure_witness :
  defs (Scenario.one_filter Scenario.newSession_refuses
          (Some Scenario.full_object) (Some 40%positive)) !! 1%positive
  = Some (Scenario.cache_def (Some Scenario.full_object) (Some 40%positive)) /\
  FILTER_DEF.obj (Scenario.cache_def (Some Scenario.full_object)
                    (Some 40%positive))
  = Some Scenario.full_object /\
  Scenario.mxs_alloc Scenario.newSession_refuses
  = (true, Scenario.newSession_refuses) /\
  FILTER_OBJECT.newSession Scenario.full_object (Some 40%positive)
    (Some 90%positive) Scenario.newSession_refuses
  = (None, Scenario.quiet) /\
  exists s1,
    filterApply Scenario.mxs_alloc (Some 1%positive) (Some 90%positive)
      (Some 91%positive)
      (Scenario.one_filter Scenario.newSession_refuses
         (Some Scenario.full_object) (Some 40%positive))
    = Ret None s1 /\
    downs s1 = ∅ /\ setDownstream_calls (trace s1) = [].
Proof.
  split; [reflexivity |]. split; [reflexivity |]. split; [reflexivity |].
  split; [reflexivity |].
  destruct (filterApply_newSession_failure Scenario.mxs_alloc
              (Scenario.one_filter Scenario.newSession_refuses
                 (Some Scenario.full_object) (Some 40%positive))
              1%positive _ Scenario.full_object (Some 90%positive)
              (Some 91%positive) Scenario.newSession_refuses Scenario.quiet
              eq_refl eq_refl eq_refl eq_refl)
    as (s1 & Hrun & Hdowns & _ & Hcalls & _).
  exists s1. split; [exact Hrun |]. split; [exact Hdowns | exact Hcalls].
Defined.

Lemma filter_alloc_spec_witness :
  Scenario.mxs_alloc (world (Scenario.boot Scenario.quiet))
  = (true, Scenario.quiet) /\
  Scenario.mxs_alloc Scenario.quiet = (true, Scenario.quiet) /\
  exists a s1,
    filter_alloc Scenario.mxs_alloc "x" "m" (Scenario.boot Scenario.quiet)
    = Ret (Some a) s1 /\
    defs (Scenario.boot Scenario.quiet) !! a = None /\
    allFilters s1 = Some a /\
    defs s1 = <[a := fresh_def "x" "m" None]> ∅ /\
    exists d1,
      filter_find "x" s1 = Ret (Some a) s1 /\
      defs s1 !! a = Some d1 /\
      FILTER_DEF.name d1 = "x" /\ FILTER_DEF.module d1 = "m" /\
      FILTER_DEF.options d1 = None /\ FILTER_DEF.parameters d1 = None.
Proof.
  split; [reflexivity |]. split; [reflexivity |].
  exact (filter_alloc_spec Scenario.mxs_alloc (Scenario.boot Scenario.quiet)
           "x" "m" true Scenario.quiet true Scenario.quiet true Scenario.quiet
           eq_refl eq_refl eq_refl).
Defined.


Lemma filterAddOption_appends_witness :
  defs (Scenario.unloaded Scenario.quiet) !! 1%positive
  = Some (Scenario.cache_def None None) /\
  filter_options (Scenario.cache_def None None) = Some [] /\
  Z.of_nat (length (@nil string) + length ["ttl=10"; "debug=1"]) + 1
  <= INT_MAX /\
  exists s1 d1,
    add_options Scenario.mxs_alloc (Some 1%positive) ["ttl=10"; "debug=1"]
      (Scenario.unloaded Scenario.quiet) = Ret tt s1 /\
    defs s1 !! 1%positive = Some d1 /\
    filter_options d1 = Some ["ttl=10"; "debug=1"] /\
    FILTER_DEF.options d1 = Some [Ref "ttl=10"; Ref "debug=1"; Null].
Proof.
  assert (Hb : Z.of_nat (length (@nil string) + length ["ttl=10"; "debug=1"])
               + 1 <= INT_MAX) by (vm_compute; discriminate).
  split; [reflexivity |]. split; [reflexivity |]. split; [exact Hb |].
  destruct (filterAddOption_appends Scenario.mxs_alloc
              (Scenario.unloaded Scenario.quiet) 1%positive
              (Scenario.cache_def None None) [] ["ttl=10"; "debug=1"]
              eq_refl eq_refl Hb) as [[Ha | (s1 & d1 & Hr & Hd & Ho & Harr)] _].
  - vm_compute in Ha. discriminate Ha.
  - exists s1, d1. split; [exact Hr |]. split; [exact Hd |].
    split; [exact Ho |]. apply Harr. discriminate.
Defined.

Lemma registry_count_after_free_witness :
  allFilters (Scenario.boot Scenario.quiet) = None /\
  NoDup (Scenario.three_filters.*1) /\
  Z.of_nat (length Scenario.three_filters) <= INT_MAX /\
  exists s1,
    register_all Scenario.mxs_alloc Scenario.three_filters
      (Scenario.boot Scenario.quiet)
    = Ret [Some 1%positive; Some 2%positive; Some 3%positive] s1 /\
    filter_count_filters s1 = Ret 3 s1 /\
    filter_find "cache" s1 = Ret (Some 2%positive) s1 /\
    exists s2,
      filter_free (Some 2%positive) s1 = Ret tt s2 /\
      filter_count_filters s2 = Ret 2 s2 /\
      filter_find "cache" s2 = Ret None s2.
Proof.
  assert (Hnd : NoDup (Scenario.three_filters.*1)) by compute_done.
  assert (Hb : Z.of_nat (length Scenario.three_filters) <= INT_MAX)
    by (vm_compute; discriminate).
  split; [reflexivity |]. split; [exact Hnd |]. split; [exact Hb |].
  destruct (registry_count_after_free Scenario.mxs_alloc
              (Scenario.boot Scenario.quiet) Scenario.three_filters eq_refl
              Hnd Hb) as (ps & s1 & Hrun & Hall).
  assert (Hps : ps = [Some 1%positive; Some 2%positive; Some 3%positive]).
  { vm_compute in Hrun. now injection Hrun as <- _. }
  subst ps. exists s1. split; [exact Hrun |].
  destruct Hall as [Hcount Heach].
  { repeat constructor; now eexists. }
  split; [exact Hcount |].
  exact (Heach 1%nat 2%positive "cache" eq_refl eq_refl).
Defined.

(** * More properties *)

(** ** The chains of a session and loading *)

Section ChainProperties.
Context {W : Type}.
Variable mxs_alloc : W -> bool * W.
Variable MODULE_FILTER : string.
Variable load_module : string -> string -> W -> option (FILTER_OBJECT W) * W.
Implicit Types (s : @state W) (d : FILTER_DEF W) (o : FILTER_OBJECT W).

(** X1.  When the allocator serves the node and [newSession] returns a session,
    [filterApply] returns a new [DOWNSTREAM] node that holds the instance of
    the definition, that session and the [routeQuery] entry point of the
    module; [setDownstream] is called once, after [newSession], with the
    instance, the session and the downstream it was given; the registry, the
    definitions and the upstream nodes are as before. *)
Theorem filterApply_node s a d o session downstream w1 fsession w2 :
  defs s !! a = Some d -> FILTER_DEF.obj d = Some o ->
  mxs_alloc (world s) = (true, w1) ->
  FILTER_OBJECT.newSession o (FILTER_DEF.filter d) session w1
    = (Some fsession, w2) ->
    exists m s1,
      filterApply mxs_alloc (Some a) session downstream s = Ret (Some m) s1 /\
      downs s !! m = None /\
      downs s1 =
        <[m := {| DOWNSTREAM.instance := FILTER_DEF.filter d;
                  DOWNSTREAM.session := Some fsession;
                  DOWNSTREAM.routeQuery := FILTER_OBJECT.routeQuery o |}]>
          (downs s) /\
      trace s1 =
        call_setDownstream (FILTER_DEF.filter d) (Some fsession) downstream
        :: call_newSession (FILTER_DEF.filter d) session (Some fsession)
        :: trace s /\
      world s1 =
        FILTER_OBJECT.setDownstream o (FILTER_DEF.filter d) (Some fsession)
          downstream w2 /\
      allFilters s1 = allFilters s /\ defs s1 = defs s /\ ups s1 = ups s.
Proof.
  intros Hd Ho Ha Hn. unfold filterApply, MXS_CALLOC_DOWNSTREAM.
  unfold bind at 1. unfold bind at 1.
  rewrite (alloc_result _ _ _ _ Ha).
  set (m := fresh (dom (downs (set_world w1 s)))).
  assert (Hm : downs s !! m = None).
  { apply not_elem_of_dom. subst m. apply is_fresh. }
  unfold bind, deref, assign_DOWNSTREAM, deref_DOWNSTREAM, deref_obj,
    invoke_newSession, invoke_setDownstream, bind, ret.
  simpl. rewrite Hd, Ho. simpl.
  repeat (rewrite lookup_insert_eq; simpl).
  rewrite Hn. simpl. repeat (rewrite lookup_insert_eq; simpl).
  eexists _, _. split; [reflexivity |]. simpl.
  split; [exact Hm |]. split; [now rewrite !insert_insert_eq |].
  now repeat split.
Qed.

(** X2.  Neither [filterApply] nor [filterUpstream] checks [filter->obj].  On
    a definition whose module is not loaded, [filterUpstream] dereferences
    the null pointer at once, whatever the allocator would answer, and
    [filterApply] does as soon as its node is allocated. *)
Theorem chain_builders_need_module s a d session downstream fsession
    upstream :
  defs s !! a = Some d -> FILTER_DEF.obj d = None ->
  filterUpstream mxs_alloc (Some a) fsession upstream s = Undef /\
  (forall w1, mxs_alloc (world s) = (true, w1) ->
     filterApply mxs_alloc (Some a) session downstream s = Undef).
Proof.
  intros Hd Ho. split.
  - unfold filterUpstream.
    rewrite (bind_Ret _ _ _ _ _ (deref_live _ _ _ Hd)), Ho. reflexivity.
  - intros w1 Ha. unfold filterApply, MXS_CALLOC_DOWNSTREAM.
    unfold bind at 1. unfold bind at 1.
    rewrite (alloc_result _ _ _ _ Ha).
    unfold bind, deref, assign_DOWNSTREAM, deref_DOWNSTREAM, deref_obj, bind,
      ret.
    simpl. rewrite Hd, Ho. simpl. now rewrite lookup_insert_eq.
Qed.

(** X3.  When the allocator refuses the node, [filterApply] returns [NULL] before
    it reads the definition, whatever the pointer [filter] is, and
    [filterUpstream], for a module with [setUpstream] and [clientReply],
    returns [NULL] as well; neither calls an entry point nor keeps a node. *)
Theorem chain_builders_allocation_failure s filter session downstream a d o
    setUpstream reply fsession upstream w1 :
  mxs_alloc (world s) = (false, w1) ->
  filterApply mxs_alloc filter session downstream s
    = Ret None (set_world w1 s) /\
  (defs s !! a = Some d -> FILTER_DEF.obj d = Some o ->
   FILTER_OBJECT.setUpstream o = Some setUpstream ->
   FILTER_OBJECT.clientReply o = Some reply ->
   filterUpstream mxs_alloc (Some a) fsession upstream s
     = Ret None (set_world w1 s)).
Proof.
  intros Ha. split.
  - unfold filterApply, MXS_CALLOC_DOWNSTREAM.
    unfold bind at 1. unfold bind at 1.
    now rewrite (alloc_result _ _ _ _ Ha).
  - intros Hd Ho Hs Hc. unfold filterUpstream.
    rewrite (bind_Ret _ _ _ _ _ (deref_live _ _ _ Hd)), Ho.
    unfold deref_obj. rewrite (bind_Ret _ _ s o s eq_refl), Hs, Hc.
    unfold MXS_CALLOC_UPSTREAM. unfold bind at 1. unfold bind at 1.
    now rewrite (alloc_result _ _ _ _ Ha).
Qed.

(** X4.  For a module with both [setUpstream] and [clientReply], when the
    allocator serves the node, [filterUpstream] returns a new [UPSTREAM] node
    that holds the instance of the definition, the session [fsession] it was
    given and the [clientReply] entry point; [setUpstream] is called once
    with the instance, the session and the upstream; the registry, the
    definitions and the downstream nodes are as before. *)
Theorem filterUpstream_node s a d o setUpstream reply fsession upstream w1 :
  defs s !! a = Some d -> FILTER_DEF.obj d = Some o ->
  FILTER_OBJECT.setUpstream o = Some setUpstream ->
  FILTER_OBJECT.clientReply o = Some reply ->
  mxs_alloc (world s) = (true, w1) ->
    exists m s1,
      filterUpstream mxs_alloc (Some a) fsession upstream s
        = Ret (Some m) s1 /\
      ups s !! m = None /\
      ups s1 =
        <[m := {| UPSTREAM.instance := FILTER_DEF.filter d;
                  UPSTREAM.session := fsession;
                  UPSTREAM.clientReply := Some reply |}]> (ups s) /\
      trace s1 =
        call_setUpstream (FILTER_DEF.filter d) fsession upstream :: trace s /\
      world s1 = setUpstream (FILTER_DEF.filter d) fsession upstream w1 /\
      allFilters s1 = allFilters s /\ defs s1 = defs s /\ downs s1 = downs s.
Proof.
  intros Hd Ho Hs Hc Ha. unfold filterUpstream.
  rewrite (bind_Ret _ _ _ _ _ (deref_live _ _ _ Hd)), Ho.
  unfold deref_obj. rewrite (bind_Ret _ _ s o s eq_refl), Hs, Hc.
  unfold MXS_CALLOC_UPSTREAM. unfold bind at 1. unfold bind at 1.
  rewrite (alloc_result _ _ _ _ Ha).
  set (m := fresh (dom (ups (set_world w1 s)))).
  assert (Hm : ups s !! m = None).
  { apply not_elem_of_dom. subst m. apply is_fresh. }
  unfold bind, assign_UPSTREAM, deref_UPSTREAM, invoke_setUpstream, bind, ret.
  simpl. repeat (rewrite lookup_insert_eq; simpl).
  eexists _, _. split; [reflexivity |]. simpl.
  split; [exact Hm |]. split; [now rewrite !insert_insert_eq |].
  now repeat split.
Qed.

(** X5.  [filter_load] on a definition without instance returns true when
    [createInstance] returns an instance, and stores it in [filter->filter].
    With the module object at hand only [createInstance] is called, with the
    name, the options and the parameters of the definition; without it,
    [load_module] is called first with the module name and [MODULE_FILTER],
    and its result is stored in [filter->obj]. *)
Theorem filter_load_success s a d :
  defs s !! a = Some d -> FILTER_DEF.filter d = None ->
  (forall o i w1,
     FILTER_DEF.obj d = Some o ->
     FILTER_OBJECT.createInstance o (FILTER_DEF.name d) (FILTER_DEF.options d)
       (FILTER_DEF.parameters d) (world s) = (Some i, w1) ->
     exists s1,
       filter_load MODULE_FILTER load_module (Some a) s = Ret true s1 /\
       defs s1 = <[a := FILTER_DEF.with_filter (Some i) d]> (defs s) /\
       trace s1 =
         call_createInstance (FILTER_DEF.name d) (FILTER_DEF.options d)
           (FILTER_DEF.parameters d) (Some i) :: trace s /\
       world s1 = w1) /\
  (forall o i w1 w2,
     FILTER_DEF.obj d = None ->
     load_module (FILTER_DEF.module d) MODULE_FILTER (world s)
       = (Some o, w1) ->
     FILTER_OBJECT.createInstance o (FILTER_DEF.name d) (FILTER_DEF.options d)
       (FILTER_DEF.parameters d) w1 = (Some i, w2) ->
     exists s1,
       filter_load MODULE_FILTER load_module (Some a) s = Ret true s1 /\
       defs s1 =
         <[a := FILTER_DEF.with_filter (Some i)
                  (FILTER_DEF.with_obj (Some o) d)]> (defs s) /\
       trace s1 =
         call_createInstance (FILTER_DEF.name d) (FILTER_DEF.options d)
           (FILTER_DEF.parameters d) (Some i)
         :: call_load_module (FILTER_DEF.module d) MODULE_FILTER true
         :: trace s /\
       world s1 = w2).
Proof.
  intros Hd Hn. split.
  - intros o i w1 Ho Hc.
    rewrite (filter_load_loaded _ _ _ _ _ _ Hd Hn Ho).
    unfold create_step. rewrite Hc.
    eexists. split; [reflexivity |]. now repeat split.
  - intros o i w1 w2 Ho Hl Hc.
    rewrite (filter_load_unloaded _ _ _ _ _ Hd Hn Ho), Hl.
    unfold create_step.
    change (FILTER_OBJECT.createInstance o _ _ _ _)
      with (FILTER_OBJECT.createInstance o (FILTER_DEF.name d)
              (FILTER_DEF.options d) (FILTER_DEF.parameters d) w1).
    rewrite Hc.
    eexists. split; [reflexivity |]. simpl.
    split; [now rewrite insert_insert_eq |]. now split.
Qed.

End ChainProperties.

(** ** More on the registry *)

(** *** Sentinel-terminated arrays *)

Lemma options_list_before_null (arr : list (slot string)) :
  options_list arr = before_null arr.
Proof.
  induction arr as [| [| o |] arr IH]; simpl; try reflexivity.
  now rewrite IH.
Qed.

(** A loop whose body leaves the state alone walks a terminated array up to
    its sentinel. *)
Lemma for_until_null_pure {S A} (body : A -> M S unit) (arr : list (slot A))
    (xs : list A) (i : Z) (s : S) :
  (forall a s', body a s' = Ret tt s') ->
  before_null arr = Some xs ->
  i + Z.of_nat (length xs) <= INT_MAX ->
  for_until_null body arr i s = Ret (i + Z.of_nat (length xs)) s.
Proof.
  intros Hbody. revert xs i.
  induction arr as [| x arr IH]; intros xs i; simpl; [discriminate |].
  destruct x as [| a |]; try discriminate.
  - intros [= <-] _. simpl. unfold ret. f_equal. lia.
  - destruct (before_null arr) as [xs' |] eqn:E; [| discriminate].
    intros [= <-] Hb. simpl length in *.
    unfold bind at 1. rewrite Hbody. unfold bind at 1. unfold int_add.
    destruct (decide (i + 1 <= INT_MAX)) as [_ | Hn]; [| lia].
    unfold ret at 1.
    rewrite (IH xs' (i + 1) eq_refl) by lia. f_equal. lia.
Qed.

Section RegistryExtras.
Context {W : Type}.
Variable mxs_alloc : W -> bool * W.
Implicit Types (s : @state W) (d : FILTER_DEF W) (h : gmap addr (FILTER_DEF W)).
Implicit Types (l : list (addr * string)).

(** The end of [filter_free]: the strings, the options, the parameters and
    the definition itself are released. *)
Lemma filter_free_release s a d os ps :
  defs s !! a = Some d ->
  filter_options d = Some os -> filter_parameters d = Some ps ->
  Z.of_nat (length os) <= INT_MAX -> Z.of_nat (length ps) <= INT_MAX ->
  (d0 <- deref (Some a) ;;
   MXS_FREE (FILTER_DEF.name d0) ;;
   MXS_FREE (FILTER_DEF.module d0) ;;
   match FILTER_DEF.options d0 with
   | Some arr => for_until_null (fun o => MXS_FREE o) arr 0 ;; MXS_FREE arr
   | None => ret tt
   end ;;
   filter_free_parameters (Some a) ;;
   MXS_FREE_FILTER_DEF (Some a)) s
  = Ret tt (set_defs (delete a (defs s)) s).
Proof.
  intros Hd Hos Hps Hbo Hbp.
  rewrite (bind_Ret _ _ _ _ _ (deref_live _ _ _ Hd)).
  unfold MXS_FREE at 1 2. rewrite !(bind_Ret _ _ s tt s eq_refl).
  assert (Hopt : match FILTER_DEF.options d with
                 | Some arr =>
                     for_until_null (fun o : string => MXS_FREE o) arr 0 ;;
                     MXS_FREE arr
                 | None => ret tt
                 end s = Ret tt s).
  { unfold filter_options in Hos. destruct (FILTER_DEF.options d) as [arr |];
      [| reflexivity].
    rewrite options_list_before_null in Hos.
    unfold bind.
    now rewrite (for_until_null_pure (fun o => MXS_FREE o) arr os 0 s
                   (fun _ _ => eq_refl) Hos) by lia. }
  rewrite (bind_Ret _ _ _ _ _ Hopt).
  assert (Hpar : filter_free_parameters (Some a) s = Ret tt s).
  { unfold filter_free_parameters.
    rewrite (bind_Ret _ _ _ _ _ (deref_live _ _ _ Hd)).
    unfold filter_parameters in Hps.
    destruct (FILTER_DEF.parameters d) as [arr |]; [| reflexivity].
    unfold bind at 1.
    now rewrite (for_until_null_pure
                   (fun p => MXS_FREE (FILTER_PARAMETER.name p) ;;
                             MXS_FREE (FILTER_PARAMETER.value p))
                   arr ps 0 s (fun _ _ => eq_refl) Hps) by lia. }
  now rewrite (bind_Ret _ _ _ _ _ Hpar).
Qed.


(** The walk of [filter_free] along a list that does not hold [a] ends
    without a predecessor. *)
Lemma filter_free_loop_absent s q l a fuel :
  chain (defs s) q l -> a ∉ l.*1 -> (length l <= fuel)%nat ->
  filter_free_loop fuel (Some a) q s = Ret None s.
Proof.
  revert q fuel. induction l as [| [x nx] l IH]; intros q fuel; simpl chain.
  - intros -> _ _. now destruct fuel.
  - intros (-> & dx & Hdx & _ & Hc) Ha Hf. simpl length in Hf.
    destruct fuel as [| fuel]; [lia |]. simpl.
    rewrite fmap_cons in Ha. apply not_elem_of_cons in Ha as [_ Ha].
    unfold bind, deref. rewrite Hdx.
    destruct (decide _) as [_ | E].
    + apply IH; [exact Hc | exact Ha | lia].
    + exfalso. apply E. intros Hnext. rewrite Hnext in Hc.
      destruct l as [| [y ny] l]; [discriminate Hc |].
      destruct Hc as ([= ->] & _). apply Ha. rewrite fmap_cons.
      apply list_elem_of_here.
Qed.

(** X6.  [filter_free] on a definition of the registry, wherever it stands in the
    list, takes it out: the list is the one before without it, in the same
    order, the definition is no longer live, every other definition is as
    before but for its [next] link, and no collaborator is called. *)
Theorem filter_free_unlinks s l1 a n l2 d os ps :
  chain (defs s) (allFilters s) (l1 ++ (a, n) :: l2) ->
  NoDup (l1 ++ (a, n) :: l2).*1 ->
  defs s !! a = Some d ->
  filter_options d = Some os -> filter_parameters d = Some ps ->
  Z.of_nat (length os) <= INT_MAX -> Z.of_nat (length ps) <= INT_MAX ->
  exists s',
    filter_free (Some a) s = Ret tt s' /\
    chain (defs s') (allFilters s') (l1 ++ l2) /\
    defs s' !! a = None /\
    (forall b d0, b <> a -> defs s !! b = Some d0 ->
       exists next, defs s' !! b = Some (FILTER_DEF.with_next next d0)) /\
    trace s' = trace s /\ world s' = world s /\
    downs s' = downs s /\ ups s' = ups s.
Proof.
  intros Hc Hnd Hd Hos Hps Hbo Hbp.
  assert (Hfuel := chain_length _ _ _ Hnd Hc).
  assert (Ha2 : a ∉ l2.*1).
  { rewrite fmap_app, fmap_cons in Hnd.
    apply NoDup_app in Hnd as (_ & _ & Hnd).
    now apply NoDup_cons in Hnd as [? _]. }
  assert (Ha1 : a ∉ l1.*1).
  { rewrite fmap_app, fmap_cons in Hnd.
    apply NoDup_app in Hnd as (_ & Hnd & _).
    intros H. apply (Hnd a H). apply list_elem_of_here. }
  assert (Hid : forall d0 : FILTER_DEF W,
            FILTER_DEF.with_next (FILTER_DEF.next d0) d0 = d0)
    by now intros [].
  unfold filter_free, spinlock_acquire, spinlock_release.
  unfold bind at 1. unfold ret at 1. unfold bind at 1.
  destruct l1 as [| [x nx] l1]; simpl app in *.
  - destruct Hc as (Hh & d' & Hd' & _ & Hc).
    rewrite Hd in Hd'. injection Hd' as <-.
    destruct (decide (allFilters s = Some a)) as [_ | E]; [| contradiction].
    unfold bind at 1. unfold deref at 1. rewrite Hd.
    unfold bind at 1. unfold ret at 1.
    rewrite (filter_free_release _ a d os ps) by assumption.
    eexists. split; [reflexivity |].
    split; [now apply chain_delete_outside |].
    split; [apply lookup_delete_eq |].
    split; [| now repeat split].
    intros b d0 Hb Hd0. exists (FILTER_DEF.next d0). rewrite Hid.
    simpl. now rewrite lookup_delete_ne.
  - pose proof Hc as (Hh & _).
    assert (Hxa : x <> a).
    { intros ->. apply Ha1. rewrite fmap_cons. apply list_elem_of_here. }
    destruct (decide (allFilters s = Some a)) as [E | _]; [congruence |].
    destruct (exists_last (l := (x, nx) :: l1) ltac:(discriminate))
      as (l1' & [p np] & El).
    assert (Hc' : chain (defs s) (allFilters s)
                    (l1' ++ (p, np) :: (a, n) :: l2)).
    { change ((x, nx) :: l1 ++ (a, n) :: l2)
        with (((x, nx) :: l1) ++ (a, n) :: l2) in Hc.
      rewrite El, <- app_assoc in Hc. exact Hc. }
    assert (Hnd' : NoDup (l1' ++ (p, np) :: (a, n) :: l2).*1).
    { change ((x, nx) :: l1 ++ (a, n) :: l2)
        with (((x, nx) :: l1) ++ (a, n) :: l2) in Hnd.
      rewrite El, <- app_assoc in Hnd. exact Hnd. }
    assert (Hap : a ∉ (l1' ++ [(p, np)]).*1) by (rewrite <- El; exact Ha1).
    assert (Hlen : (length l1' < size (defs s))%nat).
    { assert (H : length ((x, nx) :: l1) = length (l1' ++ [(p, np)]))
        by now rewrite El.
      rewrite length_app in H. simpl in H, Hfuel.
      rewrite length_app in Hfuel. simpl in Hfuel. lia. }
    destruct (chain_in_heap _ _ _ p Hc') as [dp Hdp].
    { rewrite fmap_app, fmap_cons. apply elem_of_app. right.
      apply list_elem_of_here. }
    assert (Hpa : p <> a).
    { intros ->. apply Hap. rewrite fmap_app. apply elem_of_app. right.
      apply list_elem_of_here. }
    unfold live_defs. unfold bind at 1. unfold bind at 1.
    rewrite (filter_free_loop_chain s _ l1' p np a n l2 _ Hc' Hap Hlen).
    unfold bind at 1. unfold deref at 1. rewrite Hd.
    unfold assign. rewrite Hdp.
    unfold bind at 1. unfold ret at 1.
    rewrite (filter_free_release _ a d os ps)
      by (try assumption; simpl; now rewrite lookup_insert_ne).
    eexists. split; [reflexivity |].
    split; [| split; [apply lookup_delete_eq | split; [| now repeat split]]].
    + change ((x, nx) :: l1 ++ l2) with (((x, nx) :: l1) ++ l2).
      rewrite El, <- app_assoc. simpl app.
      apply chain_delete_outside.
      * rewrite fmap_app, fmap_cons. intros H.
        apply elem_of_app in H as [H | H].
        -- apply Hap. rewrite fmap_app. apply elem_of_app. now left.
        -- apply elem_of_cons in H as [H | H];
             [simpl in H; congruence | contradiction].
      * now apply (chain_unlink _ _ _ _ _ a n).
    + intros b d0 Hb Hd0. simpl. rewrite lookup_delete_ne by congruence.
      destruct (decide (b = p)) as [-> | Hbp'].
      * rewrite lookup_insert_eq. rewrite Hdp in Hd0. injection Hd0 as <-.
        now exists (FILTER_DEF.next d).
      * rewrite lookup_insert_ne by congruence.
        exists (FILTER_DEF.next d0). now rewrite Hid.
Qed.

(** X7.  [filter_free] on a live definition that the registry does not reach
    releases it and leaves the list as it is; [filter_free(NULL)] does
    nothing. *)
Theorem filter_free_not_registered s l a d os ps :
  chain (defs s) (allFilters s) l -> NoDup l.*1 ->
  a ∉ l.*1 ->
  defs s !! a = Some d ->
  filter_options d = Some os -> filter_parameters d = Some ps ->
  Z.of_nat (length os) <= INT_MAX -> Z.of_nat (length ps) <= INT_MAX ->
  filter_free (Some a) s = Ret tt (set_defs (delete a (defs s)) s) /\
  chain (delete a (defs s)) (allFilters s) l /\
  filter_free None s = Ret tt s.
Proof.
  intros Hc Hnd Ha Hd Hos Hps Hbo Hbp.
  split; [| split; [now apply chain_delete_outside | reflexivity]].
  unfold filter_free, spinlock_acquire, spinlock_release.
  unfold bind at 1. unfold ret at 1. unfold bind at 1.
  destruct (decide (allFilters s = Some a)) as [E | _].
  { exfalso. destruct l as [| [x nx] l]; [simpl in Hc; congruence |].
    destruct Hc as (Hh & _). rewrite Hh in E. injection E as ->.
    apply Ha. rewrite fmap_cons. apply list_elem_of_here. }
  unfold live_defs. unfold bind at 1. unfold bind at 1.
  rewrite (filter_free_loop_absent s _ l a _ Hc Ha (chain_length _ _ _ Hnd Hc)).
  unfold ret at 1. unfold bind at 1. unfold ret at 1.
  now rewrite (filter_free_release _ a d os ps).
Qed.

Lemma filter_alloc_chain s l name module a w :
  chain (defs s) (allFilters s) l -> defs s !! a = None ->
  chain (defs (registered name module a w s))
    (allFilters (registered name module a w s)) ((a, name) :: l).
Proof.
  intros Hc Ha. split; [reflexivity |].
  exists (fresh_def name module (allFilters s)).
  split; [apply lookup_insert_eq |]. split; [reflexivity |].
  apply chain_insert_outside; [| exact Hc].
  intros H. destruct (chain_in_heap _ _ _ a Hc H) as [d Hd]. congruence.
Qed.

Lemma find_by_name_first l1 a name l2 :
  name ∉ l1.*2 ->
  List.find (fun x => bool_decide (x.2 = name)) (l1 ++ (a, name) :: l2)
  = Some (a, name).
Proof.
  induction l1 as [| [b m] l1 IH]; simpl; intros Hn.
  - now rewrite bool_decide_eq_true_2.
  - apply not_elem_of_cons in Hn as [Hm Hn].
    rewrite bool_decide_eq_false_2 by congruence. now apply IH.
Qed.

(** X8.  [filter_find] returns [NULL] for a name no definition of the registry
    has, and else the first definition of that name from the head of the
    list on; it changes nothing. *)
Theorem filter_find_first_match s l name :
  chain (defs s) (allFilters s) l -> NoDup l.*1 ->
  (name ∉ l.*2 -> filter_find name s = Ret None s) /\
  (forall l1 a l2,
     l = l1 ++ (a, name) :: l2 -> name ∉ l1.*2 ->
     filter_find name s = Ret (Some a) s).
Proof.
  intros Hc Hnd. rewrite (filter_find_chain s l name Hc Hnd). split.
  - intros Hn. now rewrite find_by_name_absent.
  - intros l1 a l2 -> Hn. now rewrite find_by_name_first.
Qed.

(** X9.  [filter_count_filters] returns the length of the registry list and
    changes nothing; after a [filter_alloc] that the allocator serves it
    returns one more. *)
Theorem filter_count_filters_tracks s l name module w1 w2 w3 :
  chain (defs s) (allFilters s) l -> NoDup l.*1 ->
  Z.of_nat (length l) + 1 <= INT_MAX ->
  mxs_alloc (world s) = (true, w1) -> mxs_alloc w1 = (true, w2) ->
  mxs_alloc w2 = (true, w3) ->
  filter_count_filters s = Ret (Z.of_nat (length l)) s /\
  exists b s1,
    filter_alloc mxs_alloc name module s = Ret (Some b) s1 /\
    filter_count_filters s1 = Ret (Z.of_nat (length l) + 1) s1.
Proof.
  intros Hc Hnd Hb H1 H2 H3.
  split; [apply filter_count_filters_chain; try assumption; lia |].
  rewrite (filter_alloc_run mxs_alloc s name module _ _ _ _ _ _ H1 H2 H3).
  simpl. set (b := fresh (dom (defs s))).
  assert (Hfresh : defs s !! b = None) by apply not_elem_of_dom, is_fresh.
  exists b, (registered name module b w3 s). split; [reflexivity |].
  replace (Z.of_nat (length l) + 1) with (Z.of_nat (length ((b, name) :: l)))
    by (simpl length; lia).
  apply filter_count_filters_chain.
  - now apply filter_alloc_chain.
  - rewrite fmap_cons. apply NoDup_cons. split; [| exact Hnd].
    intros H. destruct (chain_in_heap _ _ _ b Hc H) as [d Hd]. congruence.
  - simpl length. lia.
Qed.

(** X10.  A [filter_alloc] that the allocator serves, followed by [filter_free] of
    the definition it returned, restores the registry: the head of the list
    and the live definitions are the ones before, and no collaborator other
    than the allocator is called. *)
Theorem filter_alloc_free_round_trip s name module w1 w2 w3 :
  mxs_alloc (world s) = (true, w1) -> mxs_alloc w1 = (true, w2) ->
  mxs_alloc w2 = (true, w3) ->
  exists b s1 s2,
    filter_alloc mxs_alloc name module s = Ret (Some b) s1 /\
    filter_free (Some b) s1 = Ret tt s2 /\
    allFilters s2 = allFilters s /\ defs s2 = defs s /\
    trace s2 = trace s /\ world s2 = w3.
Proof.
  intros H1 H2 H3.
  rewrite (filter_alloc_run mxs_alloc s name module _ _ _ _ _ _ H1 H2 H3).
  simpl. set (b := fresh (dom (defs s))).
  assert (Hfresh : defs s !! b = None) by apply not_elem_of_dom, is_fresh.
  set (s1 := registered name module b w3 s).
  assert (Hd : defs s1 !! b = Some (fresh_def name module (allFilters s)))
    by apply lookup_insert_eq.
  exists b, s1. 
  unfold filter_free, spinlock_acquire, spinlock_release.
  unfold bind at 1. unfold ret at 1. unfold bind at 1.
  destruct (decide (allFilters s1 = Some b)) as [_ | E];
    [| now contradiction E].
  unfold bind at 1. unfold deref at 1. rewrite Hd.
  unfold bind at 1. unfold ret at 1.
  assert (Hint : Z.of_nat 0 <= INT_MAX) by (unfold INT_MAX; lia).
  erewrite (filter_free_release _ b (fresh_def name module (allFilters s))
              [] []);
    [| exact Hd | reflexivity | reflexivity | exact Hint | exact Hint].
  eexists. split; [reflexivity |]. split; [reflexivity |].
  split; [reflexivity |]. split; [| now split].
  simpl. rewrite delete_insert_eq. now apply delete_id.
Qed.

End RegistryExtras.

(** ** Options and parameters *)

Lemma before_null_shape {A} (arr : list (slot A)) (xs : list A) :
  before_null arr = Some xs <-> exists rest, arr = map Ref xs ++ Null :: rest.
Proof.
  revert xs. induction arr as [| x arr IH]; intros xs; simpl.
  - split; [discriminate |]. intros [rest E]. now destruct xs.
  - destruct x as [| a |].
    + split.
      * intros [= <-]. now exists arr.
      * intros [rest E]. destruct xs; [reflexivity | discriminate].
    + destruct (before_null arr) as [xs' |] eqn:E.
      * split.
        -- intros [= <-]. destruct (proj1 (IH xs') eq_refl) as [rest ->].
           now exists rest.
        -- intros [rest E']. destruct xs as [| a' xs]; [discriminate |].
           simpl in E'. injection E' as -> E'.
           f_equal. f_equal.
           assert (H : Some xs' = Some xs) by (apply IH; now exists rest).
           congruence.
      * split; [discriminate |].
        intros [rest E']. destruct xs as [| a' xs]; [discriminate |].
        simpl in E'. injection E' as -> E'.
        assert (H : None = Some xs) by (apply IH; now exists rest).
        discriminate.
    + split; [discriminate |]. intros [rest E]. now destruct xs.
Qed.

Lemma before_null_terminated {A} (xs : list A) :
  before_null (map Ref xs ++ [Null]) = Some xs.
Proof. apply before_null_shape. now exists []. Qed.

Lemma grow_in_place {A} (xs : list A) (rest : list (slot A)) (x : A) :
  let i := length xs in
  let arr := map Ref xs ++ Null :: rest in
  <[S i := Null]>
    (<[i := Ref x]>
       (take (i + 2) arr ++ replicate (i + 2 - length arr) Indet))
  = map Ref (xs ++ [x]) ++ [Null].
Proof.
  induction xs as [| x' xs IH]; simpl.
  - destruct rest; reflexivity.
  - simpl in IH. now rewrite IH.
Qed.

Section OptionExtras.
Context {W : Type}.
Variable mxs_alloc : W -> bool * W.
Variable MODULE_FILTER : string.
Variable load_module : string -> string -> W -> option (FILTER_OBJECT W) * W.
Implicit Types (s : @state W) (d : FILTER_DEF W) (o : FILTER_OBJECT W).

Lemma option_added_twice s a d arr1 w1 arr2 w2 :
  option_added a (FILTER_DEF.with_options (Some arr1) d) arr2 w2
    (option_added a d arr1 w1 s)
  = option_added a d arr2 w2 s.
Proof.
  unfold option_added, set_defs, set_world. simpl.
  now rewrite insert_insert_eq.
Qed.

(** A sequence of [filterAddOption] calls that returns has stored the old
    options, the new ones and one sentinel, and has changed nothing else but
    the world of the allocator. *)
Lemma add_options_run s a d os opts :
  defs s !! a = Some d -> filter_options d = Some os ->
  Z.of_nat (length os + length opts) + 1 <= INT_MAX ->
  opts <> [] ->
  add_options mxs_alloc (Some a) opts s = Abort \/
  exists w,
    add_options mxs_alloc (Some a) opts s
    = Ret tt (option_added a d (map Ref (os ++ opts) ++ [Null]) w s).
Proof.
  revert s d os. induction opts as [| option opts IH]; intros s d os Hd Hos Hb Hne;
    [congruence |].
  simpl length in Hb.
  destruct (mxs_alloc (world s)) as [ok1 w1] eqn:H1.
  destruct (mxs_alloc w1) as [ok2 w2] eqn:H2.
  pose proof (filterAddOption_run mxs_alloc s a d os option ok1 w1 ok2 w2 Hd
                Hos ltac:(lia) H1 H2) as Hrun.
  assert (Hseq : add_options mxs_alloc (Some a) (option :: opts) s =
            if ok1 && ok2
            then add_options mxs_alloc (Some a) opts
                   (option_added a d (map Ref (os ++ [option]) ++ [Null])
                      w2 s)
            else Abort).
  { change (add_options mxs_alloc (Some a) (option :: opts) s)
      with ((filterAddOption mxs_alloc (Some a) option ;;
             add_options mxs_alloc (Some a) opts) s).
    unfold bind at 1. rewrite Hrun. now destruct (ok1 && ok2). }
  rewrite Hseq. clear Hseq Hrun.
  destruct (ok1 && ok2); [| now left].
  set (arr1 := map Ref (os ++ [option]) ++ [Null]).
  set (d1 := FILTER_DEF.with_options (Some arr1) d).
  set (s1 := option_added a d arr1 w2 s).
  destruct opts as [| o' opts'].
  - right. exists w2. reflexivity.
  - assert (Hd1 : defs s1 !! a = Some d1) by apply lookup_insert_eq.
    assert (Hos1 : filter_options d1 = Some (os ++ [option]))
      by apply options_list_terminated.
    destruct (IH s1 d1 (os ++ [option]) Hd1 Hos1) as [Ha | [w Hr]].
    + rewrite length_app. simpl in *. lia.
    + discriminate.
    + left. exact Ha.
    + right. exists w. rewrite Hr. f_equal.
      rewrite <- app_assoc. apply option_added_twice.
Qed.

(** X11.  The options added with [filterAddOption] reach the module: after the
    options [opts] are added, one call each, to a definition that had the
    options [os], [filter_load] calls [createInstance] with the array of
    [os] followed by [opts] and the null terminator, and does not call
    [load_module] when the module object is at hand. *)
Theorem options_reach_createInstance s a d o os opts s1 :
  defs s !! a = Some d ->
  FILTER_DEF.filter d = None -> FILTER_DEF.obj d = Some o ->
  filter_options d = Some os ->
  Z.of_nat (length os + length opts) + 1 <= INT_MAX ->
  opts <> [] ->
  add_options mxs_alloc (Some a) opts s = Ret tt s1 ->
  exists r s2 i,
    filter_load MODULE_FILTER load_module (Some a) s1 = Ret r s2 /\
    createInstance_calls (trace s2) =
      call_createInstance (FILTER_DEF.name d)
        (Some (map Ref (os ++ opts) ++ [Null])) (FILTER_DEF.parameters d) i
      :: createInstance_calls (trace s) /\
    load_module_calls (trace s2) = load_module_calls (trace s).
Proof.
  intros Hd Hn Ho Hos Hb Hne Hrun.
  destruct (add_options_run s a d os opts Hd Hos Hb Hne) as [Ha | [w Hr]];
    [congruence |].
  rewrite Hr in Hrun. injection Hrun as <-.
  set (arr := map Ref (os ++ opts) ++ [Null]).
  set (d1 := FILTER_DEF.with_options (Some arr) d).
  assert (Hd1 : defs (option_added a d arr w s) !! a = Some d1)
    by apply lookup_insert_eq.
  rewrite (filter_load_loaded MODULE_FILTER load_module _ a d1 o Hd1 Hn Ho).
  destruct (FILTER_OBJECT.createInstance o (FILTER_DEF.name d1)
              (FILTER_DEF.options d1) (FILTER_DEF.parameters d1)
              (world (option_added a d arr w s))) as [i w'] eqn:Hc.
  destruct (create_step_result _ a d1 o i w' Hc)
    as (s2 & Hstep & _ & _ & Hlm & evs & Ht).
  exists (bool_decide (is_Some i)), s2, i. split; [exact Hstep |].
  split; [| exact Hlm].
  unfold create_step in Hstep. rewrite Hc in Hstep.
  destruct i; injection Hstep as <-; reflexivity.
Qed.


(** X12.  [filterAddParameter] makes four requests to the allocator: the array,
    the parameter and the copies of the name and of the value.  When all
    four are served, the parameters of the definition are the ones before
    followed by the new (name, value), and the array ends with a null
    pointer; when any is refused, the process aborts. *)
Theorem filterAddParameter_appends s a d ps name value
    ok1 w1 ok2 w2 ok3 w3 ok4 w4 :
  defs s !! a = Some d -> filter_parameters d = Some ps ->
  Z.of_nat (length ps) + 2 <= INT_MAX ->
  mxs_alloc (world s) = (ok1, w1) -> mxs_alloc w1 = (ok2, w2) ->
  mxs_alloc w2 = (ok3, w3) -> mxs_alloc w3 = (ok4, w4) ->
  filterAddParameter mxs_alloc (Some a) name value s =
    if ok1 && ok2 && ok3 && ok4
    then Ret tt
           (set_defs
              (<[a := with_parameters
                        (Some (map Ref
                                 (ps ++ [{| FILTER_PARAMETER.name := name;
                                            FILTER_PARAMETER.value := value |}])
                               ++ [Null])) d]> (defs s))
              (set_world w4 s))
    else Abort.
Proof.
  intros Hd Hps Hb H1 H2 H3 H4.
  unfold filterAddParameter, spinlock_acquire, spinlock_release.
  unfold bind at 1. unfold ret at 1.
  rewrite (bind_Ret _ _ _ _ _ (deref_live _ _ _ Hd)).
  unfold filter_parameters in Hps.
  destruct (FILTER_DEF.parameters d) as [arr |] eqn:Hpar.
  - unfold bind at 1. unfold bind at 1.
    rewrite (for_until_null_pure (fun _ => ret tt) arr ps 0 s
               (fun _ _ => eq_refl) Hps) by lia.
    rewrite Z.add_0_l.
    unfold int_add. destruct (decide _) as [_ | Hn]; [| lia].
    unfold MXS_REALLOC, MXS_CALLOC_FILTER_PARAMETER, MXS_STRDUP,
      MXS_ABORT_IF_TRUE, alloc, bind, ret.
    rewrite H1. simpl. rewrite H2. simpl. rewrite H3. simpl. rewrite H4.
    destruct ok1, ok2, ok3, ok4; simpl; try reflexivity.
    replace (Z.to_nat (Z.of_nat (length ps) + 2)) with (length ps + 2)%nat
      by lia.
    set (arr1 := take _ arr ++ replicate _ Indet).
    assert (Hlen : length arr1 = (length ps + 2)%nat).
    { subst arr1. rewrite length_app, length_take, length_replicate. lia. }
    unfold array_store, bind, ret.
    destruct (decide _) as [_ | Hn]; [| lia].
    destruct (decide _) as [_ | Hn];
      [| rewrite length_insert in Hn; lia].
    unfold assign. simpl. rewrite Hd. do 3 f_equal.
    unfold with_parameters. f_equal. f_equal.
    replace (Z.to_nat (Z.of_nat (length ps) + 1)) with (S (length ps)) by lia.
    rewrite Nat2Z.id. subst arr1.
    apply before_null_shape in Hps. destruct Hps as [rest ->].
    apply grow_in_place.
  - injection Hps as <-.
    unfold MXS_CALLOC, MXS_CALLOC_FILTER_PARAMETER, MXS_STRDUP,
      MXS_ABORT_IF_TRUE, alloc, bind, ret.
    rewrite H1. simpl. rewrite H2. simpl. rewrite H3. simpl. rewrite H4.
    destruct ok1, ok2, ok3, ok4; simpl; try reflexivity.
    unfold array_store, bind, ret. simpl.
    unfold assign. simpl. now rewrite Hd.
Qed.

End OptionExtras.

(** ** The listing *)

Section ListingProperties.
Context {W : Type}.
Variable mxs_alloc : W -> bool * W.
Variable dcb_printf : pointer -> string -> W -> W.
Implicit Types (s : @state W) (d : FILTER_DEF W) (h : gmap addr (FILTER_DEF W)).
Implicit Types (ds : list (addr * FILTER_DEF W)).

Lemma set_world_id s : set_world (world s) s = s.
Proof. now destruct s. Qed.

Lemma printed_app dcb (xs ys : list string) (w : W) :
  printed dcb_printf dcb (xs ++ ys) w
  = printed dcb_printf dcb ys (printed dcb_printf dcb xs w).
Proof. unfold printed. apply fold_left_app. Qed.

Lemma linked_chain h p ds :
  linked h p ds ->
  chain h p (map (fun x => (x.1, FILTER_DEF.name x.2)) ds).
Proof.
  revert p. induction ds as [| [a d] ds IH]; intros p; simpl; [auto |].
  intros (-> & Hd & Hl). split; [reflexivity |]. exists d. auto.
Qed.

Lemma linked_length h p ds :
  NoDup ds.*1 -> linked h p ds -> (length ds <= size h)%nat.
Proof.
  intros Hnd Hl. apply linked_chain in Hl.
  apply chain_length in Hl.
  - now rewrite length_map in Hl.
  - rewrite <- list_fmap_compose. exact Hnd.
Qed.

(** The loop over the options writes each of them, followed by a space. *)
Lemma print_options_loop dcb (arr : list (slot string)) os (i : Z) s :
  before_null arr = Some os ->
  i + Z.of_nat (length os) <= INT_MAX ->
  for_until_null (fun o => invoke_dcb_printf dcb_printf dcb (o +:+ " ")) arr i s
  = Ret (i + Z.of_nat (length os))
      (set_world
         (printed dcb_printf dcb (map (fun o => o +:+ " ") os) (world s)) s).
Proof.
  revert os i s. induction arr as [| x arr IH]; intros os i s; simpl;
    [discriminate |].
  destruct x as [| o |]; try discriminate.
  - intros [= <-] _. simpl. unfold ret. rewrite set_world_id. f_equal. lia.
  - destruct (before_null arr) as [os' |] eqn:E; [| discriminate].
    intros [= <-] Hb. simpl length in *.
    unfold bind at 1. unfold invoke_dcb_printf at 1.
    unfold bind at 1. unfold int_add.
    destruct (decide (i + 1 <= INT_MAX)) as [_ | Hn]; [| lia].
    unfold ret at 1.
    rewrite (IH os' (i + 1) _ eq_refl) by lia. f_equal; lia.
Qed.

Lemma print_options_run dcb d os s :
  filter_options d = Some os -> Z.of_nat (length os) <= INT_MAX ->
  print_options dcb_printf dcb (FILTER_DEF.options d) s
  = Ret tt
      (set_world
         (printed dcb_printf dcb (map (fun o => o +:+ " ") os) (world s)) s).
Proof.
  unfold filter_options, print_options.
  destruct (FILTER_DEF.options d) as [arr |].
  - rewrite options_list_before_null. intros Hos Hb.
    unfold bind. now rewrite (print_options_loop dcb arr os 0 s Hos) by lia.
  - intros [= <-] _. simpl. unfold ret. now rewrite set_world_id.
Qed.

Lemma dListFilters_loop_rows dcb ds oss : forall p fuel s,
  linked (defs s) p ds -> options_of ds oss ->
  (length ds <= fuel)%nat ->
  dListFilters_loop dcb_printf fuel dcb p s
  = Ret tt
      (set_world
         (printed dcb_printf dcb (concat (zip_with table_row ds.*2 oss))
            (world s)) s).
Proof.
  intros p fuel s Hl Hos. revert p fuel s Hl.
  induction Hos as [| [a d] os ds oss [Hopt Hb] Hos IH]; intros p fuel s.
  - simpl. intros -> _. destruct fuel; simpl; unfold ret;
      now rewrite set_world_id.
  - simpl linked. intros (-> & Hd & Hl) Hf. simpl length in Hf.
    destruct fuel as [| fuel]; [lia |].
    simpl dListFilters_loop.
    rewrite (bind_Ret _ _ _ _ _ (deref_live _ _ _ Hd)).
    unfold bind at 1. unfold invoke_dcb_printf at 1.
    unfold bind at 1. rewrite (print_options_run dcb d os _ Hopt Hb).
    unfold bind at 1. unfold invoke_dcb_printf at 1.
    rewrite IH by (try exact Hl; lia).
    f_equal. simpl. unfold table_row. simpl.
    rewrite !printed_app. simpl. now destruct s.
Qed.

Lemma dListFilters_run dcb s ds oss :
  linked (defs s) (allFilters s) ds -> NoDup ds.*1 ->
  options_of ds oss ->
  dListFilters dcb_printf dcb s
  = Ret tt
      (set_world
         (printed dcb_printf dcb (table (zip_with table_row ds.*2 oss))
            (world s)) s).
Proof.
  intros Hl Hnd Hos.
  pose proof (linked_length _ _ _ Hnd Hl) as Hfuel.
  unfold dListFilters, spinlock_acquire, spinlock_release, live_defs.
  unfold bind at 1. unfold ret at 1. unfold bind at 1.
  destruct Hos as [| [a d] os ds oss Hopt Hos].
  - simpl in Hl. rewrite Hl. unfold bind, ret. simpl.
    destruct (size (defs s)); simpl; rewrite Hl; now rewrite set_world_id.
  - pose proof Hl as (Hh & _). rewrite Hh. rewrite Hh in Hl.
    assert (Hrows : options_of ((a, d) :: ds) (os :: oss))
      by (constructor; assumption).
    unfold invoke_dcb_printf, bind, ret.
    cbn [world set_world defs allFilters].
    match goal with
    | |- context [dListFilters_loop _ _ _ _ ?x] =>
        rewrite (dListFilters_loop_rows dcb ((a, d) :: ds) (os :: oss)
                   (Some a) (size (defs s)) x Hl Hrows Hfuel)
    end.
    cbn [world set_world defs allFilters]. rewrite Hh.
    f_equal. unfold table. 
    change (zip_with table_row ((a, d) :: ds).*2 (os :: oss))
      with (table_row d os :: zip_with table_row ds.*2 oss).
    cbv beta iota. unfold table_header.
    rewrite !printed_app. simpl. now destruct s.
Qed.

(** X13.  [dListFilters] writes nothing for an empty registry; else it writes the
    four lines of the header, one row for each definition from the head of
    the list on (the name padded to 19 columns, the module padded to 15, each
    option followed by a space, a newline) and the closing rule, and changes
    nothing but through the descriptor. *)
Theorem dListFilters_table dcb s ds oss :
  linked (defs s) (allFilters s) ds -> NoDup ds.*1 ->
  Forall2 (fun x os => filter_options x.2 = Some os /\
                       Z.of_nat (length os) <= INT_MAX) ds oss ->
  dListFilters dcb_printf dcb s
  = Ret tt
      (set_world
         (printed dcb_printf dcb (table (zip_with table_row ds.*2 oss))
            (world s)) s).
Proof.
  intros Hl Hnd Hos. exact (dListFilters_run dcb s ds oss Hl Hnd Hos).
Qed.

Lemma linked_insert_outside h p ds a d :
  a ∉ ds.*1 -> linked h p ds -> linked (<[a := d]> h) p ds.
Proof.
  revert p. induction ds as [| [b d'] ds IH]; intros p; simpl; [auto |].
  intros Ha (-> & Hd' & Hl). apply not_elem_of_cons in Ha as [Hab Ha].
  split; [reflexivity |]. rewrite lookup_insert_ne by congruence. auto.
Qed.

Lemma linked_in_heap h p ds a :
  linked h p ds -> a ∈ ds.*1 -> is_Some (h !! a).
Proof.
  revert p. induction ds as [| [b d] ds IH]; intros p; simpl.
  - intros _ H. inversion H.
  - intros (_ & Hd & Hl) H. apply elem_of_cons in H as [-> | H].
    + now exists d.
    + now apply (IH _ Hl).
Qed.

Lemma register_all_linked specs : forall s0 ds0,
  linked (defs s0) (allFilters s0) ds0 -> NoDup ds0.*1 ->
  exists ps s1,
    register_all mxs_alloc specs s0 = Ret ps s1 /\
    (Forall is_Some ps ->
     exists ds oss,
       linked (defs s1) (allFilters s1) (ds ++ ds0) /\
       NoDup (ds ++ ds0).*1 /\
       options_of ds oss /\
       zip_with table_row ds.*2 oss = map plain_row (reverse specs)).
Proof.
  induction specs as [| [name module] specs IH]; intros s0 ds0 Hl Hnd.
  - exists [], s0. split; [reflexivity |]. intros _. exists [], [].
    split; [exact Hl |]. split; [exact Hnd |]. split; [constructor |].
    reflexivity.
  - destruct (mxs_alloc (world s0)) as [ok1 w1] eqn:H1.
    destruct (mxs_alloc w1) as [ok2 w2] eqn:H2.
    destruct (mxs_alloc w2) as [ok3 w3] eqn:H3.
    pose proof (filter_alloc_run mxs_alloc s0 name module _ _ _ _ _ _ H1 H2 H3)
      as Hrun.
    change (register_all mxs_alloc ((name, module) :: specs) s0)
      with ((filter <- filter_alloc mxs_alloc name module ;;
             rest <- register_all mxs_alloc specs ;;
             ret (filter :: rest)) s0).
    unfold bind at 1. rewrite Hrun. clear Hrun.
    destruct (ok1 && ok2 && ok3).
    + set (a := fresh (dom (defs s0))).
      set (sA := registered name module a w3 s0).
      set (dA := fresh_def (W := W) name module (allFilters s0)).
      assert (Ha : defs s0 !! a = None) by apply not_elem_of_dom, is_fresh.
      assert (Hal0 : a ∉ ds0.*1).
      { intros H. destruct (linked_in_heap _ _ _ a Hl H) as [d Hd].
        congruence. }
      assert (HlA : linked (defs sA) (allFilters sA) ((a, dA) :: ds0)).
      { split; [reflexivity |]. split; [apply lookup_insert_eq |].
        now apply linked_insert_outside. }
      assert (HndA : NoDup ((a, dA) :: ds0).*1)
        by (rewrite fmap_cons; now apply NoDup_cons).
      destruct (IH sA _ HlA HndA) as (ps & s1 & Hrun & Hall).
      exists (Some a :: ps), s1. unfold bind. rewrite Hrun.
      split; [reflexivity |].
      intros Hsome. apply Forall_cons in Hsome as [_ Hsome].
      destruct (Hall Hsome) as (ds & oss & Hl1 & Hnd1 & Hopt & Hrows).
      exists (ds ++ [(a, dA)]), (oss ++ [[]]). rewrite <- app_assoc.
      split; [exact Hl1 |]. split; [exact Hnd1 |]. split.
      * apply Forall2_app; [exact Hopt |].
        constructor; [| constructor]. split; [reflexivity |].
        unfold INT_MAX. simpl. lia.
      * rewrite fmap_app, zip_with_app
          by (rewrite length_fmap; exact (Forall2_length _ _ _ Hopt)).
        rewrite Hrows, reverse_cons, map_app. reflexivity.
    + destruct (IH (set_world w3 s0) ds0 Hl Hnd) as (ps & s1 & Hrun & _).
      exists (None :: ps), s1. unfold bind. rewrite Hrun.
      split; [reflexivity |].
      intros Hsome. apply Forall_cons in Hsome as [[x Hx] _]. discriminate.
Qed.

(** X14.  After the definitions [specs] are registered into an empty registry, and
    every [filter_alloc] was served, [dListFilters] lists them most recent
    first: the rows are those of [specs] in reverse order, each without
    options. *)
Theorem dListFilters_most_recent_first dcb s0 specs :
  allFilters s0 = None ->
  exists ps s1,
    register_all mxs_alloc specs s0 = Ret ps s1 /\
    (Forall is_Some ps ->
     dListFilters dcb_printf dcb s1
     = Ret tt
         (set_world
            (printed dcb_printf dcb (table (map plain_row (reverse specs)))
               (world s1)) s1)).
Proof.
  intros Hempty.
  destruct (register_all_linked specs s0 []) as (ps & s1 & Hrun & Hall).
  { exact Hempty. }
  { constructor. }
  exists ps, s1. split; [exact Hrun |]. intros Hsome.
  destruct (Hall Hsome) as (ds & oss & Hl & Hnd & Hopt & Hrows).
  rewrite app_nil_r in Hl, Hnd.
  rewrite (dListFilters_run dcb s1 ds _ Hl Hnd Hopt).
  now rewrite Hrows.
Qed.


End ListingProperties.

(** ** The details of the definitions *)

Section DiagnosticsProperties.
Context {W : Type}.
Variable dcb_printf : pointer -> string -> W -> W.
Variable pointer_text : pointer -> string.
Variable diagnostics :
  FILTER_OBJECT W -> option (pointer -> pointer -> pointer -> W -> W).
Implicit Types (s : @state W) (d : FILTER_DEF W).

Lemma details_run {B} dcb a d os (k : M (@state W) B) s :
  filter_options d = Some os -> Z.of_nat (length os) <= INT_MAX ->
  (invoke_dcb_printf dcb_printf dcb
     ("Filter " +:+ pointer_text (Some a) +:+ " (" +:+ FILTER_DEF.name d
      +:+ ")" +:+ newline) ;;
   invoke_dcb_printf dcb_printf dcb
     (tab +:+ "Module:      " +:+ FILTER_DEF.module d +:+ newline) ;;
   match FILTER_DEF.options d with
   | Some _ =>
       invoke_dcb_printf dcb_printf dcb (tab +:+ "Options:     ") ;;
       print_options dcb_printf dcb (FILTER_DEF.options d) ;;
       invoke_dcb_printf dcb_printf dcb newline
   | None => ret tt
   end ;;
   k) s
  = k (set_world
         (printed dcb_printf dcb (detail_lines pointer_text a d os) (world s))
         s).
Proof.
  intros Hos Hb.
  unfold bind at 1. unfold invoke_dcb_printf at 1.
  unfold bind at 1. unfold invoke_dcb_printf at 1.
  unfold bind at 1. unfold detail_lines.
  destruct (FILTER_DEF.options d) as [arr |] eqn:E.
  - unfold bind at 1. unfold invoke_dcb_printf at 1.
    unfold bind at 1.
    pose proof (print_options_run dcb_printf dcb d os) as Hrun.
    rewrite E in Hrun. rewrite (Hrun _ Hos Hb).
    unfold invoke_dcb_printf. f_equal. simpl.
    rewrite !printed_app. simpl. now destruct s.
  - unfold ret. simpl. reflexivity.
Qed.

(** The entry point [diagnostics] of a loaded definition acts on the
    world. *)
Lemma diagnostics_run dcb d o i s :
  FILTER_DEF.obj d = Some o -> FILTER_DEF.filter d = Some i ->
  diagnosable diagnostics d ->
  invoke_diagnostics diagnostics o (FILTER_DEF.filter d) None dcb s
  = Ret tt (set_world (diagnosed diagnostics dcb d (world s)) s).
Proof.
  intros Ho Hi Hdiag. unfold invoke_diagnostics, diagnosed. rewrite Ho.
  destruct (Hdiag o) as [f Hf]; [unfold loaded; now rewrite Ho, Hi | exact Ho |].
  now rewrite Hf.
Qed.

(** X15.  [dprintFilter] writes the address and the name of the definition, its
    module and, unless [options] is null, the line of its options; then it
    calls the [diagnostics] entry point of the module when the definition has
    both a module object and an instance, and writes nothing more when it has
    not.  It does not check its argument: [dprintFilter(dcb, NULL)]
    dereferences a null pointer. *)
Theorem dprintFilter_details dcb a d os s :
  defs s !! a = Some d ->
  filter_options d = Some os -> Z.of_nat (length os) <= INT_MAX ->
  diagnosable diagnostics d ->
  dprintFilter dcb_printf pointer_text diagnostics dcb (Some a) s
  = Ret tt
      (set_world
         (described dcb_printf pointer_text diagnostics dcb a d os (world s))
         s) /\
  dprintFilter dcb_printf pointer_text diagnostics dcb None s = Undef.
Proof.
  intros Hd Hos Hb Hdiag. split; [| reflexivity]. unfold dprintFilter.
  rewrite (bind_Ret _ _ _ _ _ (deref_live _ _ _ Hd)).
  rewrite (details_run dcb a d os _ s Hos Hb).
  unfold described, loaded.
  destruct (FILTER_DEF.obj d) as [o |] eqn:Ho.
  - destruct (FILTER_DEF.filter d) as [i |] eqn:Hi.
    + rewrite <- Hi.
      rewrite (diagnostics_run dcb d o i _ Ho Hi Hdiag). now destruct s.
    + unfold ret. now destruct s.
  - unfold ret. now destruct s.
Qed.

(** What [dprintAllFilters] does to the world for one definition: what
    [dprintFilter] does and, for a definition that is not loaded, one more
    line. *)
Lemma dprintAllFilters_loop_each dcb ds oss : forall p fuel s,
  linked (defs s) p ds -> options_of ds oss ->
  Forall (fun x => diagnosable diagnostics x.2) ds ->
  (length ds <= fuel)%nat ->
  dprintAllFilters_loop dcb_printf pointer_text diagnostics fuel dcb p s
  = Ret tt
      (set_world
         (fold_left (fun w xo => listed dcb_printf pointer_text diagnostics dcb
                                   xo.1.1 xo.1.2 xo.2 w)
            (zip ds oss) (world s)) s).
Proof.
  intros p fuel s Hl Hos. revert p fuel s Hl.
  induction Hos as [| [a d] os ds oss [Hopt Hb] Hos IH]; intros p fuel s.
  - simpl. intros -> _ _. destruct fuel; simpl; unfold ret;
      now rewrite set_world_id.
  - simpl linked. intros (-> & Hd & Hl) Hall Hf. simpl length in Hf.
    apply Forall_cons in Hall as [Hdiag Hall].
    destruct fuel as [| fuel]; [lia |].
    simpl dprintAllFilters_loop.
    rewrite (bind_Ret _ _ _ _ _ (deref_live _ _ _ Hd)).
    rewrite (details_run dcb a d os _ s Hopt Hb).
    unfold bind at 1.
    assert (Hstep :
      match FILTER_DEF.obj d, FILTER_DEF.filter d with
      | Some obj, Some _ =>
          invoke_diagnostics diagnostics obj (FILTER_DEF.filter d) None dcb
      | _, _ =>
          invoke_dcb_printf dcb_printf dcb
            (tab +:+ "Module not loaded." +:+ newline)
      end
        (set_world
           (printed dcb_printf dcb (detail_lines pointer_text a d os)
              (world s)) s)
      = Ret tt
          (set_world
             (listed dcb_printf pointer_text diagnostics dcb a d os (world s))
             s)).
    { unfold listed, described, loaded.
      destruct (FILTER_DEF.obj d) as [o |] eqn:Ho.
      - destruct (FILTER_DEF.filter d) as [i |] eqn:Hi.
        + rewrite <- Hi.
          rewrite (diagnostics_run dcb d o i _ Ho Hi Hdiag). now destruct s.
        + unfold invoke_dcb_printf. now destruct s.
      - unfold invoke_dcb_printf. now destruct s. }
    rewrite Hstep.
    rewrite IH by (try exact Hl; try exact Hall; lia).
    reflexivity.
Qed.

(** X16.  [dprintAllFilters] does for each definition of the registry, from the
    head of the list on, what [dprintFilter] does for it, and writes
    "Module not loaded." after each definition that lacks the module object or
    the instance. *)
Theorem dprintAllFilters_each dcb s ds oss :
  linked (defs s) (allFilters s) ds -> NoDup ds.*1 ->
  options_of ds oss ->
  Forall (fun x => diagnosable diagnostics x.2) ds ->
  dprintAllFilters dcb_printf pointer_text diagnostics dcb s
  = Ret tt
      (set_world
         (fold_left (fun w xo => listed dcb_printf pointer_text diagnostics dcb
                                   xo.1.1 xo.1.2 xo.2 w)
            (zip ds oss) (world s)) s).
Proof.
  intros Hl Hnd Hos Hall.
  pose proof (linked_length _ _ _ Hnd Hl) as Hfuel.
  unfold dprintAllFilters, spinlock_acquire, spinlock_release, live_defs.
  unfold bind at 1. unfold ret at 1. unfold bind at 1. unfold bind at 1.
  unfold bind at 1.
  rewrite (dprintAllFilters_loop_each dcb ds oss _ _ s Hl Hos Hall Hfuel).
  reflexivity.
Qed.

End DiagnosticsProperties.

(** ** The debug flags of the cache *)

(** X17.  The five debug flags of [cachefilter.h] are pairwise disjoint, so setting
    one leaves the others as they were; [CACHE_DEBUG_MAX] holds each of them;
    and a value lies between [CACHE_DEBUG_MIN] and [CACHE_DEBUG_MAX] exactly
    when it is non-negative and sets no bit outside [CACHE_DEBUG_MAX]. *)
Theorem cache_debug_flags :
  (forall f g v,
     f ∈ CacheDebug.flags -> g ∈ CacheDebug.flags -> f <> g ->
     Z.land f g = 0 /\ Z.land (Z.lor v f) g = Z.land v g) /\
  (forall f, f ∈ CacheDebug.flags ->
     Z.land CacheDebug.CACHE_DEBUG_MAX f = f) /\
  (forall v,
     CacheDebug.CACHE_DEBUG_MIN <= v <= CacheDebug.CACHE_DEBUG_MAX <->
     0 <= v /\ Z.land v CacheDebug.CACHE_DEBUG_MAX = v).
Proof.
  split; [| split].
  - intros f g v Hf Hg Hne.
    assert (H0 : Z.land f g = 0).
    { unfold CacheDebug.flags in *.
      repeat (apply elem_of_cons in Hf as [-> | Hf]);
        try (now apply elem_of_nil in Hf);
        repeat (apply elem_of_cons in Hg as [-> | Hg]);
        try (now apply elem_of_nil in Hg);
        try reflexivity; contradiction. }
    split; [exact H0 |].
    now rewrite Z.land_lor_distr_l, H0, Z.lor_0_r.
  - intros f Hf. unfold CacheDebug.flags in Hf.
    repeat (apply elem_of_cons in Hf as [-> | Hf]); try reflexivity.
    now apply elem_of_nil in Hf.
  - intros v.
    change CacheDebug.CACHE_DEBUG_MAX with (Z.ones 5).
    change CacheDebug.CACHE_DEBUG_MIN with 0.
    rewrite Z.land_ones by lia. change (Z.ones 5) with 31.
    split.
    + intros Hv. split; [lia |]. apply Z.mod_small. lia.
    + intros [Hv E]. pose proof (Z.mod_pos_bound v (2 ^ 5) ltac:(lia)). lia.
Qed.

(** ** The definition that is a null pointer *)

Section NullDefinition.
Context {W : Type}.
Variable mxs_alloc : W -> bool * W.
Variable MODULE_FILTER : string.
Variable load_module : string -> string -> W -> option (FILTER_OBJECT W) * W.
Implicit Types (s : @state W).

(** X18.  Only [filter_load] and [filter_free] accept a null definition:
    [filter_load(NULL)] returns false and [filter_free(NULL)] returns, both
    without effect, while [filterAddOption], [filterAddParameter] and
    [filterUpstream] dereference the null pointer at once, and [filterApply]
    does as soon as its node is allocated. *)
Theorem null_definition_guards s :
  filter_load MODULE_FILTER load_module None s = Ret false s /\
  filter_free None s = Ret tt s /\
  (forall option, filterAddOption mxs_alloc None option s = Undef) /\
  (forall name value, filterAddParameter mxs_alloc None name value s = Undef) /\
  (forall fsession upstream,
     filterUpstream mxs_alloc None fsession upstream s = Undef) /\
  (forall session downstream w1,
     mxs_alloc (world s) = (true, w1) ->
     filterApply mxs_alloc None session downstream s = Undef).
Proof.
  split; [reflexivity |]. split; [reflexivity |]. split; [reflexivity |].
  split; [reflexivity |]. split; [reflexivity |].
  intros session downstream w1 H1.
  unfold filterApply, MXS_CALLOC_DOWNSTREAM.
  unfold bind at 1. unfold bind at 1. unfold alloc. rewrite H1. reflexivity.
Qed.

End NullDefinition.

(** ** More properties at work in a concrete world *)

(** The list of a concrete registry, by evaluation. *)
Ltac chain_by_computation :=
  vm_compute;
  repeat (split; [reflexivity |]; eexists; split; [reflexivity |];
          split; [reflexivity |]);
  reflexivity.

Ltac linked_by_computation :=
  vm_compute; repeat (split; [reflexivity |]; split; [reflexivity |]);
  reflexivity.

Lemma filterApply_node_witness :
  defs (Scenario.instantiated Scenario.full_object) !! 1%positive
  = Some (Scenario.cache_def (Some Scenario.full_object) (Some 40%positive)) /\
  Scenario.mxs_alloc (world (Scenario.instantiated Scenario.full_object))
  = (true, Scenario.quiet) /\
  FILTER_OBJECT.newSession Scenario.full_object (Some 40%positive)
    (Some 90%positive) Scenario.quiet = (Some 50%positive, Scenario.quiet) /\
  exists m s1,
    filterApply Scenario.mxs_alloc (Some 1%positive) (Some 90%positive)
      (Some 91%positive) (Scenario.instantiated Scenario.full_object)
    = Ret (Some m) s1 /\
    downs s1 =
      {[ m := {| DOWNSTREAM.instance := Some 40%positive;
                 DOWNSTREAM.session := Some 50%positive;
                 DOWNSTREAM.routeQuery := Some 60%positive |} ]} /\
    trace s1 =
      [call_setDownstream (Some 40%positive) (Some 50%positive)
         (Some 91%positive);
       call_newSession (Some 40%positive) (Some 90%positive)
         (Some 50%positive)].
Proof.
  split; [reflexivity |]. split; [reflexivity |]. split; [reflexivity |].
  destruct (filterApply_node Scenario.mxs_alloc
              (Scenario.instantiated Scenario.full_object) 1%positive
              (Scenario.cache_def (Some Scenario.full_object)
                 (Some 40%positive))
              Scenario.full_object (Some 90%positive) (Some 91%positive)
              Scenario.quiet 50%positive Scenario.quiet
              eq_refl eq_refl eq_refl eq_refl)
    as (m & s1 & Hrun & _ & Hdowns & Htrace & _).
  exists m, s1. split; [exact Hrun |]. split; [exact Hdowns | exact Htrace].
Defined.

Lemma chain_builders_need_module_witness :
  defs (Scenario.unloaded Scenario.quiet) !! 1%positive
  = Some (Scenario.cache_def None None) /\
  FILTER_DEF.obj (Scenario.cache_def None None) = None /\
  Scenario.mxs_alloc Cases.allocator_refuses = (false, Scenario.quiet) /\
  filterUpstream Scenario.mxs_alloc (Some 1%positive) (Some 50%positive)
    (Some 70%positive) (Scenario.unloaded Scenario.quiet) = Undef /\
  filterUpstream Scenario.mxs_alloc (Some 1%positive) (Some 50%positive)
    (Some 70%positive) (Scenario.unloaded Cases.allocator_refuses) = Undef /\
  filterApply Scenario.mxs_alloc (Some 1%positive) (Some 90%positive)
    (Some 91%positive) (Scenario.unloaded Scenario.quiet) = Undef.
Proof.
  split; [reflexivity |]. split; [reflexivity |]. split; [reflexivity |].
  destruct (chain_builders_need_module Scenario.mxs_alloc
              (Scenario.unloaded Scenario.quiet) 1%positive
              (Scenario.cache_def None None) (Some 90%positive)
              (Some 91%positive) (Some 50%positive) (Some 70%positive)
              eq_refl eq_refl) as [Hup Hdown].
  destruct (chain_builders_need_module Scenario.mxs_alloc
              (Scenario.unloaded Cases.allocator_refuses) 1%positive
              (Scenario.cache_def None None) (Some 90%positive)
              (Some 91%positive) (Some 50%positive) (Some 70%positive)
              eq_refl eq_refl) as [Hrefused _].
  split; [exact Hup |]. split; [exact Hrefused |].
  exact (Hdown Scenario.quiet eq_refl).
Defined.

Lemma chain_builders_allocation_failure_witness :
  Scenario.mxs_alloc Cases.allocator_refuses = (false, Scenario.quiet) /\
  filterApply Scenario.mxs_alloc (Some 1%positive) (Some 90%positive)
    (Some 91%positive)
    (Scenario.one_filter Cases.allocator_refuses (Some Scenario.full_object)
       (Some 40%positive))
  = Ret None
      (Scenario.one_filter Scenario.quiet (Some Scenario.full_object)
         (Some 40%positive)) /\
  filterUpstream Scenario.mxs_alloc (Some 1%positive) (Some 50%positive)
    (Some 70%positive)
    (Scenario.one_filter Cases.allocator_refuses (Some Scenario.full_object)
       (Some 40%positive))
  = Ret None
      (Scenario.one_filter Scenario.quiet (Some Scenario.full_object)
         (Some 40%positive)).
Proof.
  split; [reflexivity |].
  destruct (chain_builders_allocation_failure Scenario.mxs_alloc
              (Scenario.one_filter Cases.allocator_refuses
                 (Some Scenario.full_object) (Some 40%positive))
              (Some 1%positive) (Some 90%positive) (Some 91%positive)
              1%positive
              (Scenario.cache_def (Some Scenario.full_object)
                 (Some 40%positive))
              Scenario.full_object (fun _ _ _ w => w) 61%positive
              (Some 50%positive) (Some 70%positive) Scenario.quiet eq_refl)
    as [Hdown Hup].
  split; [exact Hdown |].
  exact (Hup eq_refl eq_refl eq_refl eq_refl).
Defined.

Lemma filterUpstream_node_witness :
  defs (Scenario.instantiated Scenario.full_object) !! 1%positive
  = Some (Scenario.cache_def (Some Scenario.full_object) (Some 40%positive)) /\
  FILTER_OBJECT.clientReply Scenario.full_object = Some 61%positive /\
  exists m s1,
    filterUpstream Scenario.mxs_alloc (Some 1%positive) (Some 50%positive)
      (Some 70%positive) (Scenario.instantiated Scenario.full_object)
    = Ret (Some m) s1 /\
    ups s1 =
      {[ m := {| UPSTREAM.instance := Some 40%positive;
                 UPSTREAM.session := Some 50%positive;
                 UPSTREAM.clientReply := Some 61%positive |} ]} /\
    trace s1 =
      [call_setUpstream (Some 40%positive) (Some 50%positive)
         (Some 70%positive)].
Proof.
  split; [reflexivity |]. split; [reflexivity |].
  destruct (filterUpstream_node Scenario.mxs_alloc
              (Scenario.instantiated Scenario.full_object) 1%positive
              (Scenario.cache_def (Some Scenario.full_object)
                 (Some 40%positive))
              Scenario.full_object (fun _ _ _ w => w) 61%positive
              (Some 50%positive) (Some 70%positive) Scenario.quiet
              eq_refl eq_refl eq_refl eq_refl eq_refl)
    as (m & s1 & Hrun & _ & Hups & Htrace & _).
  exists m, s1. split; [exact Hrun |]. split; [exact Hups | exact Htrace].
Defined.

Lemma filter_load_success_witness :
  defs (Scenario.unloaded Scenario.quiet) !! 1%positive
  = Some (Scenario.cache_def None None) /\
  FILTER_DEF.filter (Scenario.cache_def None None) = None /\
  Scenario.load_module "cache" Scenario.MODULE_FILTER Scenario.quiet
  = (Some Scenario.full_object, Scenario.quiet) /\
  (exists s1,
     filter_load Scenario.MODULE_FILTER Scenario.load_module (Some 1%positive)
       (Scenario.unloaded Scenario.quiet) = Ret true s1 /\
     defs s1 !! 1%positive =
       Some (Scenario.cache_def (Some Scenario.full_object)
               (Some 40%positive)) /\
     trace s1 =
       [call_createInstance "cache" None None (Some 40%positive);
        call_load_module "cache" "Filter" true]) /\
  (exists s1,
     filter_load Scenario.MODULE_FILTER Scenario.load_module (Some 1%positive)
       (Scenario.one_filter Scenario.quiet (Some Scenario.no_reply_object)
          None) = Ret true s1 /\
     trace s1 = [call_createInstance "cache" None None (Some 40%positive)]).
Proof.
  split; [reflexivity |]. split; [reflexivity |]. split; [reflexivity |].
  split.
  - destruct (filter_load_success Scenario.MODULE_FILTER Scenario.load_module
                (Scenario.unloaded Scenario.quiet) 1%positive
                (Scenario.cache_def None None) eq_refl eq_refl)
      as [_ Hload].
    destruct (Hload Scenario.full_object 40%positive Scenario.quiet
                Scenario.quiet eq_refl eq_refl eq_refl)
      as (s1 & Hrun & Hdefs & Htrace & _).
    exists s1. split; [exact Hrun |]. split; [| exact Htrace].
    rewrite Hdefs. apply lookup_insert_eq.
  - destruct (filter_load_success Scenario.MODULE_FILTER Scenario.load_module
                (Scenario.one_filter Scenario.quiet
                   (Some Scenario.no_reply_object) None) 1%positive
                (Scenario.cache_def (Some Scenario.no_reply_object) None)
                eq_refl eq_refl)
      as [Hhave _].
    destruct (Hhave Scenario.no_reply_object 40%positive Scenario.quiet
                eq_refl eq_refl)
      as (s1 & Hrun & _ & Htrace & _).
    exists s1. split; [exact Hrun | exact Htrace].
Defined.

Lemma filter_free_unlinks_witness :
  chain (defs Cases.three_registered) (allFilters Cases.three_registered)
    ([(3%positive, "tee")] ++ (2%positive, "cache") :: [(1%positive, "hint")])
  /\
  filter_options (fresh_def (W := Scenario.scripts) "cache" "cache"
                    (Some 1%positive)) = Some [] /\
  exists s',
    filter_free (Some 2%positive) Cases.three_registered = Ret tt s' /\
    chain (defs s') (allFilters s')
      ([(3%positive, "tee")] ++ [(1%positive, "hint")]) /\
    defs s' !! 2%positive = None /\
    trace s' = trace Cases.three_registered.
Proof.
  assert (Hc : chain (defs Cases.three_registered)
                 (allFilters Cases.three_registered)
                 ([(3%positive, "tee")] ++
                  (2%positive, "cache") :: [(1%positive, "hint")]))
    by chain_by_computation.
  assert (Hnd : NoDup ([(3%positive, "tee")] ++
                       (2%positive, "cache") :: [(1%positive, "hint")]).*1)
    by compute_done.
  split; [exact Hc |]. split; [reflexivity |].
  destruct (filter_free_unlinks Cases.three_registered
              [(3%positive, "tee")] 2%positive "cache" [(1%positive, "hint")]
              (fresh_def "cache" "cache" (Some 1%positive)) [] []
              Hc Hnd eq_refl eq_refl eq_refl)
    as (s' & Hrun & Hc' & Hgone & _ & Htrace & _).
  { vm_compute. discriminate. }
  { vm_compute. discriminate. }
  exists s'. split; [exact Hrun |]. split; [exact Hc' |].
  split; [exact Hgone | exact Htrace].
Defined.

Lemma filter_free_not_registered_witness :
  chain (defs Cases.detached) (allFilters Cases.detached)
    [(1%positive, "cache")] /\
  (2%positive ∉ [(1%positive, "cache")].*1) /\
  defs Cases.detached !! 2%positive = Some (fresh_def "tee" "tee" None) /\
  filter_free (Some 2%positive) Cases.detached
  = Ret tt (Scenario.unloaded Scenario.quiet) /\
  filter_free None Cases.detached = Ret tt Cases.detached.
Proof.
  assert (Hc : chain (defs Cases.detached) (allFilters Cases.detached)
                 [(1%positive, "cache")]) by chain_by_computation.
  assert (Hnd : NoDup [(1%positive, "cache")].*1) by compute_done.
  assert (Hout : 2%positive ∉ [(1%positive, "cache")].*1) by compute_done.
  split; [exact Hc |]. split; [exact Hout |]. split; [reflexivity |].
  destruct (filter_free_not_registered Cases.detached [(1%positive, "cache")]
              2%positive (fresh_def "tee" "tee" None) [] []
              Hc Hnd Hout eq_refl eq_refl eq_refl)
    as (Hrun & _ & Hnull).
  { vm_compute. discriminate. }
  { vm_compute. discriminate. }
  split; [| exact Hnull].
  exact (eq_trans Hrun eq_refl).
Defined.

Lemma filter_find_first_match_witness :
  chain (defs Cases.same_name_registered)
    (allFilters Cases.same_name_registered)
    [(2%positive, "dup"); (1%positive, "dup")] /\
  filter_find "tee" Cases.same_name_registered
  = Ret None Cases.same_name_registered /\
  filter_find "dup" Cases.same_name_registered
  = Ret (Some 2%positive) Cases.same_name_registered.
Proof.
  assert (Hc : chain (defs Cases.same_name_registered)
                 (allFilters Cases.same_name_registered)
                 [(2%positive, "dup"); (1%positive, "dup")])
    by chain_by_computation.
  assert (Hnd : NoDup [(2%positive, "dup"); (1%positive, "dup")].*1)
    by compute_done.
  split; [exact Hc |].
  destruct (filter_find_first_match Cases.same_name_registered _ "tee" Hc Hnd)
    as [Habsent _].
  destruct (filter_find_first_match Cases.same_name_registered _ "dup" Hc Hnd)
    as [_ Hfirst].
  split.
  - apply Habsent. compute_done.
  - apply (Hfirst [] 2%positive [(1%positive, "dup")] eq_refl). compute_done.
Defined.

Lemma filter_count_filters_tracks_witness :
  chain (defs Cases.three_registered) (allFilters Cases.three_registered)
    [(3%positive, "tee"); (2%positive, "cache"); (1%positive, "hint")] /\
  Scenario.mxs_alloc (world Cases.three_registered)
  = (true, Scenario.quiet) /\
  filter_count_filters Cases.three_registered
  = Ret 3 Cases.three_registered /\
  exists b s1,
    filter_alloc Scenario.mxs_alloc "qla" "qlafilter" Cases.three_registered
    = Ret (Some b) s1 /\
    filter_count_filters s1 = Ret 4 s1.
Proof.
  assert (Hc : chain (defs Cases.three_registered)
                 (allFilters Cases.three_registered)
                 [(3%positive, "tee"); (2%positive, "cache");
                  (1%positive, "hint")]) by chain_by_computation.
  assert (Hnd : NoDup [(3%positive, "tee"); (2%positive, "cache");
                       (1%positive, "hint")].*1) by compute_done.
  split; [exact Hc |]. split; [reflexivity |].
  apply (filter_count_filters_tracks Scenario.mxs_alloc
           Cases.three_registered _ "qla" "qlafilter" Scenario.quiet
           Scenario.quiet Scenario.quiet Hc Hnd).
  - vm_compute. discriminate.
  - reflexivity.
  - reflexivity.
  - reflexivity.
Defined.

Lemma filter_alloc_free_round_trip_witness :
  Scenario.mxs_alloc (world Cases.three_registered)
  = (true, Scenario.quiet) /\
  exists b s1 s2,
    filter_alloc Scenario.mxs_alloc "qla" "qlafilter" Cases.three_registered
    = Ret (Some b) s1 /\
    filter_free (Some b) s1 = Ret tt s2 /\
    allFilters s2 = Some 3%positive /\
    defs s2 = defs Cases.three_registered.
Proof.
  split; [reflexivity |].
  destruct (filter_alloc_free_round_trip Scenario.mxs_alloc
              Cases.three_registered "qla" "qlafilter" Scenario.quiet
              Scenario.quiet Scenario.quiet eq_refl eq_refl eq_refl)
    as (b & s1 & s2 & Halloc & Hfree & Hhead & Hdefs & _).
  exists b, s1, s2. split; [exact Halloc |]. split; [exact Hfree |].
  split; [exact Hhead | exact Hdefs].
Defined.

Lemma options_reach_createInstance_witness :
  defs (Scenario.one_filter Scenario.quiet (Some Scenario.full_object) None)
    !! 1%positive
  = Some (Scenario.cache_def (Some Scenario.full_object) None) /\
  add_options Scenario.mxs_alloc (Some 1%positive) ["ttl=10"; "debug=1"]
    (Scenario.one_filter Scenario.quiet (Some Scenario.full_object) None)
  = Ret tt
      (Scenario.after
         (add_options Scenario.mxs_alloc (Some 1%positive)
            ["ttl=10"; "debug=1"])
         (Scenario.one_filter Scenario.quiet (Some Scenario.full_object)
            None)) /\
  exists r s2 i,
    filter_load Scenario.MODULE_FILTER Scenario.load_module (Some 1%positive)
      (Scenario.after
         (add_options Scenario.mxs_alloc (Some 1%positive)
            ["ttl=10"; "debug=1"])
         (Scenario.one_filter Scenario.quiet (Some Scenario.full_object)
            None))
    = Ret r s2 /\
    createInstance_calls (trace s2) =
      [call_createInstance "cache"
         (Some [Ref "ttl=10"; Ref "debug=1"; Null]) None i].
Proof.
  assert (Hadd :
    add_options Scenario.mxs_alloc (Some 1%positive) ["ttl=10"; "debug=1"]
      (Scenario.one_filter Scenario.quiet (Some Scenario.full_object) None)
    = Ret tt
        (Scenario.after
           (add_options Scenario.mxs_alloc (Some 1%positive)
              ["ttl=10"; "debug=1"])
           (Scenario.one_filter Scenario.quiet (Some Scenario.full_object)
              None))) by (vm_compute; reflexivity).
  split; [reflexivity |]. split; [exact Hadd |].
  assert (Hb : Z.of_nat (length (@nil string)
                           + length ["ttl=10"; "debug=1"]) + 1 <= INT_MAX)
    by (vm_compute; discriminate).
  assert (Hne : ["ttl=10"; "debug=1"] <> []) by discriminate.
  destruct (options_reach_createInstance Scenario.mxs_alloc
              Scenario.MODULE_FILTER Scenario.load_module
              (Scenario.one_filter Scenario.quiet (Some Scenario.full_object)
                 None) 1%positive
              (Scenario.cache_def (Some Scenario.full_object) None)
              Scenario.full_object [] ["ttl=10"; "debug=1"]
              (Scenario.after
                 (add_options Scenario.mxs_alloc (Some 1%positive)
                    ["ttl=10"; "debug=1"])
                 (Scenario.one_filter Scenario.quiet
                    (Some Scenario.full_object) None))
              eq_refl eq_refl eq_refl eq_refl Hb Hne Hadd)
    as (r & s2 & i & Hrun & Hcalls & _).
  exists r, s2, i. split; [exact Hrun | exact Hcalls].
Defined.

Lemma filterAddParameter_appends_witness :
  defs (Scenario.unloaded Scenario.quiet) !! 1%positive
  = Some (Scenario.cache_def None None) /\
  filter_parameters (Scenario.cache_def None None) = Some [] /\
  Scenario.mxs_alloc Scenario.quiet = (true, Scenario.quiet) /\
  Scenario.mxs_alloc Cases.allocator_refuses = (false, Scenario.quiet) /\
  filterAddParameter Scenario.mxs_alloc (Some 1%positive) "max_size" "100"
    (Scenario.unloaded Scenario.quiet)
  = Ret tt
      (set_defs
         (<[1%positive :=
              with_parameters
                (Some [Ref {| FILTER_PARAMETER.name := "max_size";
                              FILTER_PARAMETER.value := "100" |}; Null])
                (Scenario.cache_def None None)]>
            (defs (Scenario.unloaded Scenario.quiet)))
         (Scenario.unloaded Scenario.quiet)) /\
  filterAddParameter Scenario.mxs_alloc (Some 1%positive) "max_size" "100"
    (Scenario.unloaded Cases.allocator_refuses) = Abort.
Proof.
  split; [reflexivity |]. split; [reflexivity |]. split; [reflexivity |].
  split; [reflexivity |]. split.
  - apply (filterAddParameter_appends Scenario.mxs_alloc
             (Scenario.unloaded Scenario.quiet) 1%positive
             (Scenario.cache_def None None) [] "max_size" "100"
             true Scenario.quiet true Scenario.quiet true Scenario.quiet
             true Scenario.quiet eq_refl eq_refl).
    + vm_compute. discriminate.
    + reflexivity.
    + reflexivity.
    + reflexivity.
    + reflexivity.
  - apply (filterAddParameter_appends Scenario.mxs_alloc
             (Scenario.unloaded Cases.allocator_refuses) 1%positive
             (Scenario.cache_def None None) [] "max_size" "100"
             false Scenario.quiet true Scenario.quiet true Scenario.quiet
             true Scenario.quiet eq_refl eq_refl).
    + vm_compute. discriminate.
    + reflexivity.
    + reflexivity.
    + reflexivity.
    + reflexivity.
Defined.

Lemma dListFilters_table_witness :
  linked (defs Console.configured) (allFilters Console.configured)
    [(2%positive, Console.cache_def);
     (1%positive, fresh_def "tee" "tee" None)] /\
  filter_options Console.cache_def = Some ["ttl=10"; "debug=1"] /\
  dListFilters Console.dcb_printf (Some 7%positive) Console.configured
  = Ret tt
      (set_world
         ("Filters" +:+ newline
          +:+ rule +:+ newline
          +:+ "Filter              | Module          | Options" +:+ newline
          +:+ rule +:+ newline
          +:+ "cache               | cache           | ttl=10 debug=1 "
          +:+ newline
          +:+ "tee                 | tee             | " +:+ newline
          +:+ rule +:+ newline +:+ newline)
         Console.configured).
Proof.
  assert (Hl : linked (defs Console.configured)
                 (allFilters Console.configured)
                 [(2%positive, Console.cache_def);
                  (1%positive, fresh_def "tee" "tee" None)])
    by linked_by_computation.
  assert (Hnd : NoDup [(2%positive, Console.cache_def);
                       (1%positive, fresh_def (W := string) "tee" "tee"
                                      None)].*1)
    by compute_done.
  split; [exact Hl |]. split; [reflexivity |].
  refine (eq_trans
            (dListFilters_table Console.dcb_printf (Some 7%positive)
               Console.configured _ [["ttl=10"; "debug=1"]; []] Hl Hnd _)
            eq_refl).
  repeat constructor; vm_compute; discriminate.
Defined.

Lemma dListFilters_most_recent_first_witness :
  allFilters Console.boot = None /\
  exists ps s1,
    register_all Console.mxs_alloc Scenario.three_filters Console.boot
    = Ret ps s1 /\
    dListFilters Console.dcb_printf (Some 7%positive) s1
    = Ret tt
        (set_world
           ("Filters" +:+ newline
            +:+ rule +:+ newline
            +:+ "Filter              | Module          | Options" +:+ newline
            +:+ rule +:+ newline
            +:+ "tee                 | tee             | " +:+ newline
            +:+ "cache               | cache           | " +:+ newline
            +:+ "hint                | hintfilter      | " +:+ newline
            +:+ rule +:+ newline +:+ newline)
           s1).
Proof.
  split; [reflexivity |].
  destruct (dListFilters_most_recent_first Console.mxs_alloc
              Console.dcb_printf (Some 7%positive) Console.boot
              Scenario.three_filters eq_refl)
    as (ps & s1 & Hrun & Hlist).
  exists ps, s1. split; [exact Hrun |].
  assert (Hps : Forall is_Some ps).
  { vm_compute in Hrun. injection Hrun as <- _.
    repeat constructor; now eexists. }
  assert (Hw : world s1 = EmptyString).
  { vm_compute in Hrun. now injection Hrun as _ <-. }
  refine (eq_trans (Hlist Hps) _). rewrite Hw. reflexivity.
Defined.

Lemma dprintFilter_details_witness :
  defs Console.configured !! 2%positive = Some Console.cache_def /\
  diagnosable Console.diagnostics Console.cache_def /\
  dprintFilter Console.dcb_printf Console.pointer_text Console.diagnostics
    (Some 7%positive) (Some 2%positive) Console.configured
  = Ret tt
      (set_world
         ("Filter 0b10 (cache)" +:+ newline
          +:+ tab +:+ "Module:      cache" +:+ newline
          +:+ tab +:+ "Options:     ttl=10 debug=1 " +:+ newline
          +:+ tab +:+ "No statistics." +:+ newline)
         Console.configured).
Proof.
  assert (Hdiag : diagnosable Console.diagnostics Console.cache_def)
    by (intros o _ _; now eexists).
  split; [reflexivity |]. split; [exact Hdiag |].
  destruct (dprintFilter_details Console.dcb_printf Console.pointer_text
              Console.diagnostics (Some 7%positive) 2%positive
              Console.cache_def ["ttl=10"; "debug=1"] Console.configured
              eq_refl eq_refl)
    as [Hrun _]; [vm_compute; discriminate | exact Hdiag |].
  exact (eq_trans Hrun eq_refl).
Defined.

Lemma dprintAllFilters_each_witness :
  linked (defs Console.configured) (allFilters Console.configured)
    [(2%positive, Console.cache_def);
     (1%positive, fresh_def "tee" "tee" None)] /\
  dprintAllFilters Console.dcb_printf Console.pointer_text
    Console.diagnostics (Some 7%positive) Console.configured
  = Ret tt
      (set_world
         ("Filter 0b10 (cache)" +:+ newline
          +:+ tab +:+ "Module:      cache" +:+ newline
          +:+ tab +:+ "Options:     ttl=10 debug=1 " +:+ newline
          +:+ tab +:+ "No statistics." +:+ newline
          +:+ "Filter 0b1 (tee)" +:+ newline
          +:+ tab +:+ "Module:      tee" +:+ newline
          +:+ tab +:+ "Module not loaded." +:+ newline)
         Console.configured).
Proof.
  assert (Hl : linked (defs Console.configured)
                 (allFilters Console.configured)
                 [(2%positive, Console.cache_def);
                  (1%positive, fresh_def "tee" "tee" None)])
    by linked_by_computation.
  assert (Hnd : NoDup [(2%positive, Console.cache_def);
                       (1%positive, fresh_def (W := string) "tee" "tee"
                                      None)].*1)
    by compute_done.
  split; [exact Hl |].
  refine (eq_trans
            (dprintAllFilters_each Console.dcb_printf Console.pointer_text
               Console.diagnostics (Some 7%positive) Console.configured
               _ [["ttl=10"; "debug=1"]; []] Hl Hnd _ _)
            eq_refl).
  - repeat constructor; vm_compute; discriminate.
  - repeat constructor; intros o _ _; now eexists.
Defined.
